(** * AgentCore gateway custom resource: a shallow embedding and its properties

    The program under study is the CloudFormation custom-resource Lambda
    [infra-cdk/lambdas/gateway-custom-resource/index.py].  It receives a
    lifecycle event (Create / Update / Delete), drives the remote AgentCore
    control plane, stores identifiers in SSM and reports the outcome with one
    HTTP PUT to the event's [ResponseURL].

    The embedding is a state-and-exception monad over
    - an abstract remote world [W], driven through an environment record
      [Env] with one field per boto3 / urllib3 call the source makes,
    - a clock (read by [time.time()], advanced by [time.sleep] and by the
      non-negative latency of each remote call),
    - the SSM parameter store as a [gmap string string],
    - the chronological trace of the calls the program has issued.

    Logging has no effect on control flow and is left out.

    A second, small program is embedded as well: the code-interpreter tools
    of the agent ([patterns/strands-single-agent/code_interpreter_tools.py]),
    an object that keeps one lazily started sandbox client.

    The file has four parts: the embedding of the programs, the vocabulary
    of the specifications, simulated collaborators on which the programs
    can be run, and the theorems, component by component. *)

From Stdlib Require Import ZArith List Lia String Ascii Bool.
From stdpp Require Import gmap strings list pretty.

Open Scope string_scope.
Open Scope list_scope.
Open Scope Z_scope.

(** ** Python values *)

(** Exceptions, all below [Exception] in Python's hierarchy.  [ClientError]
    stands for whatever boto3 or urllib3 raises; its argument is [str(e)]. *)
Inductive exn : Type :=
| KeyError (key : string)
| ValueError (msg : string)
| JSONDecodeError (msg : string)
| ClientError (msg : string)
| Exception (msg : string).

(** [str(e)]: a [KeyError] prints the repr of its key. *)
Definition str (e : exn) : string :=
  match e with
  | KeyError k => "'" +:+ k +:+ "'"
  | ValueError m | JSONDecodeError m | ClientError m | Exception m => m
  end.

Inductive result (A : Type) : Type :=
| Ok (a : A)
| Raise (e : exn).
Arguments Ok {A} a.
Arguments Raise {A} e.

(** [needle in hay] on Python strings. *)
Fixpoint contains (needle hay : string) : bool :=
  String.prefix needle hay ||
  match hay with
  | EmptyString => false
  | String _ rest => contains needle rest
  end.

(** Truthiness of an optional string: [None] and [""] are falsy. *)
Definition truthy (o : option string) : bool :=
  match o with
  | Some s => negb (String.eqb s "")
  | None => false
  end.

(** [a or b] where [a] is an optional string and [b] a string. *)
Definition py_or (a : option string) (b : string) : string :=
  match a with
  | Some s => if String.eqb s "" then b else s
  | None => b
  end.

(** ** Data model *)

(** The inbound CloudFormation event.  A field is [None] when the key is
    missing from the event dictionary. *)
Record Event : Type := {
  RequestType : option string;
  ResourceProperties : option (gmap string string);
  OldResourceProperties : option (gmap string string);
  PhysicalResourceId : option string;
  StackId : option string;
  RequestId : option string;
  LogicalResourceId : option string;
  ResponseURL : option string
}.

(** The body PUT to [ResponseURL] ([response_body] in [send_response]). *)
Record ResponseBody : Type := {
  rb_Status : string;
  rb_Reason : string;
  rb_PhysicalResourceId : string;
  rb_StackId : string;
  rb_RequestId : string;
  rb_LogicalResourceId : string;
  rb_Data : gmap string string
}.

(** One element of [list_gateways()["items"]]. *)
Record GatewaySummary : Type := {
  gs_name : string;
  gs_gatewayId : string
}.

(** The response of [get_gateway]; [gatewayUrl] may be absent. *)
Record GatewayDetails : Type := {
  gatewayId : string;
  status : string;
  gatewayUrl : option string
}.

(** One element of [list_gateway_targets()["items"]]. *)
Record TargetSummary : Type := {
  targetId : string
}.

Section Program.

(** [Doc] is the parsed tool schema ([json.loads(props["ApiSpec"])]); the
    program only passes it on. *)
Context {W Doc : Type}.

(** Calls issued by the program, as they appear in the trace. *)
Inductive call : Type :=
| CListGateways
| CGetGateway (gateway_id : string)
| CCreateGateway (name role_arn client_id discovery_url : string)
| CDeleteGateway (gateway_id : string)
| CListTargets (gateway_id : string)
| CCreateTarget (gateway_id lambda_arn : string) (api_spec : Doc)
| CUpdateTarget (gateway_id target_id lambda_arn : string) (api_spec : Doc)
| CDeleteTarget (gateway_id target_id : string)
| CPutParameter (name value : string)
| CHttpPut (url : string) (body : ResponseBody)
| CSleep (seconds : Z).

(** The collaborators.  Every remote call maps the world to a new world and
    either a response or an exception; a missing ["items"] key behaves as the
    empty list at both places the source reads it. *)
Record Env : Type := {
  json_loads : string -> result Doc;
  env_list_gateways : W -> W * result (list GatewaySummary);
  env_get_gateway : string -> W -> W * result GatewayDetails;
  env_create_gateway : string -> string -> string -> string -> W -> W * result string;
  env_delete_gateway : string -> W -> W * result unit;
  env_list_gateway_targets : string -> W -> W * result (list TargetSummary);
  env_create_gateway_target : string -> string -> Doc -> W -> W * result string;
  env_update_gateway_target : string -> string -> string -> Doc -> W -> W * result unit;
  env_delete_gateway_target : string -> string -> W -> W * result unit;
  env_put_parameter : string -> string -> W -> W * result unit;
  env_http_put : string -> ResponseBody -> W -> W * result unit;
  latency : W -> N
}.

Variable env : Env.

(** ** The monad *)

Record State : Type := {
  world : W;
  clock : Z;
  ssm : gmap string string;
  trace : list call
}.

Definition M (A : Type) : Type := State -> State * result A.

Definition ret {A} (a : A) : M A := fun s => (s, Ok a).

Definition raise {A} (e : exn) : M A := fun s => (s, Raise e).

Definition bind {A B} (m : M A) (f : A -> M B) : M B :=
  fun s =>
    match m s with
    | (s', Ok a) => f a s'
    | (s', Raise e) => (s', Raise e)
    end.

(** [try: m  except Exception as e: h e] *)
Definition try_catch {A} (m : M A) (h : exn -> M A) : M A :=
  fun s =>
    match m s with
    | (s', Ok a) => (s', Ok a)
    | (s', Raise e) => h e s'
    end.

Notation "x <- m ;; k" := (bind m (fun x => k))
  (at level 100, m at next level, right associativity).
Notation "m ;;; k" := (bind m (fun _ => k))
  (at level 100, right associativity).

(** A remote call: logged, takes [latency] time, answered by the world. *)
Definition api {A} (c : call) (f : W -> W * result A) : M A :=
  fun s =>
    let '(w, r) := f (world s) in
    ({| world := w;
        clock := clock s + Z.of_N (latency env w);
        ssm := ssm s;
        trace := trace s ++ [c] |}, r).

(** [time.time()] *)
Definition time_time : M Z := fun s => (s, Ok (clock s)).

(** [time.sleep(d)] *)
Definition time_sleep (d : Z) : M unit :=
  fun s =>
    ({| world := world s;
        clock := clock s + d;
        ssm := ssm s;
        trace := trace s ++ [CSleep d] |}, Ok tt).

(** [d[k]] on a dictionary of strings. *)
Definition getitem (d : gmap string string) (k : string) : M string :=
  match d !! k with
  | Some v => ret v
  | None => raise (KeyError k)
  end.

(** [event[k]] for a field of the event. *)
Definition event_item {A} (k : string) (o : option A) : M A :=
  match o with
  | Some v => ret v
  | None => raise (KeyError k)
  end.

(** ** boto3 / urllib3 wrappers *)

Definition list_gateways : M (list GatewaySummary) :=
  api CListGateways (env_list_gateways env).

Definition get_gateway (gateway_id : string) : M GatewayDetails :=
  api (CGetGateway gateway_id) (env_get_gateway env gateway_id).

Definition create_gateway_call (name role_arn client_id discovery_url : string)
  : M string :=
  api (CCreateGateway name role_arn client_id discovery_url)
      (env_create_gateway env name role_arn client_id discovery_url).

Definition delete_gateway_call (gateway_id : string) : M unit :=
  api (CDeleteGateway gateway_id) (env_delete_gateway env gateway_id).

Definition list_gateway_targets (gateway_id : string) : M (list TargetSummary) :=
  api (CListTargets gateway_id) (env_list_gateway_targets env gateway_id).

Definition create_gateway_target (gateway_id lambda_arn : string) (api_spec : Doc)
  : M string :=
  api (CCreateTarget gateway_id lambda_arn api_spec)
      (env_create_gateway_target env gateway_id lambda_arn api_spec).

Definition update_gateway_target (gateway_id target_id lambda_arn : string)
    (api_spec : Doc) : M unit :=
  api (CUpdateTarget gateway_id target_id lambda_arn api_spec)
      (env_update_gateway_target env gateway_id target_id lambda_arn api_spec).

Definition delete_gateway_target (gateway_id target_id : string) : M unit :=
  api (CDeleteTarget gateway_id target_id)
      (env_delete_gateway_target env gateway_id target_id).

(** [ssm_client.put_parameter(Name, Value, Type="String", Overwrite=True)]:
    when the call succeeds the store holds the new value. *)
Definition put_parameter (name value : string) : M unit :=
  fun s =>
    match api (CPutParameter name value) (env_put_parameter env name value) s with
    | (s', Ok tt) =>
        ({| world := world s'; clock := clock s';
            ssm := <[name := value]> (ssm s'); trace := trace s' |}, Ok tt)
    | (s', Raise e) => (s', Raise e)
    end.

Definition http_put (url : string) (body : ResponseBody) : M unit :=
  api (CHttpPut url body) (env_http_put env url body).

(** ** [send_response] (index.py 438-484) *)

Definition send_response (event : Event) (status : string)
    (reason : option string) (data : option (gmap string string))
    (physical_resource_id : option string) : M ResponseBody :=
  let physical :=
    if truthy physical_resource_id
    then default "" physical_resource_id
    else default "NONE" (PhysicalResourceId event) in
  stack_id <- event_item "StackId" (StackId event);;
  request_id <- event_item "RequestId" (RequestId event);;
  logical_id <- event_item "LogicalResourceId" (LogicalResourceId event);;
  let response_body :=
    {| rb_Status := status;
       rb_Reason := py_or reason (status +:+ ": See CloudWatch logs");
       rb_PhysicalResourceId := physical;
       rb_StackId := stack_id;
       rb_RequestId := request_id;
       rb_LogicalResourceId := logical_id;
       rb_Data := default ∅ data |} in
  url <- event_item "ResponseURL" (ResponseURL event);;
  http_put url response_body;;;
  ret response_body.

(** ** [update_ssm_parameters] (index.py 401-435) *)

Definition update_ssm_parameters (gateway_details : GatewayDetails)
    (target_id : string) (props : gmap string string) : M unit :=
  ssm_prefix <- getitem props "SsmPrefix";;
  (if truthy (gatewayUrl gateway_details)
   then put_parameter (ssm_prefix +:+ "/gateway_url")
                      (default "" (gatewayUrl gateway_details))
   else ret tt);;;
  put_parameter (ssm_prefix +:+ "/target_id") target_id;;;
  put_parameter (ssm_prefix +:+ "/gateway_id") (gatewayId gateway_details).

(** ** [wait_for_gateway_ready] (index.py 371-398)

    The [while] loop is unrolled on a fuel that is never exhausted: it is
    the time left before the deadline, and every iteration that continues
    sleeps ten time-units.  [wait_loop_unfold] below shows that the loop
    satisfies the source's own equation, fuel aside. *)

Definition gateway_timeout (max_wait : Z) : exn :=
  Exception ("Gateway not ready after " +:+ pretty max_wait +:+ "s").

Definition unexpected_status (st : string) : exn :=
  Exception ("Gateway in unexpected status: " +:+ st).

Definition poll (gateway_id : string) (continue : M unit) : M unit :=
  response <- get_gateway gateway_id;;
  let st := status response in
  if String.eqb st "READY" then ret tt
  else if String.eqb st "FAILED" || String.eqb st "DELETING"
       then raise (unexpected_status st)
       else time_sleep 10;;; continue.

Fixpoint wait_loop_fuel (fuel : nat) (gateway_id : string) (start_time max_wait : Z)
  : M unit :=
  now <- time_time;;
  if now - start_time <? max_wait
  then match fuel with
       | O => raise (gateway_timeout max_wait)
       | S fuel' => poll gateway_id (wait_loop_fuel fuel' gateway_id start_time max_wait)
       end
  else raise (gateway_timeout max_wait).

Definition wait_loop (gateway_id : string) (start_time max_wait : Z) : M unit :=
  fun s =>
    wait_loop_fuel (Z.to_nat (start_time + max_wait - clock s))
                   gateway_id start_time max_wait s.

Definition wait_for_gateway_ready (gateway_id : string) (max_wait : Z) : M unit :=
  start_time <- time_time;;
  wait_loop gateway_id start_time max_wait.

(** ** [create_target_with_retry] (index.py 274-324) *)

Definition transient (e : exn) : bool :=
  contains "CREATING" (str e) || contains "UPDATING" (str e).

Definition retries_exhausted (max_retries : nat) : exn :=
  Exception ("Failed to create target after " +:+ pretty max_retries +:+ " attempts").

(** The loop over [range(max_retries)]; the body yields [Some target_id] when
    it returns from the function and [None] when the loop goes on. *)
Fixpoint retry_loop (gateway_id lambda_arn : string) (api_spec : Doc)
    (max_retries : nat) (attempts : list nat) : M string :=
  match attempts with
  | [] => raise (retries_exhausted max_retries)
  | attempt :: rest =>
      r <- try_catch
             (target_id <- create_gateway_target gateway_id lambda_arn api_spec;;
              ret (Some target_id))
             (fun e =>
                if transient e
                then time_sleep (2 ^ Z.of_nat attempt);;; ret None
                else raise e);;
      match r with
      | Some target_id => ret target_id
      | None => retry_loop gateway_id lambda_arn api_spec max_retries rest
      end
  end.

Definition create_target_with_retry (gateway_id lambda_arn : string)
    (api_spec : Doc) (max_retries : nat) : M string :=
  retry_loop gateway_id lambda_arn api_spec max_retries (seq 0 max_retries).

(** ** [create_or_update_target] (index.py 327-368) *)

Definition create_or_update_target (gateway_id lambda_arn : string)
    (api_spec : Doc) : M string :=
  r <- try_catch
         (targets <- list_gateway_targets gateway_id;;
          match targets with
          | first :: _ =>
              update_gateway_target gateway_id (targetId first) lambda_arn api_spec;;;
              ret (Some (targetId first))
          | [] => ret None
          end)
         (fun _ => ret None);;
  match r with
  | Some target_id => ret target_id
  | None => create_target_with_retry gateway_id lambda_arn api_spec 5
  end.

(** ** Gateway URL resolution (index.py 127-132, 173-176, 224-227) *)

Definition fallback_url (gateway_id region : string) : string :=
  "https://" +:+ gateway_id +:+ ".gateway.bedrock-agentcore." +:+ region
  +:+ ".amazonaws.com/mcp".

Definition resolve_gateway_url (gateway_details : GatewayDetails)
    (gateway_id : string) (props : gmap string string) : M string :=
  if truthy (gatewayUrl gateway_details)
  then ret (default "" (gatewayUrl gateway_details))
  else region <- getitem props "Region";;
       ret (fallback_url gateway_id region).

Definition success_data (gateway_id gateway_url target_id : string)
  : gmap string string :=
  <["GatewayId" := gateway_id]>
    (<["GatewayUrl" := gateway_url]> (<["TargetId" := target_id]> ∅)).

(** ** [delete_gateway] (index.py 241-271) *)

Fixpoint delete_targets (gateway_id : string) (targets : list TargetSummary)
  : M unit :=
  match targets with
  | [] => ret tt
  | target :: rest =>
      delete_gateway_target gateway_id (targetId target);;;
      time_sleep 5;;;
      delete_targets gateway_id rest
  end.

Definition teardown (gateway_id : string) : M unit :=
  try_catch
    (targets <- list_gateway_targets gateway_id;;
     delete_targets gateway_id targets;;;
     delete_gateway_call gateway_id)
    (fun _ => ret tt).

Definition delete_gateway (event : Event) : M ResponseBody :=
  gateway_id <- event_item "PhysicalResourceId" (PhysicalResourceId event);;
  teardown gateway_id;;;
  send_response event "SUCCESS" None None (Some gateway_id).

(** ** [create_gateway] (index.py 88-189) *)

(** The body of the branch taken for a listed gateway of the wanted name. *)
Definition reuse_gateway (event : Event) (props : gmap string string)
    (lambda_arn : string) (api_spec : Doc) (gateway_id : string)
  : M ResponseBody :=
  gateway_details <- get_gateway gateway_id;;
  target_id <- create_or_update_target gateway_id lambda_arn api_spec;;
  update_ssm_parameters gateway_details target_id props;;;
  gateway_url <- resolve_gateway_url gateway_details gateway_id props;;
  send_response event "SUCCESS" None
    (Some (success_data gateway_id gateway_url target_id)) (Some gateway_id).

(** The [for gw in gateways.get("items", [])] loop: [Some body] when the
    function returns from inside the loop, [None] when the loop runs out. *)
Fixpoint scan_gateways (event : Event) (props : gmap string string)
    (gateway_name lambda_arn : string) (api_spec : Doc)
    (items : list GatewaySummary) : M (option ResponseBody) :=
  match items with
  | [] => ret None
  | gw :: rest =>
      if String.eqb (gs_name gw) gateway_name
      then body <- reuse_gateway event props lambda_arn api_spec (gs_gatewayId gw);;
           ret (Some body)
      else scan_gateways event props gateway_name lambda_arn api_spec rest
  end.

(** Lines 147-189: create a new gateway. *)
Definition create_new_gateway (event : Event) (props : gmap string string)
    (gateway_name lambda_arn : string) (api_spec : Doc) (gateway_role_arn : string)
  : M ResponseBody :=
  client_id <- getitem props "CognitoClientId";;
  discovery_url <- getitem props "CognitoDiscoveryUrl";;
  gateway_id <- create_gateway_call gateway_name gateway_role_arn client_id discovery_url;;
  wait_for_gateway_ready gateway_id 120;;;
  gateway_details <- get_gateway gateway_id;;
  target_id <- create_target_with_retry gateway_id lambda_arn api_spec 5;;
  update_ssm_parameters gateway_details target_id props;;;
  gateway_url <- resolve_gateway_url gateway_details gateway_id props;;
  send_response event "SUCCESS" None
    (Some (success_data gateway_id gateway_url target_id)) (Some gateway_id).

Definition parse_api_spec (text : string) : M Doc :=
  match json_loads env text with
  | Ok d => ret d
  | Raise e => raise e
  end.

Definition create_gateway (event : Event) (props : gmap string string)
  : M ResponseBody :=
  gateway_name <- getitem props "GatewayName";;
  lambda_arn <- getitem props "LambdaArn";;
  api_spec_text <- getitem props "ApiSpec";;
  api_spec <- parse_api_spec api_spec_text;;
  gateway_role_arn <- getitem props "GatewayRoleArn";;
  found <- try_catch
             (gateways <- list_gateways;;
              scan_gateways event props gateway_name lambda_arn api_spec gateways)
             (fun _ => ret None);;
  match found with
  | Some body => ret body
  | None =>
      create_new_gateway event props gateway_name lambda_arn api_spec gateway_role_arn
  end.

(** ** [update_gateway] (index.py 192-238) *)

Definition names_differ (event : Event) (props : gmap string string) : bool :=
  negb (bool_decide (default ∅ (OldResourceProperties event) !! "GatewayName"
                     = props !! "GatewayName")).

Definition update_in_place (event : Event) (props : gmap string string)
    (gateway_id lambda_arn : string) (api_spec : Doc) : M ResponseBody :=
  target_id <- create_or_update_target gateway_id lambda_arn api_spec;;
  gateway_details <- get_gateway gateway_id;;
  update_ssm_parameters gateway_details target_id props;;;
  gateway_url <- resolve_gateway_url gateway_details gateway_id props;;
  send_response event "SUCCESS" None
    (Some (success_data gateway_id gateway_url target_id)) (Some gateway_id).

Definition update_gateway (event : Event) (props : gmap string string)
  : M ResponseBody :=
  gateway_id <- event_item "PhysicalResourceId" (PhysicalResourceId event);;
  lambda_arn <- getitem props "LambdaArn";;
  api_spec_text <- getitem props "ApiSpec";;
  api_spec <- parse_api_spec api_spec_text;;
  if names_differ event props
  then delete_gateway event;;; create_gateway event props
  else update_in_place event props gateway_id lambda_arn api_spec.

(** ** [handler] (index.py 51-85) *)

Definition dispatch (request_type : string) (event : Event)
    (props : gmap string string) : M ResponseBody :=
  if String.eqb request_type "Create" then create_gateway event props
  else if String.eqb request_type "Update" then update_gateway event props
  else if String.eqb request_type "Delete" then delete_gateway event
  else raise (ValueError ("Unknown request type: " +:+ request_type)).

Definition handler (event : Event) : M ResponseBody :=
  request_type <- event_item "RequestType" (RequestType event);;
  props <- event_item "ResourceProperties" (ResourceProperties event);;
  try_catch
    (dispatch request_type event props)
    (fun e => send_response event "FAILED" (Some (str e)) None None).

End Program.

Arguments Env : clear implicits.
Arguments State : clear implicits.
Arguments call : clear implicits.

Notation "x <- m ;; k" := (bind m (fun x => k))
  (at level 100, m at next level, right associativity).
Notation "m ;;; k" := (bind m (fun _ => k))
  (at level 100, right associativity).

(** * Observing runs *)

(** Counting the calls of one kind in a trace. *)
Fixpoint count {A} (p : A -> bool) (l : list A) : nat :=
  match l with
  | [] => O
  | x :: l' => if p x then S (count p l') else count p l'
  end.

Definition is_create_target {Doc} (c : call Doc) : bool :=
  match c with CCreateTarget _ _ _ => true | _ => false end.

Definition is_sleep {Doc} (c : call Doc) : bool :=
  match c with CSleep _ => true | _ => false end.

Definition is_get_gateway {Doc} (c : call Doc) : bool :=
  match c with CGetGateway _ => true | _ => false end.

Definition is_http_put {Doc} (c : call Doc) : bool :=
  match c with CHttpPut _ _ => true | _ => false end.

Definition is_create_gateway {Doc} (c : call Doc) : bool :=
  match c with CCreateGateway _ _ _ _ => true | _ => false end.

Definition is_delete_gateway {Doc} (c : call Doc) : bool :=
  match c with CDeleteGateway _ => true | _ => false end.

Definition is_list_targets {Doc} (c : call Doc) : bool :=
  match c with CListTargets _ => true | _ => false end.

Definition http_puts {Doc} (t : list (call Doc)) : list (string * ResponseBody) :=
  omap (fun c => match c with CHttpPut url body => Some (url, body) | _ => None end) t.

Definition sleeps {Doc} (t : list (call Doc)) : list Z :=
  omap (fun c => match c with CSleep d => Some d | _ => None end) t.

Definition statuses_and_ids {Doc} (t : list (call Doc)) : list (string * string) :=
  map (fun p => (rb_Status p.2, rb_PhysicalResourceId p.2)) (http_puts t).

(** The gateway a call is addressed to, when it names one. *)
Definition addressed {Doc} (c : call Doc) : option string :=
  match c with
  | CGetGateway g | CDeleteGateway g | CListTargets g
  | CCreateTarget g _ _ | CUpdateTarget g _ _ _ | CDeleteTarget g _ => Some g
  | _ => None
  end.

(** The number of callbacks sent so far, and the calls that are none. *)
Definition callbacks {W Doc} (s : State W Doc) : nat :=
  count is_http_put (trace s).

Definition quiet {Doc} (c : call Doc) : Prop := is_http_put c = false.

(** The first listed gateway called [name]. *)
Fixpoint first_named (name : string) (items : list GatewaySummary)
  : option GatewaySummary :=
  match items with
  | [] => None
  | gw :: rest =>
      if String.eqb (gs_name gw) name then Some gw else first_named name rest
  end.

(** * The vocabulary of the specifications

    States reached by single steps, the growth of a trace, weakest
    preconditions, the footprint (the calls it may issue) of every function
    of the program, and the predicates the theorems are stated with. *)

Section Vocabulary.

Context {W Doc : Type} (env : Env W Doc).

Abbreviation St := (State W Doc).

(** The state of a remote call that was answered with world [w]. *)
Definition after_call (c : call Doc) (w : W) (s : St) : St :=
  {| world := w; clock := clock s + Z.of_N (latency env w);
     ssm := ssm s; trace := trace s ++ [c] |}.

Definition after_sleep (d : Z) (s : St) : St :=
  {| world := world s; clock := clock s + d;
     ssm := ssm s; trace := trace s ++ [CSleep d] |}.

Definition after_put (name value : string) (s : St) : St :=
  {| world := world s; clock := clock s;
     ssm := <[name := value]> (ssm s); trace := trace s |}.

(** ** Runs only grow the trace

    [grows phi s0 s]: from [s0] to [s] the program issued only calls that
    satisfy [phi], and every SSM key that [phi] never lets be written holds
    what it held in [s0]. *)
Definition grows (phi : call Doc -> Prop) (s0 s : St) : Prop :=
  exists l, trace s = trace s0 ++ l /\ Forall phi l /\
    forall k, (forall v, ~ phi (CPutParameter k v)) -> ssm s !! k = ssm s0 !! k.

(** [wp m Q E s]: run from [s], the program [m] ends in a state and value
    that satisfy [Q], or in a state and exception that satisfy [E]. *)
Definition wp {A} (m : M A) (Q : A -> St -> Prop) (E : exn -> St -> Prop)
    (s : St) : Prop :=
  match m s with
  | (s', Ok a) => Q a s'
  | (s', Raise e) => E e s'
  end.

(** The body [send_response] builds. *)
Definition callback_body (event : Event) (status : string) (reason : option string)
    (data : option (gmap string string)) (physical : option string)
    (stack_id request_id logical_id : string) : ResponseBody :=
  {| rb_Status := status;
     rb_Reason := py_or reason (status +:+ ": See CloudWatch logs");
     rb_PhysicalResourceId :=
       if truthy physical then default "" physical
       else default "NONE" (PhysicalResourceId event);
     rb_StackId := stack_id;
     rb_RequestId := request_id;
     rb_LogicalResourceId := logical_id;
     rb_Data := default ∅ data |}.

(** What the store holds once the parameters are written. *)
Definition stored (prefix : string) (d : GatewayDetails) (target_id : string)
    (s : St) : Prop :=
  ssm s !! (prefix +:+ "/target_id") = Some target_id /\
  ssm s !! (prefix +:+ "/gateway_id") = Some (gatewayId d) /\
  (truthy (gatewayUrl d) = true ->
   ssm s !! (prefix +:+ "/gateway_url") = gatewayUrl d).

(** The statuses that end the readiness wait. *)
Definition terminal (st : string) : bool :=
  String.eqb st "READY" || String.eqb st "FAILED" || String.eqb st "DELETING".

(** [d] is an answer of [get_gateway] for [gateway_id]. *)
Definition reported (gateway_id : string) (d : GatewayDetails) : Prop :=
  exists w w', env_get_gateway env gateway_id w = (w', Ok d).

(** [gateway_id] belongs to a listed gateway called [name]. *)
Definition listed (name gateway_id : string) : Prop :=
  exists w w' items gw,
    env_list_gateways env w = (w', Ok items) /\ In gw items /\
    gs_name gw = name /\ gs_gatewayId gw = gateway_id.

(** [gateway_id] is the answer of a [create_gateway] call for [name]. *)
Definition created (name gateway_id : string) : Prop :=
  exists role_arn client_id discovery_url w w',
    env_create_gateway env name role_arn client_id discovery_url w
      = (w', Ok gateway_id).

(** The URL resolved from the record [d]: the reported one when there is
    one, the template otherwise. *)
Definition resolved (props : gmap string string) (d : GatewayDetails)
    (gateway_id url : string) : Prop :=
  (truthy (gatewayUrl d) = true /\ gatewayUrl d = Some url) \/
  (truthy (gatewayUrl d) = false /\
   exists region, props !! "Region" = Some region /\
                  url = fallback_url gateway_id region).

(** A SUCCESS outcome for the gateway [gateway_id]: its data and the store
    agree with a record the remote reported for that gateway. *)
Definition reconciled (event : Event) (props : gmap string string)
    (gateway_id : string) (body : ResponseBody) (s : St) : Prop :=
  exists d target_id url prefix,
    reported gateway_id d /\ resolved props d gateway_id url /\
    props !! "SsmPrefix" = Some prefix /\ stored prefix d target_id s /\
    rb_Status body = "SUCCESS" /\
    rb_Data body = success_data gateway_id url target_id /\
    rb_PhysicalResourceId body =
      (if String.eqb gateway_id ""
       then default "NONE" (PhysicalResourceId event) else gateway_id).

(** Where the id of a reconciled gateway comes from. *)
Definition origin (props : gmap string string) (gateway_id : string) : Prop :=
  exists name, props !! "GatewayName" = Some name /\
    (listed name gateway_id \/ created name gateway_id).

(** ** Footprints

    The calls a function of the program may issue, one inductive predicate
    per function. *)

Inductive fp_send : call Doc -> Prop :=
| fp_send_put url body : fp_send (CHttpPut url body).

Inductive fp_ssm (prefix : string) (d : GatewayDetails) (target_id : string)
  : call Doc -> Prop :=
| fp_ssm_url u :
    gatewayUrl d = Some u -> u <> "" ->
    fp_ssm prefix d target_id (CPutParameter (prefix +:+ "/gateway_url") u)
| fp_ssm_target :
    fp_ssm prefix d target_id (CPutParameter (prefix +:+ "/target_id") target_id)
| fp_ssm_gateway :
    fp_ssm prefix d target_id (CPutParameter (prefix +:+ "/gateway_id") (gatewayId d)).

Inductive fp_retry (gateway_id lambda_arn : string) (api_spec : Doc)
  : call Doc -> Prop :=
| fp_retry_create :
    fp_retry gateway_id lambda_arn api_spec
      (CCreateTarget gateway_id lambda_arn api_spec)
| fp_retry_sleep d : fp_retry gateway_id lambda_arn api_spec (CSleep d).

Inductive fp_target (gateway_id lambda_arn : string) (api_spec : Doc)
  : call Doc -> Prop :=
| fp_target_update target_id :
    fp_target gateway_id lambda_arn api_spec
      (CUpdateTarget gateway_id target_id lambda_arn api_spec)
| fp_target_retry c :
    fp_retry gateway_id lambda_arn api_spec c ->
    fp_target gateway_id lambda_arn api_spec c.

Inductive fp_wait (gateway_id : string) : call Doc -> Prop :=
| fp_wait_get : fp_wait gateway_id (CGetGateway gateway_id)
| fp_wait_sleep d : fp_wait gateway_id (CSleep d).

Inductive fp_teardown (gateway_id : string) : call Doc -> Prop :=
| fp_teardown_list : fp_teardown gateway_id (CListTargets gateway_id)
| fp_teardown_target target_id :
    fp_teardown gateway_id (CDeleteTarget gateway_id target_id)
| fp_teardown_sleep : fp_teardown gateway_id (CSleep 5)
| fp_teardown_gateway : fp_teardown gateway_id (CDeleteGateway gateway_id).

Inductive fp_finish (props : gmap string string) (gateway_id : string)
  : call Doc -> Prop :=
| fp_finish_ssm prefix d target_id c :
    props !! "SsmPrefix" = Some prefix -> reported gateway_id d ->
    fp_ssm prefix d target_id c -> fp_finish props gateway_id c
| fp_finish_send url body : fp_finish props gateway_id (CHttpPut url body).

(** The calls of the branch that reuses the listed gateway [gateway_id]. *)
Inductive fp_reuse (props : gmap string string) (gateway_id : string)
  : call Doc -> Prop :=
| fp_reuse_get : fp_reuse props gateway_id (CGetGateway gateway_id)
| fp_reuse_list : fp_reuse props gateway_id (CListTargets gateway_id)
| fp_reuse_target lambda_arn api_spec c :
    fp_target gateway_id lambda_arn api_spec c -> fp_reuse props gateway_id c
| fp_reuse_finish c : fp_finish props gateway_id c -> fp_reuse props gateway_id c.

Inductive fp_create (props : gmap string string) : call Doc -> Prop :=
| fp_create_list : fp_create props CListGateways
| fp_create_gateway name role_arn client_id discovery_url :
    fp_create props (CCreateGateway name role_arn client_id discovery_url)
| fp_create_wait gateway_id c : fp_wait gateway_id c -> fp_create props c
| fp_create_reuse gateway_id c : fp_reuse props gateway_id c -> fp_create props c.

Inductive fp_in_place (props : gmap string string) (gateway_id : string)
  : call Doc -> Prop :=
| fp_in_place_target lambda_arn api_spec c :
    fp_target gateway_id lambda_arn api_spec c -> fp_in_place props gateway_id c
| fp_in_place_get : fp_in_place props gateway_id (CGetGateway gateway_id)
| fp_in_place_finish c : fp_finish props gateway_id c -> fp_in_place props gateway_id c.

Inductive fp_handler (event : Event) : call Doc -> Prop :=
| fp_handler_create props c :
    ResourceProperties event = Some props -> fp_create props c -> fp_handler event c
| fp_handler_teardown gateway_id c :
    PhysicalResourceId event = Some gateway_id -> fp_teardown gateway_id c ->
    fp_handler event c
| fp_handler_send c : fp_send c -> fp_handler event c.

(** What the handler can return: a FAILED outcome, the SUCCESS of a delete,
    or the SUCCESS of a reconciled gateway. *)
Definition handled (event : Event) (body : ResponseBody) (s : St) : Prop :=
  rb_Status body = "FAILED" \/
  (rb_Status body = "SUCCESS" /\ rb_Data body = ∅) \/
  (exists props gateway_id,
      ResourceProperties event = Some props /\
      reconciled event props gateway_id body s).

(** [sends_one m]: a run of [m] that returns has sent one callback, a run
    that raises has sent none. *)
Definition sends_one {A} (m : M A) : Prop :=
  forall n (s : State W Doc), callbacks s = n ->
    wp m (fun _ s' => callbacks s' = S n) (fun _ s' => callbacks s' = n) s.

(** The update takes the delete-then-create path. *)
Definition renames (event : Event) (props : gmap string string) : bool :=
  match PhysicalResourceId event, props !! "LambdaArn", props !! "ApiSpec" with
  | Some _, Some _, Some text =>
      match json_loads env text with
      | Ok _ => names_differ event props
      | Raise _ => false
      end
  | _, _, _ => false
  end.

(** ** Scripts of remote answers *)

Section RetryVocabulary.

Variables (gateway_id lambda_arn : string) (api_spec : Doc).

Abbreviation create_call := (CCreateTarget gateway_id lambda_arn api_spec).

(** [transient_failures k w w']: starting in world [w], [k] create calls in a
    row fail with a transient-state error, leaving the world [w']. *)
Inductive transient_failures : nat -> W -> W -> Prop :=
| tf_none w : transient_failures 0 w w
| tf_more k w w1 w2 e :
    env_create_gateway_target env gateway_id lambda_arn api_spec w = (w1, Raise e) ->
    transient e = true ->
    transient_failures k w1 w2 ->
    transient_failures (S k) w w2.

(** The calls of [k] failed attempts numbered from [first]: a create call
    and a sleep of [2 ^ attempt] each. *)
Fixpoint retry_trace (first k : nat) : list (call Doc) :=
  match k with
  | O => []
  | S k' => create_call :: CSleep (2 ^ Z.of_nat first) :: retry_trace (S first) k'
  end.

End RetryVocabulary.

Section PollVocabulary.

Variables (gateway_id : string) (start_time max_wait : Z).

Abbreviation get_call := (CGetGateway gateway_id : call Doc).

(** [pending k s s']: from [s], [k] polls in a row are made before the
    deadline and observe a status that is neither READY, FAILED nor DELETING;
    each is followed by a sleep of ten time-units, which leads to [s']. *)
Inductive pending : nat -> State W Doc -> State W Doc -> Prop :=
| pending_none s : pending 0 s s
| pending_more k s w d s' :
    clock s - start_time < max_wait ->
    env_get_gateway env gateway_id (world s) = (w, Ok d) ->
    terminal (status d) = false ->
    pending k (after_sleep 10 (after_call get_call w s)) s' ->
    pending (S k) s s'.

(** The calls of [k] pending polls. *)
Fixpoint poll_trace (k : nat) : list (call Doc) :=
  match k with
  | O => []
  | S k' => get_call :: CSleep 10 :: poll_trace k'
  end.

End PollVocabulary.

End Vocabulary.

(** * A simulated control plane

    A small stand-in for the collaborators, used to run the program on
    concrete events.  Gateways and targets are kept in lists; failures are
    injected per operation through [errors], which maps the name of an
    operation to the message of the error it raises; [url] is the
    [gatewayUrl] field of every gateway record. *)

Record Fake : Type := {
  (* the gateways, in order of creation *)
  fk_gateways : list GatewaySummary;
  (* the targets, as (gateway id, target id) *)
  fk_targets : list (string * string);
  (* the statuses successive get_gateway calls report; READY once exhausted *)
  fk_statuses : list string;
  (* the errors successive create_gateway_target calls raise *)
  fk_create_target_errors : list string;
  (* the number of the next fresh identifier *)
  fk_serial : nat
}.

Definition fk_fail {A} (errors : gmap string string) (op : string) (w : Fake)
    (k : Fake * result A) : Fake * result A :=
  match errors !! op with
  | Some m => (w, Raise (ClientError m))
  | None => k
  end.

Definition fk_with_gateways (w : Fake) (gws : list GatewaySummary) (serial : nat)
  : Fake :=
  {| fk_gateways := gws;
     fk_targets := fk_targets w;
     fk_statuses := fk_statuses w;
     fk_create_target_errors := fk_create_target_errors w;
     fk_serial := serial |}.

Definition fk_with_targets (w : Fake) (tgts : list (string * string)) (serial : nat)
  : Fake :=
  {| fk_gateways := fk_gateways w;
     fk_targets := tgts;
     fk_statuses := fk_statuses w;
     fk_create_target_errors := fk_create_target_errors w;
     fk_serial := serial |}.

Definition fk_with_statuses (w : Fake) (sts : list string) : Fake :=
  {| fk_gateways := fk_gateways w;
     fk_targets := fk_targets w;
     fk_statuses := sts;
     fk_create_target_errors := fk_create_target_errors w;
     fk_serial := fk_serial w |}.

Definition fk_with_create_target_errors (w : Fake) (errs : list string) : Fake :=
  {| fk_gateways := fk_gateways w;
     fk_targets := fk_targets w;
     fk_statuses := fk_statuses w;
     fk_create_target_errors := errs;
     fk_serial := fk_serial w |}.

Definition fake_env (errors : gmap string string) (url : option string)
  : Env Fake string :=
  {| json_loads := fun text =>
       if String.eqb text ""
       then Raise (JSONDecodeError "Expecting value: line 1 column 1 (char 0)")
       else Ok text;
     env_list_gateways := fun w =>
       fk_fail errors "list_gateways" w (w, Ok (fk_gateways w));
     env_get_gateway := fun gateway_id w =>
       fk_fail errors "get_gateway" w
         (fk_with_statuses w (tail (fk_statuses w)),
          Ok {| gatewayId := gateway_id;
                status := hd "READY" (fk_statuses w);
                gatewayUrl := url |});
     env_create_gateway := fun name _ _ _ w =>
       fk_fail errors "create_gateway" w
         (let gateway_id := "gw-" +:+ pretty (fk_serial w) in
          (fk_with_gateways w
             (fk_gateways w ++ [{| gs_name := name; gs_gatewayId := gateway_id |}])
             (S (fk_serial w)),
           Ok gateway_id));
     env_delete_gateway := fun gateway_id w =>
       fk_fail errors "delete_gateway" w
         (if existsb (fun gw => String.eqb (gs_gatewayId gw) gateway_id) (fk_gateways w)
          then (fk_with_gateways w
                  (filter (fun gw => gs_gatewayId gw ≠ gateway_id) (fk_gateways w))
                  (fk_serial w),
                Ok tt)
          else (w, Raise (ClientError "ResourceNotFoundException: gateway not found")));
     env_list_gateway_targets := fun gateway_id w =>
       fk_fail errors "list_gateway_targets" w
         (w, Ok (map (fun t => {| targetId := t.2 |})
                     (filter (fun t => t.1 = gateway_id) (fk_targets w))));
     env_create_gateway_target := fun gateway_id _ _ w =>
       match fk_create_target_errors w with
       | m :: rest => (fk_with_create_target_errors w rest, Raise (ClientError m))
       | [] =>
           let target_id := "tgt-" +:+ pretty (fk_serial w) in
           (fk_with_targets w (fk_targets w ++ [(gateway_id, target_id)])
              (S (fk_serial w)),
            Ok target_id)
       end;
     env_update_gateway_target := fun _ _ _ _ w =>
       fk_fail errors "update_gateway_target" w (w, Ok tt);
     env_delete_gateway_target := fun gateway_id target_id w =>
       fk_fail errors "delete_gateway_target" w
         (fk_with_targets w
            (filter (fun t => t ≠ (gateway_id, target_id)) (fk_targets w))
            (fk_serial w),
          Ok tt);
     env_put_parameter := fun _ _ w => fk_fail errors "put_parameter" w (w, Ok tt);
     env_http_put := fun _ _ w => fk_fail errors "http_put" w (w, Ok tt);
     latency := fun _ => 0%N |}.

(** An empty control plane on which every call succeeds. *)
Definition fake0 : Fake :=
  {| fk_gateways := []; fk_targets := []; fk_statuses := [];
     fk_create_target_errors := []; fk_serial := 1 |}.

Definition start (w : Fake) : State Fake string :=
  {| world := w; clock := 0; ssm := ∅; trace := [] |}.

Definition demo_props (name : string) : gmap string string :=
  list_to_map
    [("GatewayName", name); ("LambdaArn", "arn:aws:lambda:fn");
     ("ApiSpec", "[]"); ("GatewayRoleArn", "arn:aws:iam:role");
     ("CognitoClientId", "client"); ("CognitoDiscoveryUrl", "https://idp/.well-known");
     ("Region", "us-east-1"); ("SsmPrefix", "/gasp")].

Definition demo_event (request_type : string) (name : string)
    (old : option (gmap string string)) (physical : option string) : Event :=
  {| RequestType := Some request_type;
     ResourceProperties := Some (demo_props name);
     OldResourceProperties := old;
     PhysicalResourceId := physical;
     StackId := Some "stack";
     RequestId := Some "req";
     LogicalResourceId := Some "Gateway";
     ResponseURL := Some "https://cfn/callback" |}.

(** A control plane holding one gateway with one target. *)
Definition fake1 : Fake :=
  {| fk_gateways := [{| gs_name := "demo"; gs_gatewayId := "gw-1" |}];
     fk_targets := [("gw-1", "tgt-1")]; fk_statuses := [];
     fk_create_target_errors := []; fk_serial := 2 |}.

(** A gateway that answers the first [n] target creations with a
    "still CREATING" error. *)
Definition fake_creating (n : nat) : Fake :=
  fk_with_create_target_errors fake1
    (repeat "ValidationException: gateway gw-1 is in CREATING state" n).

(** A gateway whose successive status reads are [sts] (then READY). *)
Definition fake_polling (sts : list string) : Fake := fk_with_statuses fake1 sts.

(** An UPDATE that renames the gateway [demo] (physical id [gw-1]) to [new]. *)
Definition rename_event : Event :=
  demo_event "Update" "new" (Some (demo_props "demo")) (Some "gw-1").

(** An UPDATE that keeps the name of [demo]. *)
Definition same_name_event : Event :=
  demo_event "Update" "demo" (Some (demo_props "demo")) (Some "gw-1").

(** The UPDATE sent when a rename of [demo] to [renamed] is rolled back. *)
Definition rollback_event : Event :=
  demo_event "Update" "demo" (Some (demo_props "renamed")) (Some "gw-1").

(** * Further vocabulary

    Observations and predicates used by the theorems on single components:
    the calls that delete or store something, the parameters the program
    keeps, the calls of a teardown, the time slept in a trace, and runs
    that never answer. *)

(** The control-plane calls that delete something. *)
Definition is_delete {Doc} (c : call Doc) : bool :=
  match c with CDeleteGateway _ | CDeleteTarget _ _ => true | _ => false end.

Definition is_put_parameter {Doc} (c : call Doc) : bool :=
  match c with CPutParameter _ _ => true | _ => false end.

(** The three parameters the program keeps under [prefix]. *)
Definition parameter_names (prefix : string) : list string :=
  [prefix +:+ "/gateway_url"; prefix +:+ "/target_id"; prefix +:+ "/gateway_id"].

(** The parameters [update_ssm_parameters] writes, in the order in which it
    writes them. *)
Definition ssm_writes (prefix : string) (d : GatewayDetails) (target_id : string)
  : list (string * string) :=
  (if truthy (gatewayUrl d)
   then [(prefix +:+ "/gateway_url", default "" (gatewayUrl d))] else [])
  ++ [(prefix +:+ "/target_id", target_id);
      (prefix +:+ "/gateway_id", gatewayId d)].

(** The store after the writes [l], the first of them first. *)
Definition written (l : list (string * string)) (m : gmap string string)
  : gmap string string :=
  foldl (fun acc p => <[p.1 := p.2]> acc) m l.

Definition put_calls {Doc} (l : list (string * string)) : list (call Doc) :=
  map (fun p => CPutParameter p.1 p.2) l.

(** The calls that delete the targets [targets] of a gateway: each deletion
    is followed by a sleep of five time-units. *)
Definition deletions {Doc} (gateway_id : string) (targets : list TargetSummary)
  : list (call Doc) :=
  flat_map (fun t => [CDeleteTarget gateway_id (targetId t); CSleep 5]) targets.

(** The time slept in a trace. *)
Definition total_sleep {Doc} (t : list (call Doc)) : Z := foldr Z.add 0 (sleeps t).

(** The event fields [send_response] reads with [event[...]]. *)
Definition callback_keys : list string :=
  ["StackId"; "RequestId"; "LogicalResourceId"; "ResponseURL"].

(** [unanswered m]: a run of [m] never returns and sends no callback. *)
Definition unanswered {W Doc A} (m : State W Doc -> State W Doc * result A) : Prop :=
  forall n (s : State W Doc), callbacks s = n ->
    wp m (fun _ _ => False) (fun _ s' => callbacks s' = n) s.

(** ** Reconciliations and the URL parameter *)

Section UrlVocabulary.

Context {W Doc : Type} (env : Env W Doc).









End UrlVocabulary.


(** * The code-interpreter tools
      (patterns/strands-single-agent/code_interpreter_tools.py)

    [CodeInterpreterTools] keeps one lazily created sandbox client in
    [self._code_client].  The object is embedded by explicit state passing:
    the state holds the remote world, the field [_code_client] and the trace
    of the calls the tools' own code makes to the client library (what the
    library does inside such a call, a session start inside [invoke] for
    one, belongs to the world).  [C] is the type of client
    objects (a client object is truthy, as any Python object without
    [__bool__] is), [J] the type of the JSON values found in a response. *)

Module Interpreter.

Section Tools.

Context {W C J : Type}.

(** Calls to the client library. *)
Inductive call : Type :=
| New (region : string)
| Start (client : C)
| Stop (client : C)
| Invoke (client : C) (method code language : string) (clear_context : bool).

(** The response of [client.invoke]: [stream] is absent when the response
    has no ["stream"] key, and it is read as the list of its events; an event
    carries its ["result"] or lacks the key. *)
Record Response : Type := {
  stream : option (list (option J))
}.

Record Env : Type := {
  code_interpreter : string -> W -> W * result C;
  client_start : C -> W -> W * result unit;
  client_stop : C -> W -> W * result unit;
  client_invoke : C -> string -> string -> string -> bool -> W -> W * result Response;
  json_dumps : J -> string
}.

Variable env : Env.

(** The object: [self.region] and [self._code_client], with the world and
    the trace. *)
Record Tools : Type := {
  region : string;
  code_client : option C;
  world : W;
  trace : list call
}.

Definition step (c : call) (w : W) (client : option C) (self : Tools) : Tools :=
  {| region := region self; code_client := client; world := w;
     trace := trace self ++ [c] |}.

(** [__init__] *)
Definition init (region : string) (w : W) : Tools :=
  {| region := region; code_client := None; world := w; trace := [] |}.

(** [_get_code_interpreter_client] *)
Definition get_code_interpreter_client (self : Tools) : Tools * result C :=
  match code_client self with
  | Some client => (self, Ok client)
  | None =>
      match code_interpreter env (region self) (world self) with
      | (w, Raise e) => (step (New (region self)) w None self, Raise e)
      | (w, Ok client) =>
          let self1 := step (New (region self)) w (Some client) self in
          match client_start env client w with
          | (w', Raise e) => (step (Start client) w' (Some client) self1, Raise e)
          | (w', Ok _) => (step (Start client) w' (Some client) self1, Ok client)
          end
      end
  end.

(** [cleanup] *)
Definition cleanup (self : Tools) : Tools * result unit :=
  match code_client self with
  | Some client =>
      match client_stop env client (world self) with
      | (w, Raise e) => (step (Stop client) w (Some client) self, Raise e)
      | (w, Ok _) => (step (Stop client) w None self, Ok tt)
      end
  | None => (self, Ok tt)
  end.

Definition newline : string := String "010"%char EmptyString.

(** The code that is sent: [f"# {description}\n{code}"] when a description
    is given. *)
Definition annotated (code description : string) : string :=
  if String.eqb description "" then code
  else "# " +:+ description +:+ newline +:+ code.

(** [execute_python]: the loop over the stream returns on its first event;
    with no event the function returns [None]. *)
Definition execute_python (code description : string) (self : Tools)
  : Tools * result (option string) :=
  match get_code_interpreter_client self with
  | (self1, Raise e) => (self1, Raise e)
  | (self1, Ok client) =>
      let code := annotated code description in
      match client_invoke env client "executeCode" code "python" false (world self1) with
      | (w, Raise e) =>
          (step (Invoke client "executeCode" code "python" false) w
                (code_client self1) self1, Raise e)
      | (w, Ok response) =>
          let self2 := step (Invoke client "executeCode" code "python" false) w
                         (code_client self1) self1 in
          match stream response with
          | None => (self2, Raise (KeyError "stream"))
          | Some [] => (self2, Ok None)
          | Some (None :: _) => (self2, Raise (KeyError "result"))
          | Some (Some result :: _) => (self2, Ok (Some (json_dumps env result)))
          end
      end
  end.

(** A session: [execute_python] called for each request in turn, whatever
    each call returns or raises. *)
Fixpoint execute_all (requests : list (string * string)) (self : Tools) : Tools :=
  match requests with
  | [] => self
  | (code, description) :: rest =>
      execute_all rest (execute_python code description self).1
  end.

Definition is_start (c : call) : bool :=
  match c with Start _ => true | _ => false end.

(** The client an invocation goes to. *)
Definition invoked (c : call) : option C :=
  match c with Invoke client _ _ _ _ => Some client | _ => None end.

End Tools.

Arguments call : clear implicits.
Arguments Response : clear implicits.
Arguments Env : clear implicits.
Arguments Tools : clear implicits.

End Interpreter.

(** A simulated sandbox: clients are numbered; for the clients listed in
    [broken] no session can be started, so that [start] raises and so does
    every invocation; every other invocation answers with the events
    [events]. *)
Definition fake_sandbox (broken : list nat) (events : option (list (option string)))
  : Interpreter.Env nat nat string :=
  {| Interpreter.code_interpreter := fun _ w => (S w, Ok w);
     Interpreter.client_start := fun client w =>
       if existsb (Nat.eqb client) broken
       then (w, Raise (ClientError "start failed")) else (w, Ok tt);
     Interpreter.client_stop := fun _ w => (w, Ok tt);
     Interpreter.client_invoke := fun client _ _ _ _ w =>
       if existsb (Nat.eqb client) broken
       then (w, Raise (ClientError "start failed"))
       else (w, Ok {| Interpreter.stream := events |});
     Interpreter.json_dumps := fun result => result |}.

(** * Runs only grow the trace *)

Ltac invert H := inversion H; subst; clear H.

Section Reasoning.

Context {W Doc : Type} (env : Env W Doc).

Lemma grows_refl phi (s : State W Doc) : grows phi s s.
Proof. exists []. rewrite app_nil_r. repeat split; auto. Qed.

Lemma grows_call phi (s0 s : State W Doc) c w :
  phi c -> grows phi s0 s -> grows phi s0 (after_call env c w s).
Proof.
  intros Hc (l & Ht & Hl & Hk). exists (l ++ [c]). simpl.
  rewrite Ht, app_assoc. repeat split; auto.
  apply Forall_app; split; auto.
Qed.

Lemma grows_sleep phi (s0 s : State W Doc) d :
  phi (CSleep d) -> grows phi s0 s -> grows phi s0 (after_sleep d s).
Proof.
  intros Hc (l & Ht & Hl & Hk). exists (l ++ [CSleep d]). simpl.
  rewrite Ht, app_assoc. repeat split; auto.
  apply Forall_app; split; auto.
Qed.

Lemma grows_put phi (s0 s : State W Doc) name value w :
  phi (CPutParameter name value) -> grows phi s0 s ->
  grows phi s0 (after_put name value (after_call env (CPutParameter name value) w s)).
Proof.
  intros Hc (l & Ht & Hl & Hk). exists (l ++ [CPutParameter name value]). simpl.
  rewrite Ht, app_assoc. repeat split; auto.
  - apply Forall_app; split; auto.
  - intros k Hno. rewrite lookup_insert_ne; [apply Hk, Hno |].
    intros ->. apply (Hno value), Hc.
Qed.


Lemma grows_trans phi (s0 s1 s2 : State W Doc) :
  grows phi s0 s1 -> grows phi s1 s2 -> grows phi s0 s2.
Proof.
  intros (l1 & Ht1 & Hl1 & Hk1) (l2 & Ht2 & Hl2 & Hk2).
  exists (l1 ++ l2). rewrite Ht2, Ht1, app_assoc. repeat split; auto.
  - apply Forall_app; split; auto.
  - intros k Hno. rewrite Hk2, Hk1; auto.
Qed.

(** A run that never writes to SSM leaves the store as it was. *)
Lemma grows_ssm (phi : call Doc -> Prop) (s0 s : State W Doc) :
  (forall k v, ~ phi (CPutParameter k v)) -> grows phi s0 s -> ssm s = ssm s0.
Proof.
  intros Hno (l & _ & _ & Hk). apply map_eq. intros k. apply Hk.
  intros v. apply Hno.
Qed.

End Reasoning.

(** * The result reporter *)

Section ResultReporter.

Context {W Doc : Type} (env : Env W Doc).

(** What a run of [send_response] looks like: either a key of the event is
    missing and nothing is sent, or exactly one PUT of the body is issued. *)
Lemma send_response_run (event : Event) status reason data physical s s' r :
  send_response env event status reason data physical s = (s', r) ->
  (exists k, r = Raise (KeyError k) /\ s' = s) \/
  (exists url stack_id request_id logical_id w,
      ResponseURL event = Some url /\ StackId event = Some stack_id /\
      RequestId event = Some request_id /\
      LogicalResourceId event = Some logical_id /\
      let body :=
        {| rb_Status := status;
           rb_Reason := py_or reason (status +:+ ": See CloudWatch logs");
           rb_PhysicalResourceId :=
             if truthy physical then default "" physical
             else default "NONE" (PhysicalResourceId event);
           rb_StackId := stack_id;
           rb_RequestId := request_id;
           rb_LogicalResourceId := logical_id;
           rb_Data := default ∅ data |} in
      s' = after_call env (CHttpPut url body) w s /\
      (r = Ok body \/ exists e, r = Raise e)).
Proof.
  unfold send_response, bind, event_item, http_put, api, ret, raise.
  destruct (StackId event) as [st|]; [| intros [= <- <-]; left; eauto].
  destruct (RequestId event) as [rq|]; [| intros [= <- <-]; left; eauto].
  destruct (LogicalResourceId event) as [lg|]; [| intros [= <- <-]; left; eauto].
  destruct (ResponseURL event) as [url|]; [| intros [= <- <-]; left; eauto].
  match goal with |- context [env_http_put env ?u ?b ?w] =>
    destruct (env_http_put env u b w) as [w' [[]|e]] end;
    intros [= <- <-]; right; exists url, st, rq, lg, w'; simpl;
    repeat split; eauto.
Qed.

(** C10: the defaults of the callback body.  Every PUT issued by
    [send_response] carries a body whose [Reason] is
    ["<status>: See CloudWatch logs"] when no reason is supplied, whose
    [PhysicalResourceId] is the event's (or the literal ["NONE"] when the
    event has none) when no physical resource id is supplied, and whose
    [Data] is the empty mapping when no data is supplied. *)
Theorem send_response_defaults (event : Event) status reason data physical
    (s s' : State W Doc) r url body :
  send_response env event status reason data physical s = (s', r) ->
  In (CHttpPut url body) (trace s') -> ~ In (CHttpPut url body) (trace s) ->
  rb_Status body = status /\
  (reason = None -> rb_Reason body = status +:+ ": See CloudWatch logs") /\
  (physical = None ->
     rb_PhysicalResourceId body =
       match PhysicalResourceId event with Some p => p | None => "NONE" end) /\
  (data = None -> rb_Data body = ∅).
Proof.
  intros Hrun Hin Hnot.
  destruct (send_response_run _ _ _ _ _ _ _ _ Hrun)
    as [(k & _ & ->) | (u & st & rq & lg & w & _ & _ & _ & _ & Hs & _)];
    [contradiction |].
  cbv zeta in Hs. subst s'. simpl in Hin.
  apply in_app_or in Hin. destruct Hin as [Hin | [Hin | []]]; [contradiction |].
  injection Hin as <- <-. simpl. repeat split.
  - intros ->. reflexivity.
  - intros ->. simpl. destruct (PhysicalResourceId event); reflexivity.
  - intros ->. reflexivity.
Qed.

End ResultReporter.

Lemma send_response_defaults_witness :
  exists body,
    (send_response (fake_env ∅ None) (demo_event "Delete" "demo" None None)
       "FAILED" None None None (start fake0)).2 = Ok body /\
    rb_Status body = "FAILED" /\
    rb_Reason body = "FAILED: See CloudWatch logs" /\
    rb_PhysicalResourceId body = "NONE" /\
    rb_Data body = ∅.
Proof.
  eexists. split; [vm_compute; reflexivity |].
  match goal with |- rb_Status ?b = _ /\ _ =>
    destruct (send_response_defaults (fake_env ∅ None) (demo_event "Delete" "demo" None None)
                "FAILED" None None None (start fake0) _ _ "https://cfn/callback" b
                (surjective_pairing _)) as (H1 & H2 & H3 & H4)
  end.
  - vm_compute. left. reflexivity.
  - simpl. tauto.
  - split; [exact H1 |]. split; [exact (H2 eq_refl) |].
    split; [exact (H3 eq_refl) | exact (H4 eq_refl)].
Defined.

(** * Delete *)

Section Delete.

Context {W Doc : Type} (env : Env W Doc).

(** The best-effort teardown never raises, whatever the remote calls do. *)
Lemma teardown_total gateway_id (s : State W Doc) :
  exists s', teardown env gateway_id s = (s', Ok tt).
Proof.
  unfold teardown, try_catch.
  match goal with |- context [match ?m s with _ => _ end] =>
    destruct (m s) as [s1 [[]|e]] end; eauto.
Qed.

Lemma delete_gateway_run event gateway_id (s : State W Doc) :
  PhysicalResourceId event = Some gateway_id ->
  exists s1, teardown env gateway_id s = (s1, Ok tt) /\
    delete_gateway env event s =
      send_response env event "SUCCESS" None None (Some gateway_id) s1.
Proof.
  intros Hp. destruct (teardown_total gateway_id s) as [s1 Hs1].
  exists s1. split; [exact Hs1 |].
  unfold delete_gateway, bind at 1. rewrite Hp. simpl.
  unfold bind at 1. rewrite Hs1. reflexivity.
Qed.

(** C2: deleting always reports SUCCESS.  For every DELETE event (one that
    carries its physical id and the callback fields), whatever the target
    listing, the target deletions and the gateway deletion answer or raise,
    [delete_gateway] returns a SUCCESS outcome for that physical id, provided
    the callback itself can be delivered. *)
Theorem delete_gateway_always_success event gateway_id stack_id request_id
    logical_id url (s : State W Doc) :
  PhysicalResourceId event = Some gateway_id ->
  StackId event = Some stack_id ->
  RequestId event = Some request_id ->
  LogicalResourceId event = Some logical_id ->
  ResponseURL event = Some url ->
  (forall body w, (env_http_put env url body w).2 = Ok tt) ->
  exists s' body,
    delete_gateway env event s = (s', Ok body) /\
    rb_Status body = "SUCCESS" /\
    rb_PhysicalResourceId body = gateway_id /\
    rb_Data body = ∅.
Proof.
  intros Hp Hst Hrq Hlg Hurl Hhttp.
  destruct (delete_gateway_run event gateway_id s Hp) as (s1 & _ & ->).
  unfold send_response, bind, event_item, http_put, api, ret.
  rewrite Hst, Hrq, Hlg, Hurl. rewrite Hp.
  match goal with |- context [env_http_put env ?u ?b ?w] =>
    pose proof (Hhttp b w) as Hok;
    destruct (env_http_put env u b w) as [w' r] end.
  simpl in Hok. subst r.
  eexists _, _. split; [reflexivity |]. simpl.
  repeat split. destruct (String.eqb gateway_id ""); reflexivity.
Qed.

End Delete.

Lemma delete_gateway_always_success_witness :
  exists s' body,
    delete_gateway (fake_env {[ "list_gateway_targets" := "network error" ]} None)
      (demo_event "Delete" "demo" None (Some "gw-1"))
      (start fake1) = (s', Ok body) /\
    rb_Status body = "SUCCESS" /\
    rb_PhysicalResourceId body = "gw-1" /\
    rb_Data body = ∅.
Proof.
  apply (delete_gateway_always_success
           (fake_env {[ "list_gateway_targets" := "network error" ]} None)
           (demo_event "Delete" "demo" None (Some "gw-1"))
           "gw-1" "stack" "req" "Gateway" "https://cfn/callback");
    try reflexivity.
Defined.

(** The gateway is already gone: the remote has nothing to delete. *)
Example delete_already_deleted :
  (delete_gateway (fake_env ∅ None) (demo_event "Delete" "demo" None (Some "gw-9"))
     (start fake0)).2
  = Ok {| rb_Status := "SUCCESS"; rb_Reason := "SUCCESS: See CloudWatch logs";
          rb_PhysicalResourceId := "gw-9"; rb_StackId := "stack";
          rb_RequestId := "req"; rb_LogicalResourceId := "Gateway";
          rb_Data := ∅ |}.
Proof. vm_compute. reflexivity. Qed.

(** * Target creation with retry *)

Section TargetRetry.

Context {W Doc : Type} (env : Env W Doc).
Variables (gateway_id lambda_arn : string) (api_spec : Doc).

Abbreviation create_call := (CCreateTarget gateway_id lambda_arn api_spec).

(** One iteration of the retry loop, read off the answer of the remote. *)
Lemma retry_loop_cons max_retries attempt rest (s : State W Doc) :
  retry_loop env gateway_id lambda_arn api_spec max_retries (attempt :: rest) s =
    match env_create_gateway_target env gateway_id lambda_arn api_spec (world s) with
    | (w, Ok target_id) => (after_call env create_call w s, Ok target_id)
    | (w, Raise e) =>
        if transient e
        then retry_loop env gateway_id lambda_arn api_spec max_retries rest
               (after_sleep (2 ^ Z.of_nat attempt) (after_call env create_call w s))
        else (after_call env create_call w s, Raise e)
    end.
Proof.
  simpl. unfold bind at 1, try_catch, bind at 1, create_gateway_target, api.
  destruct (env_create_gateway_target env gateway_id lambda_arn api_spec (world s))
    as [w [tid|e]]; [reflexivity |].
  destruct (transient e); reflexivity.
Qed.

Lemma retry_loop_transient max_retries k w (s : State W Doc) :
  transient_failures env gateway_id lambda_arn api_spec k (world s) w ->
  forall first rest, exists s1,
    world s1 = w /\ ssm s1 = ssm s /\
    trace s1 = trace s ++ retry_trace gateway_id lambda_arn api_spec first k /\
    retry_loop env gateway_id lambda_arn api_spec max_retries (seq first k ++ rest) s
      = retry_loop env gateway_id lambda_arn api_spec max_retries rest s1.
Proof.
  intros H. remember (world s) as w0 eqn:Hw. revert s Hw.
  induction H as [w | k w w1 w2 e Hcall Htr _ IH]; intros s Hw first rest.
  - exists s. simpl. rewrite app_nil_r. auto.
  - subst w. simpl seq. rewrite <- app_comm_cons, retry_loop_cons, Hcall, Htr.
    destruct (IH (after_sleep (2 ^ Z.of_nat first) (after_call env create_call w1 s))
                eq_refl (S first) rest) as (s1 & Hw1 & Hs1 & Ht1 & Heq).
    exists s1. repeat split; auto.
    rewrite Ht1. simpl. rewrite <- !app_assoc. reflexivity.
Qed.

(** C5: create-with-retry.  After [k] transient failures (the error message
    mentions CREATING or UPDATING), each followed by a sleep of [2^attempt]
    with the attempt numbered from 0:
    - when [k] is below [max_retries] and the next call succeeds or fails
      with any other error, the function returns that very answer at once
      (in particular an unrelated error at the first call propagates after a
      single call and no sleep);
    - when [k] is [max_retries] the function raises "Failed to create target
      after <max_retries> attempts", having issued exactly [max_retries]
      create calls.
    The default [max_retries] is 5. *)
Theorem create_target_with_retry_spec max_retries k w (s : State W Doc) :
  transient_failures env gateway_id lambda_arn api_spec k (world s) w ->
  ((k < max_retries)%nat ->
     forall w' r,
       env_create_gateway_target env gateway_id lambda_arn api_spec w = (w', r) ->
       (forall e, r = Raise e -> transient e = false) ->
       exists s',
         create_target_with_retry env gateway_id lambda_arn api_spec max_retries s
           = (s', r) /\
         world s' = w' /\
         trace s'
           = trace s ++ retry_trace gateway_id lambda_arn api_spec 0 k
                     ++ [create_call]) /\
  (k = max_retries ->
     exists s',
       create_target_with_retry env gateway_id lambda_arn api_spec max_retries s
         = (s', Raise (Exception ("Failed to create target after "
                                  +:+ pretty max_retries +:+ " attempts"))) /\
       world s' = w /\
       trace s' = trace s ++ retry_trace gateway_id lambda_arn api_spec 0 k /\
       count is_create_target (retry_trace gateway_id lambda_arn api_spec 0 k)
         = max_retries).
Proof.
  intros Hk. split.
  - intros Hlt w' r Hcall Hfatal.
    unfold create_target_with_retry.
    assert (Hseq : seq 0 max_retries
                   = seq 0 k ++ k :: seq (S k) (max_retries - S k)).
    { assert (Hsum : max_retries = (k + S (max_retries - S k))%nat) by lia.
      rewrite Hsum at 1. rewrite seq_app. reflexivity. }
    rewrite Hseq.
    destruct (retry_loop_transient max_retries k w s Hk 0%nat
                (k :: seq (S k) (max_retries - S k)))
      as (s1 & Hw1 & _ & Ht1 & ->).
    rewrite retry_loop_cons, Hw1, Hcall.
    exists (after_call env create_call w' s1).
    destruct r as [tid|e].
    + simpl. rewrite Ht1, <- app_assoc. auto.
    + rewrite (Hfatal e eq_refl). simpl. rewrite Ht1, <- app_assoc. auto.
  - intros <-. unfold create_target_with_retry.
    destruct (retry_loop_transient k k w s Hk 0%nat []) as (s1 & Hw1 & _ & Ht1 & Heq).
    rewrite app_nil_r in Heq. rewrite Heq. exists s1. simpl.
    repeat split; auto.
    clear. generalize 0%nat. induction k as [|k IH]; intros a; simpl; auto.
Qed.

End TargetRetry.

Lemma create_target_with_retry_spec_witness :
  exists s',
    create_target_with_retry (fake_env ∅ None) "gw-1" "arn:aws:lambda:fn" "[]" 5
      (start (fake_creating 5))
    = (s', Raise (Exception "Failed to create target after 5 attempts")) /\
    count is_create_target (trace s') = 5%nat /\
    sleeps (trace s') = [1; 2; 4; 8; 16].
Proof.
  assert (Htf : transient_failures (fake_env ∅ None) "gw-1" "arn:aws:lambda:fn" "[]" 5
                  (world (start (fake_creating 5))) (fake_creating 0)).
  { repeat (eapply tf_more; [reflexivity | reflexivity |]). apply tf_none. }
  destruct (create_target_with_retry_spec (fake_env ∅ None) "gw-1" "arn:aws:lambda:fn"
              "[]" 5 5 (fake_creating 0) (start (fake_creating 5)) Htf)
    as [_ Hex].
  destruct (Hex eq_refl) as (s' & Hrun & _ & Ht & _).
  exists s'. split; [exact Hrun |]. rewrite Ht. split; reflexivity.
Defined.

(** Two transient failures, then the target is created on the third call. *)
Example retry_then_success :
  let run := create_target_with_retry (fake_env ∅ None) "gw-1" "arn:aws:lambda:fn" "[]" 5
               (start (fake_creating 2)) in
  run.2 = Ok "tgt-2" /\
  count is_create_target (trace run.1) = 3%nat /\
  sleeps (trace run.1) = [1; 2].
Proof. vm_compute. auto. Qed.

(** An unrelated error is not retried: one call, no sleep. *)
Example retry_not_for_validation_error :
  let w := fk_with_create_target_errors fake1
             ["ValidationException: invalid tool schema"] in
  let run := create_target_with_retry (fake_env ∅ None) "gw-1" "arn:aws:lambda:fn" "[]" 5
               (start w) in
  run.2 = Raise (ClientError "ValidationException: invalid tool schema") /\
  count is_create_target (trace run.1) = 1%nat /\
  sleeps (trace run.1) = [].
Proof. vm_compute. auto. Qed.

(** * Readiness polling *)

Section ReadinessPoller.

Context {W Doc : Type} (env : Env W Doc).
Variables (gateway_id : string) (start_time max_wait : Z).

Abbreviation get_call := (CGetGateway gateway_id : call Doc).

(** One poll, read off the answer of the remote. *)
Lemma poll_run (continue : M unit) (s : State W Doc) :
  poll env gateway_id continue s =
    match env_get_gateway env gateway_id (world s) with
    | (w, Raise e) => (after_call env get_call w s, Raise e)
    | (w, Ok d) =>
        if String.eqb (status d) "READY" then (after_call env get_call w s, Ok tt)
        else if String.eqb (status d) "FAILED" || String.eqb (status d) "DELETING"
             then (after_call env get_call w s, Raise (unexpected_status (status d)))
             else continue (after_sleep 10 (after_call env get_call w s))
    end.
Proof.
  unfold poll, bind at 1, get_gateway, api.
  destruct (env_get_gateway env gateway_id (world s)) as [w [d|e]]; [| reflexivity].
  destruct (String.eqb (status d) "READY"); [reflexivity |].
  destruct (String.eqb (status d) "FAILED" || String.eqb (status d) "DELETING");
    reflexivity.
Qed.

Lemma wait_loop_fuel_run fuel (s : State W Doc) :
  wait_loop_fuel env fuel gateway_id start_time max_wait s =
    if clock s - start_time <? max_wait
    then match fuel with
         | O => (s, Raise (gateway_timeout max_wait))
         | S fuel' =>
             poll env gateway_id
               (wait_loop_fuel env fuel' gateway_id start_time max_wait) s
         end
    else (s, Raise (gateway_timeout max_wait)).
Proof.
  destruct fuel; simpl; unfold bind at 1, time_time;
    destruct (clock s - start_time <? max_wait); reflexivity.
Qed.

(** Any fuel that covers the time left gives the same run. *)
Lemma wait_loop_fuel_enough fuel1 : forall fuel2 (s : State W Doc),
  (Z.to_nat (start_time + max_wait - clock s) <= fuel1)%nat ->
  (Z.to_nat (start_time + max_wait - clock s) <= fuel2)%nat ->
  wait_loop_fuel env fuel1 gateway_id start_time max_wait s =
  wait_loop_fuel env fuel2 gateway_id start_time max_wait s.
Proof.
  induction fuel1 as [|fuel1 IH]; intros fuel2 s H1 H2;
    rewrite !wait_loop_fuel_run;
    destruct (Z.ltb_spec (clock s - start_time) max_wait) as [Hlt|Hge];
    try reflexivity; try lia.
  destruct fuel2 as [|fuel2]; [lia |].
  rewrite !poll_run.
  destruct (env_get_gateway env gateway_id (world s)) as [w [d|e]]; [| reflexivity].
  destruct (String.eqb (status d) "READY"); [reflexivity |].
  destruct (String.eqb (status d) "FAILED" || String.eqb (status d) "DELETING");
    [reflexivity |].
  apply IH; simpl; lia.
Qed.

(** The loop satisfies the equation of the source's [while]: test the
    deadline, poll, and go round again after ten time-units. *)
Lemma wait_loop_unfold (s : State W Doc) :
  wait_loop env gateway_id start_time max_wait s =
    if clock s - start_time <? max_wait
    then poll env gateway_id (wait_loop env gateway_id start_time max_wait) s
    else (s, Raise (gateway_timeout max_wait)).
Proof.
  unfold wait_loop at 1. rewrite wait_loop_fuel_run.
  destruct (Z.ltb_spec (clock s - start_time) max_wait) as [Hlt|Hge].
  - destruct (Z.to_nat (start_time + max_wait - clock s)) as [|fuel] eqn:Hfuel;
      [lia |].
    rewrite !poll_run.
    destruct (env_get_gateway env gateway_id (world s)) as [w [d|e]]; [| reflexivity].
    destruct (String.eqb (status d) "READY"); [reflexivity |].
    destruct (String.eqb (status d) "FAILED" || String.eqb (status d) "DELETING");
      [reflexivity |].
    unfold wait_loop. apply wait_loop_fuel_enough; simpl; lia.
  - reflexivity.
Qed.

Lemma terminal_false st :
  terminal st = false ->
  String.eqb st "READY" = false /\
  String.eqb st "FAILED" || String.eqb st "DELETING" = false.
Proof.
  unfold terminal. destruct (String.eqb st "READY"); simpl; [discriminate |].
  auto.
Qed.

Lemma wait_loop_pending k s s' :
  pending env gateway_id start_time max_wait k s s' ->
  wait_loop env gateway_id start_time max_wait s
    = wait_loop env gateway_id start_time max_wait s' /\
  clock s + 10 * Z.of_nat k <= clock s' /\
  trace s' = trace s ++ poll_trace gateway_id k /\
  ((0 < k)%nat -> 10 * Z.of_nat k + (clock s - start_time) < max_wait + 10).
Proof.
  induction 1 as [s | k s w d s' Hlt Hget Hterm _ (IHrun & IHclock & IHtrace & IHk)].
  - rewrite app_nil_r. repeat split; try lia.
  - destruct (terminal_false _ Hterm) as [Hr Hf].
    repeat split.
    + rewrite wait_loop_unfold, poll_run, Hget, Hr, Hf.
      destruct (Z.ltb_spec (clock s - start_time) max_wait); [exact IHrun | lia].
    + simpl in IHclock. lia.
    + rewrite IHtrace. simpl. rewrite <- !app_assoc. reflexivity.
    + intros _. simpl in IHk. destruct k as [|k]; lia.
Qed.

End ReadinessPoller.

Section ReadinessSpec.

Context {W Doc : Type} (env : Env W Doc).

Lemma wait_for_gateway_ready_run gateway_id max_wait (s : State W Doc) :
  wait_for_gateway_ready env gateway_id max_wait s
    = wait_loop env gateway_id (clock s) max_wait s.
Proof. reflexivity. Qed.

(** C6: the readiness wait.  Suppose [k] polls, ten time-units apart, have
    each observed a non-terminal status before the deadline, leading from
    [s] to [s1].  Then
    - the clock has advanced by at least [10 * k], and [k] is at most
      [max_wait / 10] rounded up (twelve for the default 120);
    - if the deadline has passed in [s1], the wait raises "Gateway not ready
      after <max_wait>s";
    - otherwise it polls once more: READY returns normally at once, FAILED
      or DELETING raise at once an error naming the status, an error of the
      call propagates, and any other status sleeps ten time-units and goes
      on polling. *)
Theorem wait_for_gateway_ready_spec gateway_id max_wait k (s s1 : State W Doc) :
  pending env gateway_id (clock s) max_wait k s s1 ->
  let run := wait_for_gateway_ready env gateway_id max_wait s in
  clock s + 10 * Z.of_nat k <= clock s1 /\
  ((0 < k)%nat -> 10 * Z.of_nat k < max_wait + 10) /\
  trace s1 = trace s ++ poll_trace gateway_id k /\
  (max_wait <= clock s1 - clock s ->
     run = (s1, Raise (Exception ("Gateway not ready after "
                                  +:+ pretty max_wait +:+ "s")))) /\
  (clock s1 - clock s < max_wait ->
     forall w r, env_get_gateway env gateway_id (world s1) = (w, r) ->
       let s2 := after_call env (CGetGateway gateway_id) w s1 in
       match r with
       | Raise e => run = (s2, Raise e)
       | Ok d =>
           (status d = "READY" -> run = (s2, Ok tt)) /\
           (status d = "FAILED" \/ status d = "DELETING" ->
              run = (s2, Raise (Exception ("Gateway in unexpected status: "
                                           +:+ status d)))) /\
           (terminal (status d) = false ->
              run = wait_loop env gateway_id (clock s) max_wait (after_sleep 10 s2))
       end).
Proof.
  intros Hp run.
  destruct (wait_loop_pending env gateway_id (clock s) max_wait k s s1 Hp)
    as (Hrun & Hclock & Htrace & Hk).
  assert (Hrun' : run = wait_loop env gateway_id (clock s) max_wait s1)
    by (unfold run; rewrite wait_for_gateway_ready_run; exact Hrun).
  split; [exact Hclock |]. split; [intros Hpos; specialize (Hk Hpos); lia |].
  split; [exact Htrace |]. split.
  - intros Hge. rewrite Hrun', wait_loop_unfold.
    destruct (Z.ltb_spec (clock s1 - clock s) max_wait); [lia | reflexivity].
  - intros Hlt w r Hget s2. rewrite Hrun', wait_loop_unfold, poll_run, Hget.
    destruct (Z.ltb_spec (clock s1 - clock s) max_wait); [| lia].
    destruct r as [d|e]; [| reflexivity].
    split; [| split].
    + intros ->. reflexivity.
    + intros [-> | ->]; reflexivity.
    + intros Hterm. destruct (terminal_false _ Hterm) as [-> ->]. reflexivity.
Qed.

End ReadinessSpec.

Lemma wait_for_gateway_ready_spec_witness :
  let run := wait_for_gateway_ready (fake_env ∅ None) "gw-1" 120
               (start (fake_polling ["CREATING"; "CREATING"; "READY"])) in
  run.2 = Ok tt /\
  count is_get_gateway (trace run.1) = 3%nat /\
  clock run.1 = 20.
Proof.
  intros run.
  eassert (Hp : pending (fake_env ∅ None) "gw-1"
                  (clock (start (fake_polling ["CREATING"; "CREATING"; "READY"])))
                  120 2 (start (fake_polling ["CREATING"; "CREATING"; "READY"])) _).
  { eapply pending_more; [reflexivity | reflexivity | reflexivity |].
    eapply pending_more; [reflexivity | reflexivity | reflexivity |].
    apply pending_none. }
  destruct (wait_for_gateway_ready_spec _ _ _ _ _ _ Hp) as (_ & _ & _ & _ & Hpoll).
  specialize (Hpoll eq_refl _ _ eq_refl). cbv zeta in Hpoll.
  destruct Hpoll as (Hready & _).
  unfold run. rewrite (Hready eq_refl). repeat split.
Defined.

(** [CREATING, CREATING, READY]: the wait returns on the third poll. *)
Example wait_ready_on_third_poll :
  let run := wait_for_gateway_ready (fake_env ∅ None) "gw-1" 120
               (start (fake_polling ["CREATING"; "CREATING"; "READY"])) in
  run.2 = Ok tt /\
  trace run.1 = [CGetGateway "gw-1"; CSleep 10; CGetGateway "gw-1"; CSleep 10;
                 CGetGateway "gw-1"].
Proof. vm_compute. auto. Qed.

(** [CREATING, FAILED]: the wait fails on the second poll, after ten
    time-units and not at the deadline. *)
Example wait_fails_on_second_poll :
  let run := wait_for_gateway_ready (fake_env ∅ None) "gw-1" 120
               (start (fake_polling ["CREATING"; "FAILED"])) in
  run.2 = Raise (Exception "Gateway in unexpected status: FAILED") /\
  trace run.1 = [CGetGateway "gw-1"; CSleep 10; CGetGateway "gw-1"] /\
  clock run.1 = 10.
Proof. vm_compute. auto. Qed.

(** A gateway that stays in CREATING: twelve polls, then the timeout. *)
Example wait_times_out :
  let run := wait_for_gateway_ready (fake_env ∅ None) "gw-1" 120
               (start (fake_polling (repeat "CREATING" 20))) in
  run.2 = Raise (Exception "Gateway not ready after 120s") /\
  count is_get_gateway (trace run.1) = 12%nat /\
  clock run.1 = 120.
Proof. vm_compute. auto. Qed.

(** * Weakest preconditions of the program's functions *)

Section Footprints.

Context {W Doc : Type} (env : Env W Doc).

Abbreviation St := (State W Doc).

Lemma wp_run {A} (m : M A) Q E (s s' : St) r :
  wp m Q E s -> m s = (s', r) ->
  match r with Ok a => Q a s' | Raise e => E e s' end.
Proof. unfold wp. intros H Hrun. rewrite Hrun in H. exact H. Qed.

Lemma wp_ret {A} (a : A) Q E (s : St) : Q a s -> wp (ret a) Q E s.
Proof. auto. Qed.

Lemma wp_raise {A} e (Q : A -> St -> Prop) E (s : St) : E e s -> wp (raise e) Q E s.
Proof. auto. Qed.

Lemma wp_bind {A B} (m : M A) (f : A -> M B) Q E (s : St) :
  wp m (fun a s' => wp (f a) Q E s') E s -> wp (bind m f) Q E s.
Proof. unfold wp, bind. destruct (m s) as [s1 [a|e]]; auto. Qed.

Lemma wp_try {A} (m : M A) (h : exn -> M A) Q E (s : St) :
  wp m Q (fun e s' => wp (h e) Q E s') s -> wp (try_catch m h) Q E s.
Proof. unfold wp, try_catch. destruct (m s) as [s1 [a|e]]; auto. Qed.

Lemma wp_mono {A} (m : M A) (Q Q' : A -> St -> Prop) (E E' : exn -> St -> Prop) s :
  wp m Q E s ->
  (forall a s', Q a s' -> Q' a s') ->
  (forall e s', E e s' -> E' e s') ->
  wp m Q' E' s.
Proof. unfold wp. destruct (m s) as [s1 [a|e]]; auto. Qed.

Lemma wp_api {A} c (f : W -> W * result A) Q E (s : St) :
  (forall w r, f (world s) = (w, r) ->
     match r with
     | Ok a => Q a (after_call env c w s)
     | Raise e => E e (after_call env c w s)
     end) ->
  wp (api env c f) Q E s.
Proof.
  intros H. unfold wp, api. specialize (H (f (world s)).1 (f (world s)).2).
  destruct (f (world s)) as [w r]. specialize (H eq_refl). destruct r; exact H.
Qed.

Lemma wp_sleep d Q E (s : St) : Q tt (after_sleep d s) -> wp (time_sleep d) Q E s.
Proof. auto. Qed.

Lemma wp_put name value Q E (s : St) :
  (forall w,
     Q tt (after_put name value (after_call env (CPutParameter name value) w s)) /\
     forall e, E e (after_call env (CPutParameter name value) w s)) ->
  wp (put_parameter env name value) Q E s.
Proof.
  intros H. unfold wp, put_parameter, api.
  destruct (env_put_parameter env name value (world s)) as [w [[]|e]];
    apply (H w).
Qed.

Lemma wp_getitem d k Q E (s : St) :
  (forall v, d !! k = Some v -> Q v s) ->
  (d !! k = None -> E (KeyError k) s) ->
  wp (getitem d k) Q E s.
Proof. intros HQ HE. unfold wp, getitem. destruct (d !! k); simpl; auto. Qed.

Lemma wp_event_item {A} k (o : option A) Q E (s : St) :
  (forall v, o = Some v -> Q v s) ->
  (o = None -> E (KeyError k) s) ->
  wp (event_item k o) Q E s.
Proof. intros HQ HE. unfold wp, event_item. destruct o; simpl; auto. Qed.

Lemma wp_parse text Q E (s : St) :
  (forall d, json_loads env text = Ok d -> Q d s) ->
  (forall e, json_loads env text = Raise e -> E e s) ->
  wp (parse_api_spec env text) Q E s.
Proof.
  intros HQ HE. unfold wp, parse_api_spec.
  destruct (json_loads env text); simpl; auto.
Qed.

Lemma wp_send_response event status reason data physical Q E (s : St) :
  (forall k, E (KeyError k) s) ->
  (forall url stack_id request_id logical_id w,
     ResponseURL event = Some url -> StackId event = Some stack_id ->
     RequestId event = Some request_id -> LogicalResourceId event = Some logical_id ->
     let body := callback_body event status reason data physical
                   stack_id request_id logical_id in
     Q body (after_call env (CHttpPut url body) w s) /\
     forall e, E e (after_call env (CHttpPut url body) w s)) ->
  wp (send_response env event status reason data physical) Q E s.
Proof.
  intros HK HQ. unfold wp.
  destruct (send_response env event status reason data physical s) as [s' r] eqn:Hrun.
  destruct (send_response_run env _ _ _ _ _ _ _ _ Hrun)
    as [(k & -> & ->) | (url & st & rq & lg & w & Hu & Hst & Hrq & Hlg & Hs & Hr)].
  - apply HK.
  - cbv zeta in Hs. subst s'.
    destruct (HQ url st rq lg w Hu Hst Hrq Hlg) as [HQ1 HQ2].
    destruct Hr as [-> | [e ->]]; [exact HQ1 | apply HQ2].
Qed.

Lemma key_ne (prefix a b : string) : a <> b -> prefix +:+ a <> prefix +:+ b.
Proof. intros Hne Heq. apply Hne. exact (String.app_inj prefix _ _ Heq). Qed.

Lemma truthy_some u : truthy (Some u) = true -> u <> "".
Proof.
  simpl. destruct (String.eqb_spec u ""); [discriminate | auto].
Qed.

Lemma wp_update_ssm_parameters (phi : call Doc -> Prop) s0 d target_id props Q E
    (s : St) :
  grows phi s0 s ->
  (forall prefix c, props !! "SsmPrefix" = Some prefix ->
     fp_ssm prefix d target_id c -> phi c) ->
  (forall prefix s', props !! "SsmPrefix" = Some prefix ->
     grows phi s0 s' -> stored prefix d target_id s' -> Q tt s') ->
  (forall e s', grows phi s0 s' -> E e s') ->
  wp (update_ssm_parameters env d target_id props) Q E s.
Proof.
  intros Hg Hphi HQ HE. unfold update_ssm_parameters.
  apply wp_bind, wp_getitem; [| intros _; apply HE, Hg].
  intros prefix Hp. specialize (Hphi prefix).
  assert (Hrest : forall s1, grows phi s0 s1 ->
            (truthy (gatewayUrl d) = true ->
             ssm s1 !! (prefix +:+ "/gateway_url") = gatewayUrl d) ->
            wp (put_parameter env (prefix +:+ "/target_id") target_id;;;
                put_parameter env (prefix +:+ "/gateway_id") (gatewayId d))
               Q E s1).
  { intros s1 Hg1 Hurl. apply wp_bind, wp_put. intros w. split.
    2:{ intros e. apply HE, grows_call; auto using fp_ssm_target. }
    apply wp_put. intros w'. split.
    2:{ intros e. apply HE, grows_call; auto using fp_ssm_gateway.
        apply grows_put; auto using fp_ssm_target. }
    apply (HQ prefix); [exact Hp | |].
    - apply grows_put; auto using fp_ssm_gateway.
      apply grows_put; auto using fp_ssm_target.
    - unfold stored. simpl. repeat split.
      + rewrite lookup_insert_ne by (apply key_ne; discriminate).
        apply lookup_insert_eq.
      + apply lookup_insert_eq.
      + intros Ht. rewrite !lookup_insert_ne by (apply key_ne; discriminate).
        apply Hurl, Ht. }
  apply wp_bind.
  destruct (truthy (gatewayUrl d)) eqn:Ht.
  - destruct (gatewayUrl d) as [u|] eqn:Hu; [| discriminate]. simpl.
    pose proof (truthy_some u Ht) as Hne.
    apply wp_put. intros w. split.
    + apply Hrest.
      * apply grows_put; auto. apply Hphi; auto. apply fp_ssm_url; auto.
      * intros _. simpl. apply lookup_insert_eq.
    + intros e. apply HE, grows_call; auto. apply Hphi; auto.
      apply fp_ssm_url; auto.
  - apply wp_ret. apply Hrest; [exact Hg | discriminate].
Qed.

Lemma wp_retry_loop (phi : call Doc -> Prop) s0 gateway_id lambda_arn api_spec
    max_retries :
  (forall c, fp_retry gateway_id lambda_arn api_spec c -> phi c) ->
  forall attempts Q E (s : St),
    grows phi s0 s ->
    (forall target_id s', grows phi s0 s' -> Q target_id s') ->
    (forall e s', grows phi s0 s' -> E e s') ->
    wp (retry_loop env gateway_id lambda_arn api_spec max_retries attempts) Q E s.
Proof.
  intros Hphi attempts. induction attempts as [|attempt rest IH]; intros Q E s Hg HQ HE.
  - apply wp_raise, HE, Hg.
  - unfold wp. rewrite retry_loop_cons.
    destruct (env_create_gateway_target env gateway_id lambda_arn api_spec (world s))
      as [w [target_id|e]].
    + apply HQ, grows_call; auto using fp_retry_create.
    + destruct (transient e).
      * apply (IH Q E); auto.
        apply grows_sleep; auto using fp_retry_sleep.
        apply grows_call; auto using fp_retry_create.
      * apply HE, grows_call; auto using fp_retry_create.
Qed.

(** After the one listing of the targets, only [fp_target] calls follow. *)
Lemma wp_create_or_update_target (phi : call Doc -> Prop) gateway_id lambda_arn
    api_spec Q E (s : St) :
  (forall c, fp_target gateway_id lambda_arn api_spec c -> phi c) ->
  (forall w s',
     grows phi (after_call env (CListTargets gateway_id) w s) s' ->
     (forall target_id, Q target_id s') /\ (forall e, E e s')) ->
  wp (create_or_update_target env gateway_id lambda_arn api_spec) Q E s.
Proof.
  intros Hphi HQ. unfold create_or_update_target.
  assert (Hretry : forall w s1,
            grows phi (after_call env (CListTargets gateway_id) w s) s1 ->
            wp (create_target_with_retry env gateway_id lambda_arn api_spec 5) Q E s1).
  { intros w s1 Hg. unfold create_target_with_retry.
    apply wp_retry_loop
      with (phi := phi) (s0 := after_call env (CListTargets gateway_id) w s);
      auto using fp_target_retry.
    - intros tid s' Hs'. apply (HQ w s' Hs').
    - intros e s' Hs'. apply (HQ w s' Hs'). }
  apply wp_bind, wp_try, wp_bind. unfold list_gateway_targets.
  apply wp_api. intros w [targets|e] _.
  - destruct targets as [|first rest].
    + apply wp_ret. apply (Hretry w). apply grows_refl.
    + apply wp_bind. unfold update_gateway_target. apply wp_api.
      intros w' [[]|e] _.
      * apply wp_ret. apply wp_ret. apply (HQ w).
        apply grows_call; auto using fp_target_update, grows_refl.
      * apply wp_ret. apply (Hretry w).
        apply grows_call; auto using fp_target_update, grows_refl.
  - apply wp_ret. apply (Hretry w). apply grows_refl.
Qed.

Lemma wp_wait_loop_fuel (phi : call Doc -> Prop) s0 gateway_id start_time max_wait :
  (forall c, fp_wait gateway_id c -> phi c) ->
  forall fuel Q E (s : St),
    grows phi s0 s ->
    (forall s', grows phi s0 s' -> Q tt s') ->
    (forall e s', grows phi s0 s' -> E e s') ->
    wp (wait_loop_fuel env fuel gateway_id start_time max_wait) Q E s.
Proof.
  intros Hphi fuel. induction fuel as [|fuel IH]; intros Q E s Hg HQ HE;
    unfold wp; rewrite wait_loop_fuel_run;
    destruct (clock s - start_time <? max_wait); try (apply HE, Hg).
  rewrite poll_run.
  destruct (env_get_gateway env gateway_id (world s)) as [w [d|e]].
  - destruct (String.eqb (status d) "READY").
    + apply HQ, grows_call; auto using fp_wait_get.
    + destruct (String.eqb (status d) "FAILED" || String.eqb (status d) "DELETING").
      * apply HE, grows_call; auto using fp_wait_get.
      * apply (IH Q E); auto.
        apply grows_sleep; auto using fp_wait_sleep.
        apply grows_call; auto using fp_wait_get.
  - apply HE, grows_call; auto using fp_wait_get.
Qed.

Lemma wp_wait_for_gateway_ready (phi : call Doc -> Prop) s0 gateway_id max_wait
    Q E (s : St) :
  (forall c, fp_wait gateway_id c -> phi c) ->
  grows phi s0 s ->
  (forall s', grows phi s0 s' -> Q tt s') ->
  (forall e s', grows phi s0 s' -> E e s') ->
  wp (wait_for_gateway_ready env gateway_id max_wait) Q E s.
Proof.
  intros Hphi Hg HQ HE. unfold wait_for_gateway_ready.
  apply wp_bind. unfold wp at 1, time_time, wait_loop.
  apply wp_wait_loop_fuel with (phi := phi) (s0 := s0); auto.
Qed.

Lemma wp_delete_targets (phi : call Doc -> Prop) s0 gateway_id :
  (forall c, fp_teardown gateway_id c -> phi c) ->
  forall targets Q E (s : St),
    grows phi s0 s ->
    (forall s', grows phi s0 s' -> Q tt s') ->
    (forall e s', grows phi s0 s' -> E e s') ->
    wp (delete_targets env gateway_id targets) Q E s.
Proof.
  intros Hphi targets. induction targets as [|target rest IH]; intros Q E s Hg HQ HE.
  - apply wp_ret, HQ, Hg.
  - simpl. apply wp_bind. unfold delete_gateway_target. apply wp_api.
    intros w [[]|e] _.
    + apply wp_bind, wp_sleep. apply IH; auto.
      apply grows_sleep; auto using fp_teardown_sleep.
      apply grows_call; auto using fp_teardown_target.
    + apply HE, grows_call; auto using fp_teardown_target.
Qed.

(** The teardown never raises. *)
Lemma wp_teardown (phi : call Doc -> Prop) s0 gateway_id Q E (s : St) :
  (forall c, fp_teardown gateway_id c -> phi c) ->
  grows phi s0 s ->
  (forall s', grows phi s0 s' -> Q tt s') ->
  wp (teardown env gateway_id) Q E s.
Proof.
  intros Hphi Hg HQ. unfold teardown.
  apply wp_try, wp_bind. unfold list_gateway_targets. apply wp_api.
  intros w [targets|e] _.
  - apply wp_bind.
    apply wp_delete_targets with (phi := phi) (s0 := s0); [exact Hphi | | |].
    + apply grows_call; auto using fp_teardown_list.
    + intros s' Hs'. unfold delete_gateway_call. apply wp_api.
      intros w' [[]|e] _.
      * apply HQ, grows_call; auto using fp_teardown_gateway.
      * apply wp_ret, HQ, grows_call; auto using fp_teardown_gateway.
    + intros e s' Hs'. apply wp_ret, HQ, Hs'.
  - apply wp_ret, HQ, grows_call; auto using fp_teardown_list.
Qed.

Lemma wp_resolve_gateway_url d gateway_id props Q E (s : St) :
  (forall url, resolved props d gateway_id url -> Q url s) ->
  E (KeyError "Region") s ->
  wp (resolve_gateway_url d gateway_id props) Q E s.
Proof.
  intros HQ HE. unfold resolve_gateway_url.
  destruct (truthy (gatewayUrl d)) eqn:Ht.
  - apply wp_ret, HQ. left. split; [exact Ht |].
    destruct (gatewayUrl d); [reflexivity | discriminate].
  - apply wp_bind, wp_getitem; [| intros _; exact HE].
    intros region Hr. apply wp_ret, HQ. right. eauto.
Qed.

(** The common tail of the three paths: store, resolve the URL, report. *)
Lemma wp_finish (phi : call Doc -> Prop) s0 event props d target_id gateway_id
    Q E (s : St) :
  reported env gateway_id d ->
  (forall c, fp_finish env props gateway_id c -> phi c) ->
  grows phi s0 s ->
  (forall body s', grows phi s0 s' -> reconciled env event props gateway_id body s' ->
     Q body s') ->
  (forall e s', grows phi s0 s' -> E e s') ->
  wp (update_ssm_parameters env d target_id props;;;
      gateway_url <- resolve_gateway_url d gateway_id props;;
      send_response env event "SUCCESS" None
        (Some (success_data gateway_id gateway_url target_id)) (Some gateway_id))
     Q E s.
Proof.
  intros Hrep Hphi Hg HQ HE. apply wp_bind.
  apply wp_update_ssm_parameters with (phi := phi) (s0 := s0); auto.
  - intros prefix c Hp Hc. apply Hphi. eapply fp_finish_ssm; eauto.
  - intros prefix s1 Hp Hg1 Hst. apply wp_bind, wp_resolve_gateway_url; [| auto].
    intros url Hurl. apply wp_send_response; [auto |].
    intros u st rq lg w _ _ _ _ body. split.
    + apply HQ; [apply grows_call; auto using fp_finish_send |].
      exists d, target_id, url, prefix. repeat split; auto; try apply Hst.
      unfold body, callback_body. simpl.
      destruct (String.eqb gateway_id ""); reflexivity.
    + intros e. apply HE, grows_call; auto using fp_finish_send.
Qed.

Lemma wp_get_gateway (phi : call Doc -> Prop) s0 gateway_id Q E (s : St) :
  phi (CGetGateway gateway_id) ->
  grows phi s0 s ->
  (forall d s', grows phi s0 s' -> reported env gateway_id d -> Q d s') ->
  (forall e s', grows phi s0 s' -> E e s') ->
  wp (get_gateway env gateway_id) Q E s.
Proof.
  intros Hphi Hg HQ HE. unfold get_gateway. apply wp_api.
  intros w [d|e] Hcall.
  - apply HQ; [apply grows_call; auto |]. exists (world s), w. exact Hcall.
  - apply HE, grows_call; auto.
Qed.

Lemma wp_reuse_gateway (phi : call Doc -> Prop) s0 event props lambda_arn api_spec
    gateway_id Q E (s : St) :
  (forall c, fp_reuse env props gateway_id c -> phi c) ->
  grows phi s0 s ->
  (forall body s', grows phi s0 s' -> reconciled env event props gateway_id body s' ->
     Q body s') ->
  (forall e s', grows phi s0 s' -> E e s') ->
  wp (reuse_gateway env event props lambda_arn api_spec gateway_id) Q E s.
Proof.
  intros Hphi Hg HQ HE. unfold reuse_gateway.
  apply wp_bind, wp_get_gateway with (phi := phi) (s0 := s0); auto.
  { apply Hphi, fp_reuse_get. }
  intros d s1 Hg1 Hrep. apply wp_bind.
  apply wp_create_or_update_target with (phi := phi).
  { intros c Hc. apply Hphi. eapply fp_reuse_target, Hc. }
  intros w s2 Hg2.
  assert (Hg2' : grows phi s0 s2).
  { eapply grows_trans; [| exact Hg2]. apply grows_call; auto.
    apply Hphi, fp_reuse_list. }
  split; [| intros e; apply HE, Hg2'].
  intros target_id.
  apply wp_finish with (phi := phi) (s0 := s0); auto.
  intros c Hc. apply Hphi. eapply fp_reuse_finish, Hc.
Qed.

Lemma wp_scan_gateways (phi : call Doc -> Prop) s0 event props gateway_name
    lambda_arn api_spec :
  (forall c, fp_create env props c -> phi c) ->
  forall items Q E (s : St),
    grows phi s0 s ->
    (forall gw body s', In gw items -> gs_name gw = gateway_name ->
       grows phi s0 s' -> reconciled env event props (gs_gatewayId gw) body s' ->
       Q (Some body) s') ->
    (forall s', grows phi s0 s' -> Q None s') ->
    (forall e s', grows phi s0 s' -> E e s') ->
    wp (scan_gateways env event props gateway_name lambda_arn api_spec items) Q E s.
Proof.
  intros Hphi items.
  induction items as [|gw rest IH]; intros Q E s Hg HQ HN HE; simpl.
  - apply wp_ret, HN, Hg.
  - destruct (String.eqb_spec (gs_name gw) gateway_name) as [Hname|Hname].
    + apply wp_bind.
      apply wp_reuse_gateway with (phi := phi) (s0 := s0); auto.
      { intros c Hc. eapply Hphi, fp_create_reuse, Hc. }
      intros body s' Hg' Hrec. apply wp_ret. apply (HQ gw); auto.
      left. reflexivity.
    + apply IH; auto. intros gw' body s' Hin. apply HQ. right. exact Hin.
Qed.

Lemma wp_create_new_gateway (phi : call Doc -> Prop) s0 event props gateway_name
    lambda_arn api_spec gateway_role_arn Q E (s : St) :
  (forall c, fp_create env props c -> phi c) ->
  grows phi s0 s ->
  (forall gateway_id body s', created env gateway_name gateway_id ->
     grows phi s0 s' -> reconciled env event props gateway_id body s' -> Q body s') ->
  (forall e s', grows phi s0 s' -> E e s') ->
  wp (create_new_gateway env event props gateway_name lambda_arn api_spec
        gateway_role_arn) Q E s.
Proof.
  intros Hphi Hg HQ HE. unfold create_new_gateway.
  apply wp_bind, wp_getitem; [| intros _; apply HE, Hg]. intros client_id _.
  apply wp_bind, wp_getitem; [| intros _; apply HE, Hg]. intros discovery_url _.
  apply wp_bind. unfold create_gateway_call. apply wp_api.
  intros w [gateway_id|e] Hcall.
  2:{ apply HE, grows_call; auto. apply Hphi, fp_create_gateway. }
  assert (Hcreated : created env gateway_name gateway_id).
  { exists gateway_role_arn, client_id, discovery_url, (world s), w. exact Hcall. }
  apply wp_bind.
  apply wp_wait_for_gateway_ready with (phi := phi) (s0 := s0); auto.
  { intros c Hc. apply Hphi. eapply fp_create_wait, Hc. }
  { apply grows_call; auto. apply Hphi, fp_create_gateway. }
  intros s1 Hg1. apply wp_bind.
  apply wp_get_gateway with (phi := phi) (s0 := s0); auto.
  { apply Hphi. eapply fp_create_wait, fp_wait_get. }
  intros d s2 Hg2 Hrep. apply wp_bind. unfold create_target_with_retry.
  apply wp_retry_loop with (phi := phi) (s0 := s0); auto.
  { intros c Hc. apply Hphi. eapply fp_create_reuse, fp_reuse_target, fp_target_retry, Hc. }
  intros target_id s3 Hg3.
  apply wp_finish with (phi := phi) (s0 := s0); auto.
  - intros c Hc. apply Hphi. eapply fp_create_reuse, fp_reuse_finish, Hc.
  - intros body s' Hg' Hrec. apply (HQ gateway_id); auto.
Qed.

Lemma wp_create_gateway (phi : call Doc -> Prop) s0 event props Q E (s : St) :
  (forall c, fp_create env props c -> phi c) ->
  grows phi s0 s ->
  (forall gateway_id body s', origin env props gateway_id ->
     grows phi s0 s' -> reconciled env event props gateway_id body s' -> Q body s') ->
  (forall e s', grows phi s0 s' -> E e s') ->
  wp (create_gateway env event props) Q E s.
Proof.
  intros Hphi Hg HQ HE. unfold create_gateway.
  apply wp_bind, wp_getitem; [| intros _; apply HE, Hg]. intros gateway_name Hname.
  apply wp_bind, wp_getitem; [| intros _; apply HE, Hg]. intros lambda_arn _.
  apply wp_bind, wp_getitem; [| intros _; apply HE, Hg]. intros text _.
  apply wp_bind, wp_parse; [| intros e _; apply HE, Hg]. intros api_spec _.
  apply wp_bind, wp_getitem; [| intros _; apply HE, Hg]. intros role_arn _.
  assert (Hnew : forall s1, grows phi s0 s1 ->
            wp (create_new_gateway env event props gateway_name lambda_arn api_spec
                  role_arn) Q E s1).
  { intros s1 Hg1.
    apply wp_create_new_gateway with (phi := phi) (s0 := s0); auto.
    intros gateway_id body s' Hc. apply HQ. exists gateway_name. auto. }
  apply wp_bind, wp_try, wp_bind. unfold list_gateways. apply wp_api.
  intros w [items|e] Hcall.
  2:{ apply wp_ret, Hnew, grows_call; auto. apply Hphi, fp_create_list. }
  apply wp_scan_gateways with (phi := phi) (s0 := s0); [exact Hphi | | | |].
  - apply grows_call; auto. apply Hphi, fp_create_list.
  - intros gw body s' Hin Hgw Hg' Hrec. apply wp_ret.
    apply (HQ (gs_gatewayId gw)); auto.
    exists gateway_name. split; [exact Hname |]. left.
    exists (world s), w, items, gw. auto.
  - intros s' Hg'. apply Hnew, Hg'.
  - intros e s' Hg'. apply wp_ret, Hnew, Hg'.
Qed.

Lemma fp_in_place_create props gateway_id c :
  fp_in_place env props gateway_id c -> fp_create env props c.
Proof.
  intros [arn spec c' Hc | | c' Hc]; eapply fp_create_reuse.
  - eapply fp_reuse_target, Hc.
  - apply fp_reuse_get.
  - eapply fp_reuse_finish, Hc.
Qed.

(** The in-place update lists the targets once; what follows stays within
    [fp_in_place]. *)
Lemma wp_update_in_place (phi : call Doc -> Prop) event props gateway_id lambda_arn
    api_spec Q E (s : St) :
  (forall c, fp_in_place env props gateway_id c -> phi c) ->
  (forall w s',
     grows phi (after_call env (CListTargets gateway_id) w s) s' ->
     (forall body, reconciled env event props gateway_id body s' -> Q body s') /\
     (forall e, E e s')) ->
  wp (update_in_place env event props gateway_id lambda_arn api_spec) Q E s.
Proof.
  intros Hphi HQ. unfold update_in_place. apply wp_bind.
  apply wp_create_or_update_target with (phi := phi).
  { intros c Hc. apply Hphi. eapply fp_in_place_target, Hc. }
  intros w s1 Hg1. split; [| intros e; apply (HQ w s1 Hg1)].
  intros target_id. apply wp_bind.
  apply wp_get_gateway
    with (phi := phi) (s0 := after_call env (CListTargets gateway_id) w s); auto.
  { apply Hphi, fp_in_place_get. }
  2:{ intros e s' Hs'. apply (HQ w s' Hs'). }
  intros d s2 Hg2 Hrep.
  apply wp_finish
    with (phi := phi) (s0 := after_call env (CListTargets gateway_id) w s); auto.
  - intros c Hc. apply Hphi. eapply fp_in_place_finish, Hc.
  - intros body s' Hs'. apply (HQ w s' Hs').
  - intros e s' Hs'. apply (HQ w s' Hs').
Qed.

Lemma wp_delete_gateway (phi : call Doc -> Prop) s0 event Q E (s : St) :
  (forall gateway_id c, PhysicalResourceId event = Some gateway_id ->
     fp_teardown gateway_id c -> phi c) ->
  (forall c, fp_send c -> phi c) ->
  grows phi s0 s ->
  (forall body s', grows phi s0 s' ->
     rb_Status body = "SUCCESS" -> rb_Data body = ∅ -> Q body s') ->
  (forall e s', grows phi s0 s' -> E e s') ->
  wp (delete_gateway env event) Q E s.
Proof.
  intros Htear Hsend Hg HQ HE. unfold delete_gateway.
  apply wp_bind, wp_event_item; [| intros _; apply HE, Hg].
  intros gateway_id Hp. apply wp_bind.
  apply wp_teardown with (phi := phi) (s0 := s0); auto.
  { intros c. apply Htear, Hp. }
  intros s1 Hg1. apply wp_send_response; [auto |].
  intros url st rq lg w _ _ _ _ body. split.
  - apply HQ; auto. apply grows_call; auto using fp_send_put.
  - intros e. apply HE, grows_call; auto using fp_send_put.
Qed.

Lemma wp_update_gateway (phi : call Doc -> Prop) s0 event props Q E (s : St) :
  (forall gateway_id c, PhysicalResourceId event = Some gateway_id ->
     fp_teardown gateway_id c -> phi c) ->
  (forall c, fp_send c -> phi c) ->
  (forall c, fp_create env props c -> phi c) ->
  grows phi s0 s ->
  (forall gateway_id body s', grows phi s0 s' ->
     reconciled env event props gateway_id body s' -> Q body s') ->
  (forall e s', grows phi s0 s' -> E e s') ->
  wp (update_gateway env event props) Q E s.
Proof.
  intros Htear Hsend Hcreate Hg HQ HE. unfold update_gateway.
  apply wp_bind, wp_event_item; [| intros _; apply HE, Hg]. intros gateway_id Hp.
  apply wp_bind, wp_getitem; [| intros _; apply HE, Hg]. intros lambda_arn _.
  apply wp_bind, wp_getitem; [| intros _; apply HE, Hg]. intros text _.
  apply wp_bind, wp_parse; [| intros e _; apply HE, Hg]. intros api_spec _.
  destruct (names_differ event props).
  - apply wp_bind.
    apply wp_delete_gateway with (phi := phi) (s0 := s0); auto.
    intros _ s1 Hg1 _ _.
    apply wp_create_gateway with (phi := phi) (s0 := s0); auto.
    intros gid body s' _. apply HQ.
  - apply wp_update_in_place with (phi := phi).
    { intros c Hc. eapply Hcreate, fp_in_place_create, Hc. }
    intros w s' Hs'.
    assert (Hg' : grows phi s0 s').
    { eapply grows_trans; [| exact Hs']. apply grows_call; auto.
      eapply Hcreate, fp_create_reuse, fp_reuse_list. }
    split; [intros body; apply HQ, Hg' | intros e; apply HE, Hg'].
Qed.

Lemma wp_handler (phi : call Doc -> Prop) s0 event Q E (s : St) :
  (forall c, fp_handler env event c -> phi c) ->
  grows phi s0 s ->
  (forall body s', grows phi s0 s' -> handled env event body s' -> Q body s') ->
  (forall e s', grows phi s0 s' -> E e s') ->
  wp (handler env event) Q E s.
Proof.
  intros Hphi Hg HQ HE. unfold handler.
  apply wp_bind, wp_event_item; [| intros _; apply HE, Hg]. intros request_type _.
  apply wp_bind, wp_event_item; [| intros _; apply HE, Hg]. intros props Hprops.
  assert (Hfail : forall e s1, grows phi s0 s1 ->
            wp (send_response env event "FAILED" (Some (str e)) None None) Q E s1).
  { intros e s1 Hg1. apply wp_send_response; [auto |].
    intros url st rq lg w _ _ _ _ body. split.
    - apply HQ; [| left; reflexivity].
      apply grows_call; auto using fp_handler_send, fp_send_put.
    - intros e'. apply HE, grows_call; auto using fp_handler_send, fp_send_put. }
  apply wp_try. unfold dispatch.
  destruct (String.eqb request_type "Create").
  { apply wp_create_gateway with (phi := phi) (s0 := s0); auto.
    - intros c Hc. eapply Hphi, fp_handler_create; eauto.
    - intros gid body s' _ Hg' Hrec. apply HQ; auto. right. right. eauto. }
  destruct (String.eqb request_type "Update").
  { apply wp_update_gateway with (phi := phi) (s0 := s0); auto.
    - intros gid c Hp Hc. eapply Hphi, fp_handler_teardown; eauto.
    - intros c Hc. apply Hphi, fp_handler_send, Hc.
    - intros c Hc. eapply Hphi, fp_handler_create; eauto.
    - intros gid body s' Hg' Hrec. apply HQ; auto. right. right. eauto. }
  destruct (String.eqb request_type "Delete").
  { apply wp_delete_gateway with (phi := phi) (s0 := s0); auto.
    - intros gid c Hp Hc. eapply Hphi, fp_handler_teardown; eauto.
    - intros c Hc. apply Hphi, fp_handler_send, Hc.
    - intros body s' Hg' Hst Hd. apply HQ; auto. right. left. auto. }
  apply wp_raise, Hfail, Hg.
Qed.

End Footprints.

(** * Gateway URL resolution and the stored parameters *)

Section Outcomes.

Context {W Doc : Type} (env : Env W Doc).

Lemma success_data_lookup gateway_id url target_id :
  success_data gateway_id url target_id !! "GatewayId" = Some gateway_id /\
  success_data gateway_id url target_id !! "GatewayUrl" = Some url /\
  success_data gateway_id url target_id !! "TargetId" = Some target_id.
Proof.
  unfold success_data. split; [| split].
  - apply lookup_insert_eq.
  - rewrite lookup_insert_ne by discriminate. apply lookup_insert_eq.
  - rewrite !lookup_insert_ne by discriminate. apply lookup_insert_eq.
Qed.

Lemma success_data_nonempty gateway_id url target_id :
  success_data gateway_id url target_id <> ∅.
Proof. unfold success_data. apply insert_non_empty. Qed.

(** Every successful create or update is reconciled with a reported record. *)
Lemma create_gateway_reconciled event props (s s' : State W Doc) body :
  create_gateway env event props s = (s', Ok body) ->
  exists gateway_id,
    origin env props gateway_id /\ reconciled env event props gateway_id body s'.
Proof.
  intros Hrun.
  apply (wp_run (create_gateway env event props)
           (fun body s' => exists gateway_id,
                origin env props gateway_id /\
                reconciled env event props gateway_id body s')
           (fun _ _ => True) s s' (Ok body)); [| exact Hrun].
  apply wp_create_gateway with (phi := fun _ => True) (s0 := s);
    auto using grows_refl.
  intros gid b s1 Ho _ Hrec. eauto.
Qed.

Lemma update_gateway_reconciled event props (s s' : State W Doc) body :
  update_gateway env event props s = (s', Ok body) ->
  exists gateway_id, reconciled env event props gateway_id body s'.
Proof.
  intros Hrun.
  apply (wp_run (update_gateway env event props)
           (fun body s' => exists gateway_id,
                reconciled env event props gateway_id body s')
           (fun _ _ => True) s s' (Ok body)); [| exact Hrun].
  apply wp_update_gateway with (phi := fun _ => True) (s0 := s);
    auto using grows_refl.
  intros gid b s1 _ Hrec. eauto.
Qed.

(** C8: gateway URL resolution.  Whenever create (new or existing gateway)
    or update returns an outcome, its [GatewayUrl] is resolved from a record
    [d] that [get_gateway] reported for the outcome's [GatewayId]: it is the
    reported URL when the record has one, and otherwise exactly
    [https://{id}.gateway.bedrock-agentcore.{region}.amazonaws.com/mcp] for
    the request's region.  (An empty URL string counts as absent, as in
    Python's [if not gateway_url].) *)
Theorem gateway_url_resolution event props (s s' : State W Doc) body :
  create_gateway env event props s = (s', Ok body) \/
  update_gateway env event props s = (s', Ok body) ->
  exists gateway_id d url,
    (exists w w', env_get_gateway env gateway_id w = (w', Ok d)) /\
    rb_Data body !! "GatewayId" = Some gateway_id /\
    rb_Data body !! "GatewayUrl" = Some url /\
    (forall u, gatewayUrl d = Some u -> u <> "" -> url = u) /\
    (gatewayUrl d = None \/ gatewayUrl d = Some "" ->
     exists region,
       props !! "Region" = Some region /\
       url = "https://" +:+ gateway_id +:+ ".gateway.bedrock-agentcore."
             +:+ region +:+ ".amazonaws.com/mcp").
Proof.
  intros Hrun.
  assert (Hrec : exists gateway_id, reconciled env event props gateway_id body s').
  { destruct Hrun as [Hrun | Hrun].
    - destruct (create_gateway_reconciled _ _ _ _ _ Hrun) as (gid & _ & H). eauto.
    - eapply update_gateway_reconciled, Hrun. }
  destruct Hrec as (gid & d & tid & url & prefix & Hrep & Hres & _ & _ & _ & Hdata & _).
  destruct (success_data_lookup gid url tid) as (Hg & Hu & _).
  exists gid, d, url. rewrite Hdata.
  split; [exact Hrep |]. split; [exact Hg |]. split; [exact Hu |]. split.
  - intros u Hsome Hne.
    destruct Hres as [[_ Hurl] | [Hfalse _]]; [congruence |].
    rewrite Hsome in Hfalse. simpl in Hfalse.
    destruct (String.eqb_spec u ""); [contradiction | discriminate].
  - intros Habsent.
    destruct Hres as [[Htrue _] | [_ Hregion]]; [| exact Hregion].
    destruct Habsent as [Hd | Hd]; rewrite Hd in Htrue; discriminate.
Qed.

(** When no record carries a URL, the only parameters a run of the handler
    may write are the target id and the gateway id. *)
Lemma fp_handler_puts event props prefix c :
  (forall gateway_id w w' d,
     env_get_gateway env gateway_id w = (w', Ok d) -> gatewayUrl d = None) ->
  ResourceProperties event = Some props ->
  props !! "SsmPrefix" = Some prefix ->
  fp_handler env event c ->
  forall name value, c = CPutParameter name value ->
    name = prefix +:+ "/target_id" \/ name = prefix +:+ "/gateway_id".
Proof.
  intros Hnone Hprops Hprefix Hc name value ->.
  invert Hc.
  - match goal with H : fp_create _ _ _ |- _ => invert H end.
    + match goal with H : fp_wait _ _ |- _ => invert H end.
    + match goal with H : fp_reuse _ _ _ _ |- _ => invert H end.
      * match goal with H : fp_target _ _ _ _ |- _ => invert H end.
        match goal with H : fp_retry _ _ _ _ |- _ => invert H end.
      * match goal with H : fp_finish _ _ _ _ |- _ => invert H end.
        simplify_eq.
      match goal with H : fp_ssm _ _ _ _ |- _ => invert H end; auto.
      match goal with H : reported _ _ _ |- _ => destruct H as (w & w' & Hget) end.
      specialize (Hnone _ _ _ _ Hget). congruence.
  - match goal with H : fp_teardown _ _ |- _ => invert H end.
  - match goal with H : fp_send _ |- _ => invert H end.
Qed.

(** A whole invocation on a remote without URLs.  Suppose no record of any
    gateway carries a [gatewayUrl].  Then a run of the handler leaves
    [{prefix}/gateway_url] as it was; every parameter it writes is
    [{prefix}/target_id] or [{prefix}/gateway_id]; and when it reports the
    SUCCESS of a reconciliation, the callback's Data carries the constructed
    fallback URL while the store holds the target id and a gateway id. *)
Lemma handler_without_urls_keeps_parameter event props prefix
    (s s' : State W Doc) r :
  (forall gateway_id w w' d,
     env_get_gateway env gateway_id w = (w', Ok d) -> gatewayUrl d = None) ->
  ResourceProperties event = Some props ->
  props !! "SsmPrefix" = Some prefix ->
  handler env event s = (s', r) ->
  ssm s' !! (prefix +:+ "/gateway_url") = ssm s !! (prefix +:+ "/gateway_url") /\
  (exists l, trace s' = trace s ++ l /\
     forall name value, In (CPutParameter name value) l ->
       name = prefix +:+ "/target_id" \/ name = prefix +:+ "/gateway_id") /\
  (forall body, r = Ok body -> rb_Status body = "SUCCESS" -> rb_Data body <> ∅ ->
     exists gateway_id target_id region,
       props !! "Region" = Some region /\
       rb_Data body
         = success_data gateway_id (fallback_url gateway_id region) target_id /\
       ssm s' !! (prefix +:+ "/target_id") = Some target_id /\
       is_Some (ssm s' !! (prefix +:+ "/gateway_id"))).
Proof.
  intros Hnone Hprops Hprefix Hrun.
  set (phi := fun c : call Doc => forall name value, c = CPutParameter name value ->
                name = prefix +:+ "/target_id" \/ name = prefix +:+ "/gateway_id").
  assert (Hwp : wp (handler env event)
                  (fun body s1 => grows phi s s1 /\ handled env event body s1)
                  (fun _ s1 => grows phi s s1) s).
  { apply wp_handler with (phi := phi) (s0 := s); auto using grows_refl.
    intros c Hc. unfold phi. eapply fp_handler_puts; eauto. }
  pose proof (wp_run _ _ _ _ _ _ Hwp Hrun) as Hpost.
  assert (Hg : grows phi s s') by (destruct r; [apply Hpost | exact Hpost]).
  destruct Hg as (l & Htrace & Hl & Hframe).
  split; [| split].
  - apply Hframe. intros v Hphi. destruct (Hphi _ _ eq_refl) as [Heq | Heq];
      revert Heq; apply key_ne; discriminate.
  - exists l. split; [exact Htrace |]. intros name value Hin.
    apply (proj1 (List.Forall_forall _ _) Hl _ Hin name value eq_refl).
  - intros body -> Hstatus Hdata. destruct Hpost as [_ Hh].
    destruct Hh as [Hf | [[_ He] | (props0 & gid & Hp0 & Hrec)]];
      [rewrite Hf in Hstatus; discriminate | contradiction |].
    assert (props0 = props) by congruence. subst props0.
    destruct Hrec as (d & tid & url & prefix0 & Hrep & Hres & Hpre & Hst & _ & Hd & _).
    assert (prefix0 = prefix) by congruence. subst prefix0.
    destruct Hrep as (w & w' & Hget). specialize (Hnone _ _ _ _ Hget).
    destruct Hres as [[Ht _] | [_ (region & Hregion & ->)]];
      [rewrite Hnone in Ht; discriminate |].
    destruct Hst as (Htid & Hgid & _).
    exists gid, tid, region. repeat split; eauto.
Qed.

End Outcomes.

(** * Update *)

Section Update.

Context {W Doc : Type} (env : Env W Doc).

Lemma fp_in_place_calls props gateway_id (c : call Doc) :
  fp_in_place env props gateway_id c ->
  is_create_gateway c = false /\ is_delete_gateway c = false /\
  is_list_targets c = false /\
  (forall g, addressed c = Some g -> g = gateway_id).
Proof.
  intros Hc. invert Hc.
  - match goal with H : fp_target _ _ _ _ |- _ => invert H end.
    + repeat split. simpl. congruence.
    + match goal with H : fp_retry _ _ _ _ |- _ => invert H end;
        repeat split; simpl; congruence.
  - repeat split. simpl. congruence.
  - match goal with H : fp_finish _ _ _ _ |- _ => invert H end.
    + match goal with H : fp_ssm _ _ _ _ |- _ => invert H end;
        repeat split; simpl; congruence.
    + repeat split; simpl; congruence.
Qed.

Lemma names_differ_true event props :
  default ∅ (OldResourceProperties event) !! "GatewayName" <> props !! "GatewayName" ->
  names_differ event props = true.
Proof. intros H. unfold names_differ. rewrite bool_decide_eq_false_2; auto. Qed.

Lemma names_differ_false event props :
  default ∅ (OldResourceProperties event) !! "GatewayName" = props !! "GatewayName" ->
  names_differ event props = false.
Proof. intros H. unfold names_differ. rewrite bool_decide_eq_true_2; auto. Qed.

Lemma update_gateway_run event props gateway_id lambda_arn text api_spec
    (s : State W Doc) :
  PhysicalResourceId event = Some gateway_id ->
  props !! "LambdaArn" = Some lambda_arn ->
  props !! "ApiSpec" = Some text ->
  json_loads env text = Ok api_spec ->
  update_gateway env event props s =
    if names_differ event props
    then (delete_gateway env event;;; create_gateway env event props) s
    else update_in_place env event props gateway_id lambda_arn api_spec s.
Proof.
  intros Hp Harn Htext Hspec.
  unfold update_gateway, bind at 1. rewrite Hp. simpl.
  unfold bind at 1, getitem. rewrite Harn. simpl.
  unfold bind at 1. rewrite Htext. simpl.
  unfold bind at 1, parse_api_spec. rewrite Hspec. simpl.
  destruct (names_differ event props); reflexivity.
Qed.

(** C4 as the code has it.  For every UPDATE event that carries its physical
    id, a [LambdaArn] and a parsable [ApiSpec]:
    - if the old and the new [GatewayName] differ, the update is the delete
      of the old physical id followed by the create of the new request, and
      on success the outcome's gateway id is one the remote listed under the
      new name or answered to the create call (nothing in the code makes it
      differ from the original id);
    - if the names are equal, the update issues no gateway create or delete
      call, lists the targets of the physical id exactly once (one target
      create-or-update, every call addressed to that gateway), and when it
      returns it returns SUCCESS with the unchanged physical id. *)
Theorem update_gateway_spec event props gateway_id lambda_arn text api_spec
    (s s' : State W Doc) r :
  PhysicalResourceId event = Some gateway_id ->
  props !! "LambdaArn" = Some lambda_arn ->
  props !! "ApiSpec" = Some text ->
  json_loads env text = Ok api_spec ->
  update_gateway env event props s = (s', r) ->
  (default ∅ (OldResourceProperties event) !! "GatewayName" <> props !! "GatewayName" ->
   update_gateway env event props s
     = (delete_gateway env event;;; create_gateway env event props) s /\
   delete_gateway env event s
     = (teardown env gateway_id;;;
        send_response env event "SUCCESS" None None (Some gateway_id)) s /\
   forall body, r = Ok body ->
     rb_Status body = "SUCCESS" /\
     exists new_id,
       origin env props new_id /\
       rb_Data body !! "GatewayId" = Some new_id /\
       (new_id <> "" -> rb_PhysicalResourceId body = new_id)) /\
  (default ∅ (OldResourceProperties event) !! "GatewayName" = props !! "GatewayName" ->
   update_gateway env event props s
     = update_in_place env event props gateway_id lambda_arn api_spec s /\
   (exists l,
      trace s' = trace s ++ CListTargets gateway_id :: l /\
      Forall (fun c => is_create_gateway c = false /\ is_delete_gateway c = false /\
                       is_list_targets c = false /\
                       forall g, addressed c = Some g -> g = gateway_id) l) /\
   forall body, r = Ok body ->
     rb_Status body = "SUCCESS" /\ rb_PhysicalResourceId body = gateway_id).
Proof.
  intros Hp Harn Htext Hspec Hrun.
  pose proof (update_gateway_run event props gateway_id lambda_arn text api_spec s
                Hp Harn Htext Hspec) as Heq.
  split; intros Hnames.
  - rewrite (names_differ_true _ _ Hnames) in Heq.
    split; [exact Heq |]. split.
    { unfold delete_gateway, bind at 1. rewrite Hp. reflexivity. }
    intros body ->. rewrite Heq in Hrun.
    assert (Hwp : wp (delete_gateway env event;;; create_gateway env event props)
                    (fun body s1 => exists new_id,
                         origin env props new_id /\
                         reconciled env event props new_id body s1)
                    (fun _ _ => True) s).
    { apply wp_bind.
      apply wp_delete_gateway with (phi := fun _ => True) (s0 := s);
        auto using grows_refl.
      intros _ s1 _ _ _.
      apply wp_create_gateway with (phi := fun _ => True) (s0 := s1);
        auto using grows_refl.
      intros gid b s2 Ho _ Hrec. eauto. }
    destruct (wp_run _ _ _ _ _ _ Hwp Hrun)
      as (new_id & Ho & d & tid & url & prefix & _ & _ & _ & _ & Hst & Hd & Hphys).
    split; [exact Hst |]. exists new_id. split; [exact Ho |].
    rewrite Hd. split; [apply success_data_lookup |].
    intros Hne. rewrite Hphys.
    destruct (String.eqb_spec new_id ""); [contradiction | reflexivity].
  - rewrite (names_differ_false _ _ Hnames) in Heq.
    split; [exact Heq |]. rewrite Heq in Hrun.
    set (phi := fp_in_place env props gateway_id).
    assert (Hwp : wp (update_in_place env event props gateway_id lambda_arn api_spec)
                    (fun body s1 =>
                       (exists w, grows phi
                          (after_call env (CListTargets gateway_id) w s) s1) /\
                       reconciled env event props gateway_id body s1)
                    (fun _ s1 =>
                       exists w, grows phi
                         (after_call env (CListTargets gateway_id) w s) s1) s).
    { apply wp_update_in_place with (phi := phi); [auto |].
      intros w s1 Hg. split; eauto. }
    pose proof (wp_run _ _ _ _ _ _ Hwp Hrun) as Hpost.
    assert (Hg : exists w, grows phi
                   (after_call env (CListTargets gateway_id) w s) s')
      by (destruct r; [apply Hpost | exact Hpost]).
    split.
    + destruct Hg as (w & l & Htrace & Hl & _). exists l. split.
      * rewrite Htrace. simpl. rewrite <- app_assoc. reflexivity.
      * eapply Forall_impl; [exact Hl |]. intros c. apply fp_in_place_calls.
    + intros body ->. destruct Hpost as [_ Hrec].
      destruct Hrec as (d & tid & url & prefix & _ & _ & _ & _ & Hst & _ & Hphys).
      split; [exact Hst |]. rewrite Hphys, Hp. simpl.
      destruct (String.eqb_spec gateway_id ""); congruence.
Qed.

End Update.

(** * The dispatcher *)

Section Dispatcher.

Context {W Doc : Type} (env : Env W Doc).

Lemma handler_run event request_type props (s : State W Doc) :
  RequestType event = Some request_type ->
  ResourceProperties event = Some props ->
  handler env event s =
    try_catch (dispatch env request_type event props)
      (fun e => send_response env event "FAILED" (Some (str e)) None None) s.
Proof.
  intros Hrt Hprops. unfold handler, bind at 1. rewrite Hrt. simpl.
  unfold bind at 1. rewrite Hprops. reflexivity.
Qed.

(** An event kind other than Create, Update and Delete is an error. *)
Lemma dispatch_unknown request_type event props (s : State W Doc) :
  request_type <> "Create" -> request_type <> "Update" -> request_type <> "Delete" ->
  dispatch env request_type event props s
    = (s, Raise (ValueError ("Unknown request type: " +:+ request_type))).
Proof.
  intros Hc Hu Hd. unfold dispatch.
  destruct (String.eqb_spec request_type "Create"); [contradiction |].
  destruct (String.eqb_spec request_type "Update"); [contradiction |].
  destruct (String.eqb_spec request_type "Delete"); [contradiction |].
  reflexivity.
Qed.

(** With the callback fields present and a transport that does not raise,
    [send_response] returns the body it has PUT. *)
Lemma send_response_delivered event status reason data physical stack_id request_id
    logical_id url (s : State W Doc) :
  StackId event = Some stack_id ->
  RequestId event = Some request_id ->
  LogicalResourceId event = Some logical_id ->
  ResponseURL event = Some url ->
  (forall body w, (env_http_put env url body w).2 = Ok tt) ->
  let body := callback_body event status reason data physical
                stack_id request_id logical_id in
  exists w,
    send_response env event status reason data physical s
      = (after_call env (CHttpPut url body) w s, Ok body).
Proof.
  intros Hst Hrq Hlg Hurl Hhttp body.
  unfold send_response, bind, event_item, http_put, api, ret.
  rewrite Hst, Hrq, Hlg, Hurl.
  fold (callback_body event status reason data physical stack_id request_id logical_id).
  fold body.
  pose proof (Hhttp body (world s)) as Hok.
  destruct (env_http_put env url body (world s)) as [w r]. simpl in Hok. subst r.
  exists w. reflexivity.
Qed.

(** With the callback fields present, [send_response] PUTs its body and
    returns it, or lets the error of the PUT through. *)
Lemma send_response_put event status reason data physical stack_id request_id
    logical_id url (s : State W Doc) :
  StackId event = Some stack_id ->
  RequestId event = Some request_id ->
  LogicalResourceId event = Some logical_id ->
  ResponseURL event = Some url ->
  let body := callback_body event status reason data physical
                stack_id request_id logical_id in
  send_response env event status reason data physical s =
    match env_http_put env url body (world s) with
    | (w, Ok _) => (after_call env (CHttpPut url body) w s, Ok body)
    | (w, Raise e) => (after_call env (CHttpPut url body) w s, Raise e)
    end.
Proof.
  intros Hst Hrq Hlg Hurl body.
  unfold send_response, bind, event_item, http_put, api, ret.
  rewrite Hst, Hrq, Hlg, Hurl.
  fold (callback_body event status reason data physical stack_id request_id logical_id).
  fold body.
  destruct (env_http_put env url body (world s)) as [w [[]|e]]; reflexivity.
Qed.

(** The boundary as far as it holds.  For every event that carries
    [RequestType], [ResourceProperties] and the callback fields, and a
    transport that delivers FAILED callbacks: the handler returns an
    outcome (no exception leaves it), whatever happens to any other PUT;
    when the dispatched operation raised [e], that outcome is FAILED, was
    PUT to the callback URL, and its [Reason] is [str(e)], or
    ["FAILED: See CloudWatch logs"] when [str(e)] is empty; an unknown event
    kind is such an exception; and when the operation returned, its outcome
    is the handler's. *)
Lemma handler_failure_boundary event request_type props stack_id request_id
    logical_id url (s : State W Doc) :
  RequestType event = Some request_type ->
  ResourceProperties event = Some props ->
  StackId event = Some stack_id ->
  RequestId event = Some request_id ->
  LogicalResourceId event = Some logical_id ->
  ResponseURL event = Some url ->
  (forall body w, rb_Status body = "FAILED" -> (env_http_put env url body w).2 = Ok tt) ->
  exists s' body,
    handler env event s = (s', Ok body) /\
    (forall s1 e, dispatch env request_type event props s = (s1, Raise e) ->
       rb_Status body = "FAILED" /\
       rb_Reason body
         = (if String.eqb (str e) "" then "FAILED: See CloudWatch logs" else str e) /\
       trace s' = trace s1 ++ [CHttpPut url body]) /\
    (forall s1 b, dispatch env request_type event props s = (s1, Ok b) ->
       s' = s1 /\ body = b) /\
    (request_type <> "Create" -> request_type <> "Update" ->
     request_type <> "Delete" ->
     rb_Status body = "FAILED" /\
     rb_Reason body = "Unknown request type: " +:+ request_type).
Proof.
  intros Hrt Hprops Hst Hrq Hlg Hurl Hhttp.
  rewrite (handler_run event request_type props s Hrt Hprops).
  unfold try_catch.
  destruct (dispatch env request_type event props s) as [s1 [b|e]] eqn:Hd.
  - exists s1, b. split; [reflexivity |]. split; [| split].
    + intros s2 e [=].
    + intros s2 b' [= <- <-]. auto.
    + intros Hc Hu Hdel.
      rewrite (dispatch_unknown request_type event props s Hc Hu Hdel) in Hd.
      discriminate.
  - rewrite (send_response_put event "FAILED" (Some (str e)) None None
               stack_id request_id logical_id url s1 Hst Hrq Hlg Hurl).
    match goal with |- context [env_http_put env url ?b ?w] =>
      pose proof (Hhttp b w eq_refl) as Hok;
      destruct (env_http_put env url b w) as [w1 [[]|e1]]; [| discriminate]
    end.
    eexists _, _. split; [reflexivity |]. split; [| split].
    + intros s2 e' [= <- <-]. simpl. auto.
    + intros s2 b [=].
    + intros Hc Hu Hdel.
      rewrite (dispatch_unknown request_type event props s Hc Hu Hdel) in Hd.
      injection Hd as <- <-. split; reflexivity.
Qed.

(** C1: exceptions do leave the handler.  The claim (and the handler's own
    docstring) has every exception caught and answered FAILED, but
    - an event without [RequestType], or with it but without
      [ResourceProperties], makes the handler raise [KeyError] in the state
      it started in: the two reads come before the [try], and no callback is
      sent;
    - when the dispatched operation raised [e] and the PUT of the FAILED
      callback raises [e'], then [e'] leaves the handler: the
      [send_response] of the [except] branch is not guarded. *)
Theorem handler_exception_escapes event (s : State W Doc) :
  (RequestType event = None ->
   handler env event s = (s, Raise (KeyError "RequestType"))) /\
  (is_Some (RequestType event) -> ResourceProperties event = None ->
   handler env event s = (s, Raise (KeyError "ResourceProperties"))) /\
  (forall request_type props stack_id request_id logical_id url s1 e w e',
     RequestType event = Some request_type ->
     ResourceProperties event = Some props ->
     StackId event = Some stack_id ->
     RequestId event = Some request_id ->
     LogicalResourceId event = Some logical_id ->
     ResponseURL event = Some url ->
     dispatch env request_type event props s = (s1, Raise e) ->
     let body := callback_body event "FAILED" (Some (str e)) None None
                   stack_id request_id logical_id in
     env_http_put env url body (world s1) = (w, Raise e') ->
     handler env event s = (after_call env (CHttpPut url body) w s1, Raise e')).
Proof.
  split; [| split].
  - intros Hrt. unfold handler, bind, event_item. rewrite Hrt. reflexivity.
  - intros [rt Hrt] Hprops. unfold handler, bind, event_item.
    rewrite Hrt, Hprops. reflexivity.
  - intros rt props stack_id request_id logical_id url s1 e w e'
      Hrt Hprops Hst Hrq Hlg Hurl Hd body Hput.
    rewrite (handler_run event rt props s Hrt Hprops).
    unfold try_catch. rewrite Hd.
    rewrite (send_response_put event "FAILED" (Some (str e)) None None
               stack_id request_id logical_id url s1 Hst Hrq Hlg Hurl).
    fold body. rewrite Hput. reflexivity.
Qed.

End Dispatcher.

(** * Callbacks per invocation *)

Section Callbacks.

Context {W Doc : Type} (env : Env W Doc).
Variables (event : Event) (stack_id request_id logical_id url : string).
Hypothesis Hstack : StackId event = Some stack_id.
Hypothesis Hrequest : RequestId event = Some request_id.
Hypothesis Hlogical : LogicalResourceId event = Some logical_id.
Hypothesis Hurl : ResponseURL event = Some url.
Hypothesis Hdeliver : forall body w, (env_http_put env url body w).2 = Ok tt.

Lemma count_app {A} (p : A -> bool) l1 l2 :
  count p (l1 ++ l2) = (count p l1 + count p l2)%nat.
Proof.
  induction l1 as [|x l1 IH]; simpl; [reflexivity |].
  rewrite IH. destruct (p x); reflexivity.
Qed.

Lemma grows_quiet (s0 s : State W Doc) :
  grows quiet s0 s -> callbacks s = callbacks s0.
Proof.
  intros (l & Ht & Hl & _). unfold callbacks. rewrite Ht, count_app.
  assert (Hz : count is_http_put l = 0%nat).
  { clear Ht. induction Hl as [|c l Hc _ IH]; simpl; [reflexivity |].
    unfold quiet in Hc. rewrite Hc. exact IH. }
  lia.
Qed.

Lemma callbacks_after_call c w (s : State W Doc) :
  callbacks (after_call env c w s)
    = (callbacks s + if is_http_put c then 1 else 0)%nat.
Proof.
  unfold callbacks. simpl. rewrite count_app. simpl.
  destruct (is_http_put c); lia.
Qed.

Lemma wp_send_delivered status reason data physical Q E (s : State W Doc) :
  (forall w,
     let body := callback_body event status reason data physical
                   stack_id request_id logical_id in
     Q body (after_call env (CHttpPut url body) w s)) ->
  wp (send_response env event status reason data physical) Q E s.
Proof.
  intros HQ. unfold wp.
  destruct (send_response_delivered env event status reason data physical
              stack_id request_id logical_id url s Hstack Hrequest Hlogical Hurl
              Hdeliver) as [w Hrun].
  cbv zeta in Hrun. rewrite Hrun. apply HQ.
Qed.

Lemma quiet_ssm prefix d target_id (c : call Doc) :
  fp_ssm prefix d target_id c -> quiet c.
Proof. intros Hc. invert Hc; reflexivity. Qed.

Lemma quiet_retry gateway_id lambda_arn api_spec (c : call Doc) :
  fp_retry gateway_id lambda_arn api_spec c -> quiet c.
Proof. intros Hc. invert Hc; reflexivity. Qed.

Lemma quiet_target gateway_id lambda_arn api_spec (c : call Doc) :
  fp_target gateway_id lambda_arn api_spec c -> quiet c.
Proof. intros Hc. invert Hc; [reflexivity | eapply quiet_retry; eauto]. Qed.

Lemma quiet_wait gateway_id (c : call Doc) : fp_wait gateway_id c -> quiet c.
Proof. intros Hc. invert Hc; reflexivity. Qed.

Lemma quiet_teardown gateway_id (c : call Doc) :
  fp_teardown gateway_id c -> quiet c.
Proof. intros Hc. invert Hc; reflexivity. Qed.

Lemma sends_one_finish props d target_id gateway_id :
  sends_one
    (update_ssm_parameters env d target_id props;;;
     gateway_url <- resolve_gateway_url d gateway_id props;;
     send_response env event "SUCCESS" None
       (Some (success_data gateway_id gateway_url target_id)) (Some gateway_id)).
Proof.
  intros n s Hn. apply wp_bind.
  apply wp_update_ssm_parameters with (phi := quiet) (s0 := s);
    [apply grows_refl | | |].
  - intros prefix c _. apply quiet_ssm.
  - intros prefix s1 _ Hg _. apply grows_quiet in Hg.
    apply wp_bind, wp_resolve_gateway_url; [| lia].
    intros gateway_url _. apply wp_send_delivered. intros w body.
    rewrite callbacks_after_call. simpl. lia.
  - intros e s1 Hg. apply grows_quiet in Hg. lia.
Qed.

Lemma sends_one_reuse props lambda_arn api_spec gateway_id :
  sends_one (reuse_gateway env event props lambda_arn api_spec gateway_id).
Proof.
  intros n s Hn. unfold reuse_gateway.
  apply wp_bind. unfold get_gateway. apply wp_api. intros w [d|e] _.
  2:{ rewrite callbacks_after_call. simpl. lia. }
  apply wp_bind. apply wp_create_or_update_target with (phi := quiet).
  { intros c. apply quiet_target. }
  intros w' s1 Hg. apply grows_quiet in Hg.
  rewrite !callbacks_after_call in Hg. simpl in Hg.
  split; [| intros _; lia].
  intros target_id. apply sends_one_finish. lia.
Qed.

Lemma sends_one_in_place props gateway_id lambda_arn api_spec :
  sends_one (update_in_place env event props gateway_id lambda_arn api_spec).
Proof.
  intros n s Hn. unfold update_in_place.
  apply wp_bind. apply wp_create_or_update_target with (phi := quiet).
  { intros c. apply quiet_target. }
  intros w s1 Hg. apply grows_quiet in Hg.
  rewrite callbacks_after_call in Hg. simpl in Hg.
  split; [| intros _; lia].
  intros target_id. apply wp_bind. unfold get_gateway. apply wp_api.
  intros w' [d|e] _.
  - apply sends_one_finish. rewrite callbacks_after_call. simpl. lia.
  - rewrite callbacks_after_call. simpl. lia.
Qed.

Lemma sends_one_new props gateway_name lambda_arn api_spec role_arn :
  sends_one (create_new_gateway env event props gateway_name lambda_arn api_spec
               role_arn).
Proof.
  intros n s Hn. unfold create_new_gateway.
  apply wp_bind, wp_getitem; [| intros _; exact Hn]. intros client_id _.
  apply wp_bind, wp_getitem; [| intros _; exact Hn]. intros discovery_url _.
  apply wp_bind. unfold create_gateway_call. apply wp_api.
  intros w [gateway_id|e] _.
  2:{ rewrite callbacks_after_call. simpl. lia. }
  set (s1 := after_call env _ w s).
  assert (Hn1 : callbacks s1 = n)
    by (unfold s1; rewrite callbacks_after_call; simpl; lia).
  apply wp_bind.
  apply wp_wait_for_gateway_ready with (phi := quiet) (s0 := s1);
    [intros c; apply quiet_wait | apply grows_refl | |].
  2:{ intros e s2 Hg. apply grows_quiet in Hg. lia. }
  intros s2 Hg. apply grows_quiet in Hg.
  apply wp_bind. unfold get_gateway. apply wp_api. intros w' [d|e] _.
  2:{ rewrite callbacks_after_call. simpl. lia. }
  set (s3 := after_call env _ w' s2).
  assert (Hn3 : callbacks s3 = n)
    by (unfold s3; rewrite callbacks_after_call; simpl; lia).
  apply wp_bind. unfold create_target_with_retry.
  apply wp_retry_loop with (phi := quiet) (s0 := s3);
    [intros c; apply quiet_retry | apply grows_refl | |].
  - intros target_id s4 Hg4. apply grows_quiet in Hg4.
    apply sends_one_finish. lia.
  - intros e s4 Hg4. apply grows_quiet in Hg4. lia.
Qed.

Lemma sends_one_scan props gateway_name lambda_arn api_spec items :
  forall n (s : State W Doc), callbacks s = n ->
    wp (scan_gateways env event props gateway_name lambda_arn api_spec items)
       (fun found s' =>
          callbacks s' = match found with Some _ => S n | None => n end)
       (fun _ s' => callbacks s' = n) s.
Proof.
  induction items as [|gw rest IH]; intros n s Hn; simpl.
  - apply wp_ret. exact Hn.
  - destruct (String.eqb (gs_name gw) gateway_name); [| apply IH, Hn].
    apply wp_bind.
    eapply wp_mono; [apply sends_one_reuse, Hn | | auto].
    intros body s' Hs'. apply wp_ret. exact Hs'.
Qed.

Lemma sends_one_create props : sends_one (create_gateway env event props).
Proof.
  intros n s Hn. unfold create_gateway.
  apply wp_bind, wp_getitem; [| intros _; exact Hn]. intros gateway_name _.
  apply wp_bind, wp_getitem; [| intros _; exact Hn]. intros lambda_arn _.
  apply wp_bind, wp_getitem; [| intros _; exact Hn]. intros text _.
  apply wp_bind, wp_parse; [| intros e _; exact Hn]. intros api_spec _.
  apply wp_bind, wp_getitem; [| intros _; exact Hn]. intros role_arn _.
  apply wp_bind, wp_try.
  apply wp_mono
    with (Q := fun (found : option ResponseBody) s' =>
                 callbacks s' = match found with Some _ => S n | None => n end)
         (E := fun _ s' => callbacks s' = n).
  - apply wp_bind. unfold list_gateways. apply wp_api. intros w [items|e] _.
    + apply sends_one_scan. rewrite callbacks_after_call. simpl. lia.
    + rewrite callbacks_after_call. simpl. lia.
  - intros [body|] s' Hs'; [apply wp_ret, Hs' | apply sends_one_new, Hs'].
  - intros e s' Hs'. apply wp_ret. apply sends_one_new, Hs'.
Qed.

(** A delete raises only for want of a physical id, before any callback. *)
Lemma sends_one_delete n (s : State W Doc) :
  callbacks s = n ->
  wp (delete_gateway env event)
     (fun _ s' => callbacks s' = S n)
     (fun _ s' => callbacks s' = n /\ PhysicalResourceId event = None) s.
Proof.
  intros Hn. unfold delete_gateway.
  apply wp_bind, wp_event_item; [| intros Hnone; split; [exact Hn | exact Hnone]].
  intros gateway_id _. apply wp_bind.
  apply wp_teardown with (phi := quiet) (s0 := s);
    [intros c; apply quiet_teardown | apply grows_refl |].
  intros s1 Hg. apply grows_quiet in Hg.
  apply wp_send_delivered. intros w body.
  rewrite callbacks_after_call. simpl. lia.
Qed.

(** An update sends two callbacks when it renames, one otherwise; when it
    raises, one callback less has been sent. *)
Lemma sends_update props n (s : State W Doc) :
  callbacks s = n ->
  wp (update_gateway env event props)
     (fun _ s' => callbacks s' = if renames env event props then S (S n) else S n)
     (fun _ s' => callbacks s' = if renames env event props then S n else n) s.
Proof.
  intros Hn. unfold update_gateway, renames.
  apply wp_bind, wp_event_item.
  2:{ intros ->. exact Hn. }
  intros gateway_id Hp. rewrite Hp.
  apply wp_bind, wp_getitem.
  2:{ intros ->. exact Hn. }
  intros lambda_arn ->.
  apply wp_bind, wp_getitem.
  2:{ intros ->. exact Hn. }
  intros text ->.
  apply wp_bind, wp_parse.
  2:{ intros e ->. exact Hn. }
  intros api_spec ->.
  destruct (names_differ event props).
  - apply wp_bind.
    eapply wp_mono; [apply sends_one_delete, Hn | |].
    + intros b s1 Hs1. apply sends_one_create, Hs1.
    + intros e s1 [_ Hnone]. congruence.
  - apply sends_one_in_place, Hn.
Qed.

(** X1: the number of callbacks of an invocation.  With the callback fields
    present and a transport that does not raise, the handler returns, having
    sent two callbacks for an UPDATE that renames the gateway and exactly one
    in every other case, failures included. *)
Lemma callbacks_per_invocation request_type props (s : State W Doc) :
  RequestType event = Some request_type ->
  ResourceProperties event = Some props ->
  exists s' body,
    handler env event s = (s', Ok body) /\
    callbacks s' =
      (callbacks s
       + if String.eqb request_type "Update" && renames env event props then 2 else 1)%nat.
Proof.
  intros Hrt Hprops.
  set (k := if String.eqb request_type "Update" && renames env event props
            then 2%nat else 1%nat).
  assert (Hwp : wp (handler env event)
                  (fun _ s' => callbacks s' = (callbacks s + k)%nat)
                  (fun _ _ => False) s).
  { unfold handler.
    apply wp_bind, wp_event_item; [| congruence]. intros rt Hrt'.
    apply wp_bind, wp_event_item; [| congruence]. intros props' Hprops'.
    assert (rt = request_type) by congruence.
    assert (props' = props) by congruence. subst rt props'.
    apply wp_try.
    apply wp_mono
      with (Q := fun _ s' => callbacks s' = (callbacks s + k)%nat)
           (E := fun _ s' => S (callbacks s') = (callbacks s + k)%nat).
    - unfold dispatch, k.
      destruct (String.eqb_spec request_type "Create") as [-> | _].
      { eapply wp_mono; [apply sends_one_create; reflexivity | |];
          simpl; intros; lia. }
      destruct (String.eqb request_type "Update").
      { eapply wp_mono; [apply sends_update; reflexivity | |];
          simpl; intros ? ? ?; destruct (renames env event props); lia. }
      destruct (String.eqb request_type "Delete").
      { eapply wp_mono; [apply sends_one_delete; reflexivity | |];
          simpl; intros; lia. }
      apply wp_raise. simpl. lia.
    - auto.
    - intros e s1 Hs1. apply wp_send_delivered. intros w body.
      rewrite callbacks_after_call. simpl. lia. }
  destruct (handler env event s) as [s' [body|e]] eqn:Hrun.
  - exists s', body. split; [reflexivity |].
    apply (wp_run _ _ _ _ _ _ Hwp Hrun).
  - destruct (wp_run _ _ _ _ _ _ Hwp Hrun).
Qed.

End Callbacks.

(** * Reusing a listed gateway *)

Section Reuse.

Context {W Doc : Type} (env : Env W Doc).

Lemma scan_gateways_first event props gateway_name lambda_arn api_spec items :
  scan_gateways env event props gateway_name lambda_arn api_spec items =
    match first_named gateway_name items with
    | Some gw =>
        body <- reuse_gateway env event props lambda_arn api_spec (gs_gatewayId gw);;
        ret (Some body)
    | None => ret None
    end.
Proof.
  induction items as [|gw rest IH]; simpl; [reflexivity |].
  destruct (String.eqb (gs_name gw) gateway_name); [reflexivity | exact IH].
Qed.

(** X2: reuse of a listed gateway.  When the gateway is listed and its
    reconciliation goes through, create is that reconciliation: one listing
    of the gateways, one read of the gateway, and then no gateway-create
    call, no further status read (no readiness wait) and only calls
    addressed to that gateway.  The outcome is SUCCESS with the id of the
    listed gateway. *)
Lemma create_gateway_reuses_listed event props gateway_name lambda_arn text
    api_spec role_arn items gw w (s s' : State W Doc) body :
  props !! "GatewayName" = Some gateway_name ->
  props !! "LambdaArn" = Some lambda_arn ->
  props !! "ApiSpec" = Some text ->
  json_loads env text = Ok api_spec ->
  props !! "GatewayRoleArn" = Some role_arn ->
  env_list_gateways env (world s) = (w, Ok items) ->
  first_named gateway_name items = Some gw ->
  reuse_gateway env event props lambda_arn api_spec (gs_gatewayId gw)
    (after_call env CListGateways w s) = (s', Ok body) ->
  create_gateway env event props s = (s', Ok body) /\
  rb_Status body = "SUCCESS" /\
  rb_Data body !! "GatewayId" = Some (gs_gatewayId gw) /\
  exists l,
    trace s' = trace s ++ CListGateways :: CGetGateway (gs_gatewayId gw) :: l /\
    Forall (fun c => is_create_gateway c = false /\ is_get_gateway c = false /\
                     forall g, addressed c = Some g -> g = gs_gatewayId gw) l.
Proof.
  intros Hname Harn Htext Hspec Hrole Hlist Hfirst Hreuse.
  split.
  { unfold create_gateway, bind at 1, getitem. rewrite Hname. simpl.
    unfold bind at 1. rewrite Harn. simpl.
    unfold bind at 1. rewrite Htext. simpl.
    unfold bind at 1, parse_api_spec. rewrite Hspec. simpl.
    unfold bind at 1. rewrite Hrole. simpl.
    unfold bind at 1, try_catch, bind at 1, list_gateways, api. rewrite Hlist.
    fold (after_call env CListGateways w s).
    rewrite scan_gateways_first, Hfirst. unfold bind at 1. rewrite Hreuse.
    reflexivity. }
  set (gid := gs_gatewayId gw) in *.
  set (phi := fun c : call Doc =>
                is_create_gateway c = false /\ is_get_gateway c = false /\
                forall g, addressed c = Some g -> g = gid).
  assert (Htarget : forall c, fp_target gid lambda_arn api_spec c -> phi c).
  { intros c Hc. invert Hc.
    - repeat split. simpl. congruence.
    - match goal with H : fp_retry _ _ _ _ |- _ => invert H end;
        repeat split; simpl; congruence. }
  assert (Hfinish : forall c, fp_finish env props gid c -> phi c).
  { intros c Hc. invert Hc.
    - match goal with H : fp_ssm _ _ _ _ |- _ => invert H end;
        repeat split; simpl; congruence.
    - repeat split; simpl; congruence. }
  unfold reuse_gateway, bind at 1, get_gateway, api in Hreuse.
  destruct (env_get_gateway env gid (world (after_call env CListGateways w s)))
    as [w1 [d|e]] eqn:Hget; [| discriminate].
  match type of Hreuse with ?m ?s1 = _ =>
    assert (Hwp : wp m (fun body s2 => grows phi s1 s2 /\
                                       reconciled env event props gid body s2)
                    (fun _ _ => True) s1)
  end.
  { apply wp_bind. apply wp_create_or_update_target with (phi := phi); [exact Htarget |].
    intros w2 s2 Hg2. split; [| auto].
    intros target_id.
    match type of Hg2 with grows _ ?base _ =>
      apply wp_finish with (phi := phi) (s0 := base); auto
    end.
    - exists (world (after_call env CListGateways w s)), w1. exact Hget.
    - intros b s3 Hg3 Hrec. split; [| exact Hrec].
      eapply grows_trans; [| exact Hg3].
      apply grows_call; [| apply grows_refl].
      repeat split. simpl. congruence. }
  destruct (wp_run _ _ _ _ _ _ Hwp Hreuse) as [(l & Htrace & Hl & _) Hrec].
  destruct Hrec as (d' & tid & u & prefix & _ & _ & _ & _ & Hst & Hdata & _).
  split; [exact Hst |]. split; [rewrite Hdata; apply success_data_lookup |].
  exists l. split; [| exact Hl].
  rewrite Htrace. simpl. rewrite <- !app_assoc. reflexivity.
Qed.

End Reuse.

(** * The URL parameter *)

Section UrlParameter.

Context {W Doc : Type} (env : Env W Doc).
Variables (event : Event) (props : gmap string string) (prefix : string).
Hypothesis Hprefix : props !! "SsmPrefix" = Some prefix.

















End UrlParameter.

(** * Runs on the simulated control plane *)

Lemma fake_http_never_fails errors url :
  errors !! "http_put" = None ->
  forall u body w, (env_http_put (fake_env errors url) u body w).2 = Ok tt.
Proof. intros H u body w. simpl. unfold fk_fail. rewrite H. reflexivity. Qed.

Lemma fake_reports_no_url errors :
  forall gateway_id w w' d,
    env_get_gateway (fake_env errors None) gateway_id w = (w', Ok d) ->
    gatewayUrl d = None.
Proof.
  intros gid w w' d. simpl. unfold fk_fail.
  destruct (errors !! "get_gateway"); intros [= <- <-]; reflexivity.
Qed.

(** ** The dispatcher boundary *)

(** Three runs at the boundary: an exception leaves the handler when no
    callback can be delivered, and when the event has no [RequestType]; and
    an exception whose message is empty is reported with the default
    reason. *)
Example handler_boundary_runs :
  (handler (fake_env {[ "http_put" := "connection refused" ]} None)
     (demo_event "Create" "demo" None None) (start fake0)).2
    = Raise (ClientError "connection refused") /\
  (handler (fake_env ∅ None)
     {| RequestType := None; ResourceProperties := Some (demo_props "demo");
        OldResourceProperties := None; PhysicalResourceId := None;
        StackId := Some "stack"; RequestId := Some "req";
        LogicalResourceId := Some "Gateway";
        ResponseURL := Some "https://cfn/callback" |} (start fake0)).2
    = Raise (KeyError "RequestType") /\
  (exists body,
     (dispatch (fake_env {[ "get_gateway" := "" ]} None) "Update" same_name_event
        (demo_props "demo") (start fake1)).2 = Raise (ClientError "") /\
     (handler (fake_env {[ "get_gateway" := "" ]} None) same_name_event
        (start fake1)).2 = Ok body /\
     rb_Status body = "FAILED" /\
     rb_Reason body <> str (ClientError "")).
Proof.
  split; [vm_compute; reflexivity |]. split; [vm_compute; reflexivity |].
  eexists. split; [vm_compute; reflexivity |].
  split; [vm_compute; reflexivity |]. split; [reflexivity |].
  vm_compute. discriminate.
Qed.

Lemma handler_exception_escapes_witness :
  let refused := fake_env {[ "http_put" := "connection refused" ]} None in
  let event := demo_event "Frobnicate" "demo" None None in
  (exists s',
     handler refused event (start fake0) = (s', Raise (ClientError "connection refused")) /\
     statuses_and_ids (trace s') = [("FAILED", "NONE")]) /\
  handler (fake_env ∅ None)
    {| RequestType := None; ResourceProperties := Some (demo_props "demo");
       OldResourceProperties := None; PhysicalResourceId := None;
       StackId := Some "stack"; RequestId := Some "req";
       LogicalResourceId := Some "Gateway";
       ResponseURL := Some "https://cfn/callback" |} (start fake0)
  = (start fake0, Raise (KeyError "RequestType")).
Proof.
  intros refused event. split.
  - assert (Hd : dispatch refused "Frobnicate" event (demo_props "demo") (start fake0)
                 = (start fake0, Raise (ValueError "Unknown request type: Frobnicate")))
      by (vm_compute; reflexivity).
    assert (Hput : env_http_put refused "https://cfn/callback"
                     (callback_body event "FAILED"
                        (Some (str (ValueError "Unknown request type: Frobnicate")))
                        None None "stack" "req" "Gateway")
                     (world (start fake0))
                   = (fake0, Raise (ClientError "connection refused")))
      by (vm_compute; reflexivity).
    eexists. split.
    + exact (proj2 (proj2 (handler_exception_escapes refused event (start fake0)))
               "Frobnicate" (demo_props "demo") "stack" "req" "Gateway"
               "https://cfn/callback" (start fake0) _ fake0 _
               eq_refl eq_refl eq_refl eq_refl eq_refl eq_refl Hd Hput).
    + vm_compute. reflexivity.
  - apply (proj1 (handler_exception_escapes (fake_env ∅ None) _ (start fake0))).
    reflexivity.
Defined.

(** An unknown request type, answered FAILED. *)
Lemma handler_failure_boundary_witness :
  exists s' body,
    handler (fake_env ∅ None) (demo_event "Frobnicate" "demo" None None) (start fake0)
      = (s', Ok body) /\
    rb_Status body = "FAILED" /\
    rb_Reason body = "Unknown request type: Frobnicate".
Proof.
  destruct (handler_failure_boundary (fake_env ∅ None)
              (demo_event "Frobnicate" "demo" None None) "Frobnicate"
              (demo_props "demo") "stack" "req" "Gateway" "https://cfn/callback"
              (start fake0) eq_refl eq_refl eq_refl eq_refl eq_refl eq_refl
              (fun body w _ =>
                 fake_http_never_fails ∅ None (lookup_empty _)
                   "https://cfn/callback" body w))
    as (s' & body & Hrun & _ & _ & Hunknown).
  exists s', body. split; [exact Hrun |].
  apply Hunknown; discriminate.
Defined.

(** ** One callback per invocation *)

(** C3 at the failing input.  An UPDATE that renames the gateway, on a
    control plane where every call succeeds, sends two callbacks and not
    one: the SUCCESS of the inner delete, for the old physical id, and then
    the outcome of the create. *)
Theorem rename_update_sends_two_callbacks :
  let run := handler (fake_env ∅ None) rename_event (start fake1) in
  statuses_and_ids (trace run.1) = [("SUCCESS", "gw-1"); ("SUCCESS", "gw-2")] /\
  count is_http_put (trace run.1) = 2%nat.
Proof. vm_compute. auto. Qed.

(** Create, delete and an update that keeps the name send one callback. *)
Example other_events_send_one_callback :
  count is_http_put
    (trace (handler (fake_env ∅ None) (demo_event "Create" "demo" None None)
              (start fake0)).1) = 1%nat /\
  count is_http_put
    (trace (handler (fake_env ∅ None) (demo_event "Delete" "demo" None (Some "gw-1"))
              (start fake1)).1) = 1%nat /\
  count is_http_put
    (trace (handler (fake_env ∅ None) same_name_event (start fake1)).1) = 1%nat /\
  count is_http_put
    (trace (handler (fake_env {[ "get_gateway" := "ThrottlingException" ]} None)
              same_name_event (start fake1)).1) = 1%nat.
Proof. vm_compute. auto. Qed.

(** ** Update *)

(** C4 as stated fails on the rollback of a rename whose delete was
    throttled: the gateway [demo] is still listed as [gw-1], create
    reconciliation reuses it, and the resulting physical id is the original
    one. *)
Lemma rename_update_keeps_physical_id :
  let env := fake_env {[ "delete_gateway" := "ThrottlingException" ]} None in
  let run := update_gateway env rollback_event (demo_props "demo") (start fake1) in
  default ∅ (OldResourceProperties rollback_event) !! "GatewayName"
    <> demo_props "demo" !! "GatewayName" /\
  PhysicalResourceId rollback_event = Some "gw-1" /\
  exists body,
    run.2 = Ok body /\ rb_Status body = "SUCCESS" /\
    rb_PhysicalResourceId body = "gw-1".
Proof.
  split; [intros H; vm_compute in H; discriminate |].
  split; [reflexivity |].
  eexists. split; [vm_compute; reflexivity |]. split; reflexivity.
Qed.

Lemma update_gateway_spec_witness :
  (exists body,
     (update_gateway (fake_env ∅ None) same_name_event (demo_props "demo")
        (start fake1)).2 = Ok body /\
     rb_Status body = "SUCCESS" /\ rb_PhysicalResourceId body = "gw-1") /\
  (exists body new_id,
     (update_gateway (fake_env ∅ None) rename_event (demo_props "new")
        (start fake1)).2 = Ok body /\
     rb_Status body = "SUCCESS" /\
     rb_Data body !! "GatewayId" = Some new_id).
Proof.
  split.
  - eexists. split; [vm_compute; reflexivity |].
    eapply (update_gateway_spec (fake_env ∅ None) same_name_event (demo_props "demo")
              "gw-1" "arn:aws:lambda:fn" "[]" "[]" (start fake1));
      try reflexivity.
    apply surjective_pairing.
  - pose proof (update_gateway_spec (fake_env ∅ None) rename_event (demo_props "new")
                  "gw-1" "arn:aws:lambda:fn" "[]" "[]" (start fake1) _ _
                  eq_refl eq_refl eq_refl eq_refl (surjective_pairing _)) as [H _].
    assert (Hne : default ∅ (OldResourceProperties rename_event) !! "GatewayName"
                  <> demo_props "new" !! "GatewayName")
      by (intros Heq; vm_compute in Heq; discriminate).
    destruct (H Hne) as (_ & _ & Hok).
    eexists. 
    destruct (Hok _ ltac:(vm_compute; reflexivity)) as (Hst & new_id & _ & Hid & _).
    exists new_id. split; [vm_compute; reflexivity |]. split; [exact Hst | exact Hid].
Defined.

(** ** Idempotent create *)

(** C7 at the failing inputs.  The gateway [demo] is listed as [gw-1] with
    one target, and a CREATE for [demo] arrives.  When the store refuses
    the parameters, the error is swallowed as if the lookup had failed: a
    gateway-create call is issued, a second gateway [demo] exists
    afterwards, and the handler reports FAILED.  When the update of the
    existing target fails, a second target is created on the same
    gateway. *)
Theorem create_listed_gateway_not_idempotent :
  let event := demo_event "Create" "demo" None None in
  let denied := handler (fake_env {[ "put_parameter" := "AccessDeniedException" ]} None)
                  event (start fake1) in
  let throttled := handler (fake_env {[ "update_gateway_target" := "ThrottlingException" ]}
                              None) event (start fake1) in
  fk_gateways fake1 = [{| gs_name := "demo"; gs_gatewayId := "gw-1" |}] /\
  fk_targets fake1 = [("gw-1", "tgt-1")] /\
  count is_create_gateway (trace denied.1) = 1%nat /\
  fk_gateways (world denied.1)
    = [{| gs_name := "demo"; gs_gatewayId := "gw-1" |};
       {| gs_name := "demo"; gs_gatewayId := "gw-2" |}] /\
  statuses_and_ids (trace denied.1) = [("FAILED", "NONE")] /\
  statuses_and_ids (trace throttled.1) = [("SUCCESS", "gw-1")] /\
  fk_targets (world throttled.1) = [("gw-1", "tgt-1"); ("gw-1", "tgt-2")].
Proof. vm_compute. repeat split. Qed.

(** When nothing fails, creating twice reuses the gateway and its target. *)
Example create_twice_same_gateway :
  let event := demo_event "Create" "demo" None None in
  let first := handler (fake_env ∅ None) event (start fake0) in
  let second := handler (fake_env ∅ None) event first.1 in
  statuses_and_ids (trace second.1) = [("SUCCESS", "gw-1"); ("SUCCESS", "gw-1")] /\
  count is_create_gateway (trace second.1) = 1%nat /\
  fk_gateways (world second.1) = [{| gs_name := "demo"; gs_gatewayId := "gw-1" |}] /\
  fk_targets (world second.1) = [("gw-1", "tgt-2")].
Proof. vm_compute. repeat split. Qed.

(** ** URL resolution and stored parameters *)

Lemma gateway_url_resolution_witness :
  exists body,
    (create_gateway (fake_env ∅ None) (demo_event "Create" "demo" None None)
       (demo_props "demo") (start fake0)).2 = Ok body /\
    exists gateway_id d url,
      (exists w w', env_get_gateway (fake_env ∅ None) gateway_id w = (w', Ok d)) /\
      rb_Data body !! "GatewayId" = Some gateway_id /\
      rb_Data body !! "GatewayUrl" = Some url /\
      (forall u, gatewayUrl d = Some u -> u <> "" -> url = u) /\
      (gatewayUrl d = None \/ gatewayUrl d = Some "" ->
       exists region,
         demo_props "demo" !! "Region" = Some region /\
         url = "https://" +:+ gateway_id +:+ ".gateway.bedrock-agentcore."
               +:+ region +:+ ".amazonaws.com/mcp").
Proof.
  eexists. split; [vm_compute; reflexivity |].
  eapply (gateway_url_resolution (fake_env ∅ None)
            (demo_event "Create" "demo" None None) (demo_props "demo") (start fake0)).
  left. vm_compute. reflexivity.
Defined.

(** The reported URL is used when there is one, the template otherwise. *)
Example gateway_url_reported_or_template :
  let event := demo_event "Create" "demo" None None in
  (exists body,
     (handler (fake_env ∅ (Some "https://gw.example/mcp")) event (start fake0)).2
       = Ok body /\
     rb_Data body !! "GatewayUrl" = Some "https://gw.example/mcp") /\
  (exists body,
     (handler (fake_env ∅ None) event (start fake0)).2 = Ok body /\
     rb_Data body !! "GatewayUrl"
       = Some "https://gw-1.gateway.bedrock-agentcore.us-east-1.amazonaws.com/mcp").
Proof.
  split; eexists; (split; [vm_compute; reflexivity | vm_compute; reflexivity]).
Qed.

Lemma handler_without_urls_keeps_parameter_run :
  let run := handler (fake_env ∅ None) (demo_event "Create" "demo" None None)
               (start fake0) in
  ssm run.1 !! "/gasp/gateway_url" = None /\
  ssm run.1 !! "/gasp/target_id" = Some "tgt-2" /\
  ssm run.1 !! "/gasp/gateway_id" = Some "gw-1" /\
  exists body,
    run.2 = Ok body /\
    rb_Data body !! "GatewayUrl"
      = Some "https://gw-1.gateway.bedrock-agentcore.us-east-1.amazonaws.com/mcp".
Proof.
  intros run.
  destruct (handler_without_urls_keeps_parameter (fake_env ∅ None)
              (demo_event "Create" "demo" None None) (demo_props "demo") "/gasp"
              (start fake0) run.1 run.2 (fake_reports_no_url ∅) eq_refl eq_refl
              (surjective_pairing _)) as (Hurl & _ & _).
  split; [exact Hurl |].
  split; [vm_compute; reflexivity |]. split; [vm_compute; reflexivity |].
  eexists. split; vm_compute; reflexivity.
Defined.



(** ** Callbacks and reuse on the simulated control plane *)

Lemma callbacks_per_invocation_witness :
  exists s' body,
    handler (fake_env ∅ None) rename_event (start fake1) = (s', Ok body) /\
    callbacks s' = 2%nat.
Proof.
  destruct (callbacks_per_invocation (fake_env ∅ None) rename_event
              "stack" "req" "Gateway" "https://cfn/callback"
              eq_refl eq_refl eq_refl eq_refl
              (fake_http_never_fails ∅ None (lookup_empty _) "https://cfn/callback")
              "Update" (demo_props "new") (start fake1) eq_refl eq_refl)
    as (s' & body & Hrun & Hcount).
  exists s', body. split; [exact Hrun |].
  rewrite Hcount. vm_compute. reflexivity.
Defined.

Lemma create_gateway_reuses_listed_witness :
  exists s' body,
    create_gateway (fake_env ∅ None) (demo_event "Create" "demo" None None)
      (demo_props "demo") (start fake1) = (s', Ok body) /\
    rb_Status body = "SUCCESS" /\
    rb_Data body !! "GatewayId" = Some "gw-1".
Proof.
  assert (Hreuse : exists s' body,
            reuse_gateway (fake_env ∅ None) (demo_event "Create" "demo" None None)
              (demo_props "demo") "arn:aws:lambda:fn" "[]" "gw-1"
              (after_call (fake_env ∅ None) CListGateways fake1 (start fake1))
            = (s', Ok body))
    by (eexists _, _; vm_compute; reflexivity).
  destruct Hreuse as (s' & body & Hreuse).
  assert (Hlist : env_list_gateways (fake_env ∅ None) (world (start fake1))
                  = (fake1, Ok [{| gs_name := "demo"; gs_gatewayId := "gw-1" |}]))
    by (vm_compute; reflexivity).
  destruct (create_gateway_reuses_listed (fake_env ∅ None)
              (demo_event "Create" "demo" None None) (demo_props "demo")
              "demo" "arn:aws:lambda:fn" "[]" "[]" "arn:aws:iam:role"
              [{| gs_name := "demo"; gs_gatewayId := "gw-1" |}]
              {| gs_name := "demo"; gs_gatewayId := "gw-1" |}
              fake1 (start fake1) s' body
              eq_refl eq_refl eq_refl eq_refl eq_refl Hlist eq_refl Hreuse)
    as (Hrun & Hstatus & Hid & _).
  exists s', body. auto.
Defined.

(** * Events without a callback destination *)

Section NoCallback.

Context {W Doc : Type} (env : Env W Doc).
Variable event : Event.
Hypothesis Hmissing :
  StackId event = None \/ RequestId event = None \/
  LogicalResourceId event = None \/ ResponseURL event = None.

Lemma wp_send_missing status reason data physical (Q : ResponseBody -> State W Doc -> Prop)
    E (s : State W Doc) :
  (forall k, In k callback_keys -> E (KeyError k) s) ->
  wp (send_response env event status reason data physical) Q E s.
Proof.
  intros HE. unfold wp, send_response, bind, event_item, callback_keys in *.
  destruct (StackId event); simpl; [| apply HE; simpl; auto].
  destruct (RequestId event); simpl; [| apply HE; simpl; auto].
  destruct (LogicalResourceId event); simpl; [| apply HE; simpl; auto].
  destruct (ResponseURL event); simpl; [| apply HE; simpl; auto].
  destruct Hmissing as [H | [H | [H | H]]]; discriminate.
Qed.

Lemma unanswered_finish props d target_id gateway_id :
  unanswered
    (update_ssm_parameters env d target_id props;;;
     gateway_url <- resolve_gateway_url d gateway_id props;;
     send_response env event "SUCCESS" None
       (Some (success_data gateway_id gateway_url target_id)) (Some gateway_id)).
Proof.
  intros n s Hn. apply wp_bind.
  apply wp_update_ssm_parameters with (phi := quiet) (s0 := s);
    [apply grows_refl | | |].
  - intros prefix c _. apply quiet_ssm.
  - intros prefix s1 _ Hg _. apply grows_quiet in Hg.
    apply wp_bind, wp_resolve_gateway_url; [| lia].
    intros gateway_url _. apply wp_send_missing. intros k _. lia.
  - intros e s1 Hg. apply grows_quiet in Hg. lia.
Qed.

Lemma unanswered_reuse props lambda_arn api_spec gateway_id :
  unanswered (reuse_gateway env event props lambda_arn api_spec gateway_id).
Proof.
  intros n s Hn. unfold reuse_gateway.
  apply wp_bind. unfold get_gateway. apply wp_api. intros w [d|e] _.
  2:{ rewrite callbacks_after_call. simpl. lia. }
  apply wp_bind. apply wp_create_or_update_target with (phi := quiet).
  { intros c. apply quiet_target. }
  intros w' s1 Hg. apply grows_quiet in Hg.
  rewrite !callbacks_after_call in Hg. simpl in Hg.
  split; [| intros _; lia].
  intros target_id. apply unanswered_finish. lia.
Qed.

Lemma unanswered_in_place props gateway_id lambda_arn api_spec :
  unanswered (update_in_place env event props gateway_id lambda_arn api_spec).
Proof.
  intros n s Hn. unfold update_in_place.
  apply wp_bind. apply wp_create_or_update_target with (phi := quiet).
  { intros c. apply quiet_target. }
  intros w s1 Hg. apply grows_quiet in Hg.
  rewrite callbacks_after_call in Hg. simpl in Hg.
  split; [| intros _; lia].
  intros target_id. apply wp_bind. unfold get_gateway. apply wp_api.
  intros w' [d|e] _.
  - apply unanswered_finish. rewrite callbacks_after_call. simpl. lia.
  - rewrite callbacks_after_call. simpl. lia.
Qed.

Lemma unanswered_new props gateway_name lambda_arn api_spec role_arn :
  unanswered (create_new_gateway env event props gateway_name lambda_arn api_spec
                role_arn).
Proof.
  intros n s Hn. unfold create_new_gateway.
  apply wp_bind, wp_getitem; [| intros _; exact Hn]. intros client_id _.
  apply wp_bind, wp_getitem; [| intros _; exact Hn]. intros discovery_url _.
  apply wp_bind. unfold create_gateway_call. apply wp_api.
  intros w [gateway_id|e] _.
  2:{ rewrite callbacks_after_call. simpl. lia. }
  set (s1 := after_call env _ w s).
  assert (Hn1 : callbacks s1 = n)
    by (unfold s1; rewrite callbacks_after_call; simpl; lia).
  apply wp_bind.
  apply wp_wait_for_gateway_ready with (phi := quiet) (s0 := s1);
    [intros c; apply quiet_wait | apply grows_refl | |].
  2:{ intros e s2 Hg. apply grows_quiet in Hg. lia. }
  intros s2 Hg. apply grows_quiet in Hg.
  apply wp_bind. unfold get_gateway. apply wp_api. intros w' [d|e] _.
  2:{ rewrite callbacks_after_call. simpl. lia. }
  set (s3 := after_call env _ w' s2).
  assert (Hn3 : callbacks s3 = n)
    by (unfold s3; rewrite callbacks_after_call; simpl; lia).
  apply wp_bind. unfold create_target_with_retry.
  apply wp_retry_loop with (phi := quiet) (s0 := s3);
    [intros c; apply quiet_retry | apply grows_refl | |].
  - intros target_id s4 Hg4. apply grows_quiet in Hg4.
    apply unanswered_finish. lia.
  - intros e s4 Hg4. apply grows_quiet in Hg4. lia.
Qed.

Lemma unanswered_scan props gateway_name lambda_arn api_spec items :
  forall n (s : State W Doc), callbacks s = n ->
    wp (scan_gateways env event props gateway_name lambda_arn api_spec items)
       (fun found s' => found = None /\ callbacks s' = n)
       (fun _ s' => callbacks s' = n) s.
Proof.
  induction items as [|gw rest IH]; intros n s Hn; simpl.
  - apply wp_ret. auto.
  - destruct (String.eqb (gs_name gw) gateway_name); [| apply IH, Hn].
    apply wp_bind.
    eapply wp_mono; [apply unanswered_reuse, Hn | | auto].
    intros body s' [].
Qed.

Lemma unanswered_create props : unanswered (create_gateway env event props).
Proof.
  intros n s Hn. unfold create_gateway.
  apply wp_bind, wp_getitem; [| intros _; exact Hn]. intros gateway_name _.
  apply wp_bind, wp_getitem; [| intros _; exact Hn]. intros lambda_arn _.
  apply wp_bind, wp_getitem; [| intros _; exact Hn]. intros text _.
  apply wp_bind, wp_parse; [| intros e _; exact Hn]. intros api_spec _.
  apply wp_bind, wp_getitem; [| intros _; exact Hn]. intros role_arn _.
  apply wp_bind, wp_try.
  apply wp_mono
    with (Q := fun (found : option ResponseBody) s' => found = None /\ callbacks s' = n)
         (E := fun _ s' => callbacks s' = n).
  - apply wp_bind. unfold list_gateways. apply wp_api. intros w [items|e] _.
    + apply unanswered_scan. rewrite callbacks_after_call. simpl. lia.
    + rewrite callbacks_after_call. simpl. lia.
  - intros found s' [-> Hs']. apply unanswered_new, Hs'.
  - intros e s' Hs'. apply wp_ret. apply unanswered_new, Hs'.
Qed.

Lemma unanswered_delete : unanswered (delete_gateway env event).
Proof.
  intros n s Hn. unfold delete_gateway.
  apply wp_bind, wp_event_item; [| intros _; exact Hn].
  intros gateway_id _. apply wp_bind.
  apply wp_teardown with (phi := quiet) (s0 := s);
    [intros c; apply quiet_teardown | apply grows_refl |].
  intros s1 Hg. apply grows_quiet in Hg.
  apply wp_send_missing. intros k _. lia.
Qed.

Lemma unanswered_update props : unanswered (update_gateway env event props).
Proof.
  intros n s Hn. unfold update_gateway.
  apply wp_bind, wp_event_item; [| intros _; exact Hn]. intros gateway_id _.
  apply wp_bind, wp_getitem; [| intros _; exact Hn]. intros lambda_arn _.
  apply wp_bind, wp_getitem; [| intros _; exact Hn]. intros text _.
  apply wp_bind, wp_parse; [| intros e _; exact Hn]. intros api_spec _.
  destruct (names_differ event props).
  - apply wp_bind.
    eapply wp_mono; [apply unanswered_delete, Hn | | auto].
    intros b s1 [].
  - apply unanswered_in_place, Hn.
Qed.

(** X3: an event without a callback destination is never answered.  When
    the event lacks one of [StackId], [RequestId], [LogicalResourceId] and
    [ResponseURL], then whatever the request and whatever the remote does,
    the handler sends no callback and ends with the [KeyError] of a missing
    event field. *)
Theorem handler_without_callback_field (s s' : State W Doc) r :
  handler env event s = (s', r) ->
  callbacks s' = callbacks s /\
  exists k, r = Raise (KeyError k) /\
    In k ("RequestType" :: "ResourceProperties" :: callback_keys).
Proof.
  intros Hrun.
  assert (Hwp : wp (handler env event) (fun _ _ => False)
                  (fun e s' => callbacks s' = callbacks s /\
                     exists k, e = KeyError k /\
                       In k ("RequestType" :: "ResourceProperties" :: callback_keys)) s).
  { unfold handler.
    apply wp_bind, wp_event_item.
    2:{ intros _. split; [reflexivity |]. eexists. split; [reflexivity |]. simpl. auto. }
    intros request_type _.
    apply wp_bind, wp_event_item.
    2:{ intros _. split; [reflexivity |]. eexists. split; [reflexivity |]. simpl. auto. }
    intros props _.
    apply wp_try.
    apply wp_mono with (Q := fun _ _ => False)
                       (E := fun _ s' => callbacks s' = callbacks s).
    - unfold dispatch.
      destruct (String.eqb request_type "Create");
        [apply unanswered_create; reflexivity |].
      destruct (String.eqb request_type "Update");
        [apply unanswered_update; reflexivity |].
      destruct (String.eqb request_type "Delete");
        [apply unanswered_delete; reflexivity |].
      apply wp_raise. reflexivity.
    - intros a s1 [].
    - intros e s1 Hs1. apply wp_send_missing. intros k Hk.
      split; [exact Hs1 |]. exists k. split; [reflexivity |]. simpl. auto. }
  pose proof (wp_run _ _ _ _ _ _ Hwp Hrun) as H.
  destruct r as [body|e]; [destruct H |].
  destruct H as (Hc & k & -> & Hk). split; [exact Hc |]. exists k. auto.
Qed.

End NoCallback.

Lemma handler_without_callback_field_witness :
  let event :=
    {| RequestType := Some "Create"; ResourceProperties := Some (demo_props "demo");
       OldResourceProperties := None; PhysicalResourceId := None;
       StackId := Some "stack"; RequestId := Some "req";
       LogicalResourceId := Some "Gateway"; ResponseURL := None |} in
  let run := handler (fake_env ∅ None) event (start fake0) in
  callbacks run.1 = 0%nat /\
  run.2 = Raise (KeyError "ResponseURL") /\
  fk_gateways (world run.1) = [{| gs_name := "demo"; gs_gatewayId := "gw-1" |}].
Proof.
  intros event run.
  destruct (handler_without_callback_field (fake_env ∅ None) event
              (or_intror (or_intror (or_intror eq_refl)))
              (start fake0) run.1 run.2 (surjective_pairing _)) as [Hc _].
  split; [exact Hc |]. split; vm_compute; reflexivity.
Defined.

(** * Validation of the event and its properties *)

Section Validation.

Context {W Doc : Type} (env : Env W Doc).

(** X4: the properties are read before anything is done.  A create whose
    properties lack [GatewayName], [LambdaArn], [ApiSpec] or
    [GatewayRoleArn], or whose [ApiSpec] does not parse, raises in the state
    it started in: no call has been issued.  The same holds for an update
    whose event lacks its physical id or whose properties lack [LambdaArn]
    or a parsable [ApiSpec]. *)
Theorem properties_checked_before_any_call event props (s : State W Doc) :
  (props !! "GatewayName" = None \/ props !! "LambdaArn" = None \/
   props !! "ApiSpec" = None \/
   (exists text e, props !! "ApiSpec" = Some text /\ json_loads env text = Raise e) \/
   props !! "GatewayRoleArn" = None ->
   exists e, create_gateway env event props s = (s, Raise e)) /\
  (PhysicalResourceId event = None \/ props !! "LambdaArn" = None \/
   props !! "ApiSpec" = None \/
   (exists text e, props !! "ApiSpec" = Some text /\ json_loads env text = Raise e) ->
   exists e, update_gateway env event props s = (s, Raise e)).
Proof.
  split.
  - intros H. unfold create_gateway, bind, getitem, parse_api_spec, raise, ret.
    destruct (props !! "GatewayName") as [name|]; [| eauto].
    destruct (props !! "LambdaArn") as [arn|]; [| eauto].
    destruct (props !! "ApiSpec") as [text|]; [| eauto].
    destruct (json_loads env text) as [d|e] eqn:Hparse; [| eauto].
    destruct (props !! "GatewayRoleArn") as [role|]; [| eauto].
    destruct H as [H | [H | [H | [(t & e & Ht & He) | H]]]]; try discriminate.
    congruence.
  - intros H. unfold update_gateway, bind, event_item, getitem, parse_api_spec, raise, ret.
    destruct (PhysicalResourceId event) as [gid|]; [| eauto].
    destruct (props !! "LambdaArn") as [arn|]; [| eauto].
    destruct (props !! "ApiSpec") as [text|]; [| eauto].
    destruct (json_loads env text) as [d|e] eqn:Hparse; [| eauto].
    destruct H as [H | [H | [H | (t & e & Ht & He)]]]; try discriminate.
    congruence.
Qed.

(** X5: an UPDATE or DELETE event without a physical id is answered FAILED
    with the reason ['PhysicalResourceId'] (the text of the [KeyError]) and
    the physical id ["NONE"]; the callback is the only call of the
    invocation and the store is left as it was. *)
Theorem handler_without_physical_id event request_type props stack_id request_id
    logical_id url (s : State W Doc) :
  RequestType event = Some request_type ->
  request_type = "Update" \/ request_type = "Delete" ->
  ResourceProperties event = Some props ->
  PhysicalResourceId event = None ->
  StackId event = Some stack_id ->
  RequestId event = Some request_id ->
  LogicalResourceId event = Some logical_id ->
  ResponseURL event = Some url ->
  (forall body w, (env_http_put env url body w).2 = Ok tt) ->
  let body :=
    {| rb_Status := "FAILED"; rb_Reason := "'PhysicalResourceId'";
       rb_PhysicalResourceId := "NONE"; rb_StackId := stack_id;
       rb_RequestId := request_id; rb_LogicalResourceId := logical_id;
       rb_Data := ∅ |} in
  exists s',
    handler env event s = (s', Ok body) /\
    trace s' = trace s ++ [CHttpPut url body] /\
    ssm s' = ssm s.
Proof.
  intros Hrt Hkind Hprops Hphys Hst Hrq Hlg Hurl Hdeliver body.
  rewrite (handler_run env event request_type props s Hrt Hprops).
  assert (Hd : dispatch env request_type event props s
               = (s, Raise (KeyError "PhysicalResourceId"))).
  { unfold dispatch, update_gateway, delete_gateway, bind, event_item.
    destruct Hkind as [-> | ->]; simpl; rewrite Hphys; reflexivity. }
  unfold try_catch. rewrite Hd.
  destruct (send_response_delivered env event "FAILED"
              (Some (str (KeyError "PhysicalResourceId"))) None None
              stack_id request_id logical_id url s Hst Hrq Hlg Hurl Hdeliver)
    as [w Hrun].
  cbv zeta in Hrun. rewrite Hrun.
  unfold callback_body. rewrite Hphys. simpl.
  eexists. split; [reflexivity |]. split; reflexivity.
Qed.

End Validation.

Lemma properties_checked_before_any_call_witness :
  exists e,
    create_gateway (fake_env ∅ None) (demo_event "Create" "demo" None None)
      (delete "LambdaArn" (demo_props "demo")) (start fake0)
    = (start fake0, Raise e).
Proof.
  apply (proj1 (properties_checked_before_any_call (fake_env ∅ None)
                  (demo_event "Create" "demo" None None)
                  (delete "LambdaArn" (demo_props "demo")) (start fake0))).
  right. left. vm_compute. reflexivity.
Defined.

Lemma handler_without_physical_id_witness :
  exists s' body,
    handler (fake_env ∅ None) (demo_event "Delete" "demo" None None) (start fake1)
      = (s', Ok body) /\
    rb_Status body = "FAILED" /\
    rb_Reason body = "'PhysicalResourceId'" /\
    rb_PhysicalResourceId body = "NONE" /\
    trace s' = [CHttpPut "https://cfn/callback" body].
Proof.
  destruct (handler_without_physical_id (fake_env ∅ None)
              (demo_event "Delete" "demo" None None) "Delete" (demo_props "demo")
              "stack" "req" "Gateway" "https://cfn/callback" (start fake1)
              eq_refl (or_intror eq_refl) eq_refl eq_refl eq_refl eq_refl eq_refl
              eq_refl
              (fake_http_never_fails ∅ None (lookup_empty _) "https://cfn/callback"))
    as (s' & Hrun & Htrace & _).
  eexists s', _. split; [exact Hrun |]. repeat split. exact Htrace.
Defined.

(** * The stored parameters and the calls of an invocation *)

Section Store.

Context {W Doc : Type} (env : Env W Doc).

(** X6: a SUCCESS outcome and the store agree.  When create or update
    returns an outcome, the properties carry an [SsmPrefix], the store
    holds under [{prefix}/target_id] the [TargetId] of the outcome and under
    [{prefix}/gateway_id] the id of a record the remote reported for the
    outcome's [GatewayId]; and when that record carries a non-empty URL, it
    is both stored under [{prefix}/gateway_url] and reported as
    [GatewayUrl]. *)
Theorem success_outcome_matches_store event props (s s' : State W Doc) body :
  create_gateway env event props s = (s', Ok body) \/
  update_gateway env event props s = (s', Ok body) ->
  exists prefix gateway_id target_id d,
    props !! "SsmPrefix" = Some prefix /\
    rb_Status body = "SUCCESS" /\
    rb_Data body !! "GatewayId" = Some gateway_id /\
    rb_Data body !! "TargetId" = Some target_id /\
    (exists w w', env_get_gateway env gateway_id w = (w', Ok d)) /\
    ssm s' !! (prefix +:+ "/target_id") = Some target_id /\
    ssm s' !! (prefix +:+ "/gateway_id") = Some (gatewayId d) /\
    (forall u, gatewayUrl d = Some u -> u <> "" ->
       ssm s' !! (prefix +:+ "/gateway_url") = Some u /\
       rb_Data body !! "GatewayUrl" = Some u).
Proof.
  intros Hrun.
  assert (Hrec : exists gateway_id, reconciled env event props gateway_id body s').
  { destruct Hrun as [Hrun | Hrun].
    - destruct (create_gateway_reconciled env _ _ _ _ _ Hrun) as (g & _ & Hg). eauto.
    - exact (update_gateway_reconciled env _ _ _ _ _ Hrun). }
  destruct Hrec as (gid & d & tid & url & prefix & Hrep & Hres & Hpre & Hst & Hstatus
                    & Hdata & _).
  destruct (success_data_lookup gid url tid) as (Hg & Hu & Ht).
  destruct Hst as (Htid & Hgid & Hurl).
  exists prefix, gid, tid, d. rewrite Hdata.
  repeat (split; [assumption |]).
  intros u Hsome Hne.
  assert (Htruthy : truthy (gatewayUrl d) = true).
  { rewrite Hsome. simpl. destruct (String.eqb_spec u ""); [contradiction | reflexivity]. }
  split.
  - rewrite (Hurl Htruthy). exact Hsome.
  - destruct Hres as [[_ Hr] | [Hf _]]; [| congruence].
    rewrite Hu. congruence.
Qed.

Lemma fp_handler_put_names event (c : call Doc) name value :
  fp_handler env event c -> c = CPutParameter name value ->
  exists props prefix,
    ResourceProperties event = Some props /\ props !! "SsmPrefix" = Some prefix /\
    In name (parameter_names prefix).
Proof.
  intros Hc ->. unfold parameter_names.
  invert Hc.
  - match goal with H : fp_create _ _ _ |- _ => invert H end.
    + match goal with H : fp_wait _ _ |- _ => invert H end.
    + match goal with H : fp_reuse _ _ _ _ |- _ => invert H end.
      * match goal with H : fp_target _ _ _ _ |- _ => invert H end.
        match goal with H : fp_retry _ _ _ _ |- _ => invert H end.
      * match goal with H : fp_finish _ _ _ _ |- _ => invert H end.
        match goal with H : fp_ssm _ _ _ _ |- _ => invert H end;
          eexists _, _; (split; [eassumption |]); (split; [eassumption |]);
          simpl; auto.
  - match goal with H : fp_teardown _ _ |- _ => invert H end.
  - match goal with H : fp_send _ |- _ => invert H end.
Qed.

(** X7: the handler writes no parameter but its own three.  Whatever the
    request and the remote, every parameter written in an invocation is
    [{prefix}/gateway_url], [{prefix}/target_id] or [{prefix}/gateway_id] for
    the [SsmPrefix] of the event's properties, and every other key of the
    store keeps its value. *)
Theorem handler_writes_only_its_parameters event (s s' : State W Doc) r :
  handler env event s = (s', r) ->
  (forall k,
     (forall props prefix, ResourceProperties event = Some props ->
        props !! "SsmPrefix" = Some prefix -> ~ In k (parameter_names prefix)) ->
     ssm s' !! k = ssm s !! k) /\
  exists l, trace s' = trace s ++ l /\
    forall name value, In (CPutParameter name value) l ->
      exists props prefix,
        ResourceProperties event = Some props /\ props !! "SsmPrefix" = Some prefix /\
        In name (parameter_names prefix).
Proof.
  intros Hrun.
  set (phi := fun c : call Doc => forall name value, c = CPutParameter name value ->
                exists props prefix,
                  ResourceProperties event = Some props /\
                  props !! "SsmPrefix" = Some prefix /\
                  In name (parameter_names prefix)).
  assert (Hwp : wp (handler env event) (fun _ s1 => grows phi s s1)
                  (fun _ s1 => grows phi s s1) s).
  { apply wp_handler with (phi := phi) (s0 := s); auto using grows_refl.
    intros c Hc name value. apply fp_handler_put_names. exact Hc. }
  pose proof (wp_run _ _ _ _ _ _ Hwp Hrun) as Hpost.
  assert (Hg : grows phi s s') by (destruct r; exact Hpost).
  destruct Hg as (l & Htrace & Hl & Hframe).
  split.
  - intros k Hk. apply Hframe. intros v Hphi.
    destruct (Hphi _ _ eq_refl) as (props & prefix & Hp & Hpre & Hin).
    exact (Hk props prefix Hp Hpre Hin).
  - exists l. split; [exact Htrace |]. intros name value Hin.
    exact (proj1 (List.Forall_forall _ _) Hl _ Hin name value eq_refl).
Qed.

(** X8: a delete leaves the stored parameters behind.  [delete_gateway]
    issues no [put_parameter] call and the store is the same after it as
    before, so the parameters written when the gateway was created stay in
    the store. *)
Theorem delete_gateway_keeps_parameters event (s s' : State W Doc) r :
  delete_gateway env event s = (s', r) ->
  ssm s' = ssm s /\
  exists l, trace s' = trace s ++ l /\ Forall (fun c => is_put_parameter c = false) l.
Proof.
  intros Hrun.
  set (phi := fun c : call Doc => is_put_parameter c = false).
  assert (Hwp : wp (delete_gateway env event) (fun _ s1 => grows phi s s1)
                  (fun _ s1 => grows phi s s1) s).
  { apply wp_delete_gateway with (phi := phi) (s0 := s); auto using grows_refl.
    - intros g c _ Hc. invert Hc; reflexivity.
    - intros c Hc. invert Hc; reflexivity. }
  pose proof (wp_run _ _ _ _ _ _ Hwp Hrun) as Hpost.
  assert (Hg : grows phi s s') by (destruct r; exact Hpost).
  split.
  - apply (grows_ssm phi); [| exact Hg]. intros k v. unfold phi. simpl. discriminate.
  - destruct Hg as (l & Ht & Hl & _). eauto.
Qed.

(** X9: only the event's own physical resource is ever deleted.  Every
    delete call of an invocation (of a gateway or of a target) is addressed
    to the gateway named by the event's [PhysicalResourceId]. *)
Theorem handler_deletes_only_physical_resource event (s s' : State W Doc) r :
  handler env event s = (s', r) ->
  exists l, trace s' = trace s ++ l /\
    forall c, In c l -> is_delete c = true ->
      exists gateway_id,
        PhysicalResourceId event = Some gateway_id /\
        addressed c = Some gateway_id.
Proof.
  intros Hrun.
  set (phi := fun c : call Doc => is_delete c = true ->
                exists gateway_id,
                  PhysicalResourceId event = Some gateway_id /\
                  addressed c = Some gateway_id).
  assert (Hfp : forall c, fp_handler env event c -> phi c).
  { intros c Hc Hdel. invert Hc.
    - match goal with H : fp_create _ _ _ |- _ => invert H end; try discriminate.
      + match goal with H : fp_wait _ _ |- _ => invert H end; discriminate.
      + match goal with H : fp_reuse _ _ _ _ |- _ => invert H end; try discriminate.
        * match goal with H : fp_target _ _ _ _ |- _ => invert H end; try discriminate.
          match goal with H : fp_retry _ _ _ _ |- _ => invert H end; discriminate.
        * match goal with H : fp_finish _ _ _ _ |- _ => invert H end; try discriminate.
          match goal with H : fp_ssm _ _ _ _ |- _ => invert H end; discriminate.
    - match goal with H : fp_teardown _ _ |- _ => invert H end;
        try discriminate; eauto.
    - match goal with H : fp_send _ |- _ => invert H end. discriminate. }
  assert (Hwp : wp (handler env event) (fun _ s1 => grows phi s s1)
                  (fun _ s1 => grows phi s s1) s).
  { apply wp_handler with (phi := phi) (s0 := s); auto using grows_refl. }
  pose proof (wp_run _ _ _ _ _ _ Hwp Hrun) as Hpost.
  assert (Hg : grows phi s s') by (destruct r; exact Hpost).
  destruct Hg as (l & Htrace & Hl & _).
  exists l. split; [exact Htrace |]. intros c Hin.
  exact (proj1 (List.Forall_forall _ _) Hl _ Hin).
Qed.

(** X10: a create deletes nothing.  Whatever the remote answers,
    [create_gateway] issues no delete call, neither of a gateway nor of a
    target. *)
Theorem create_gateway_never_deletes event props (s s' : State W Doc) r :
  create_gateway env event props s = (s', r) ->
  exists l, trace s' = trace s ++ l /\ Forall (fun c => is_delete c = false) l.
Proof.
  intros Hrun.
  set (phi := fun c : call Doc => is_delete c = false).
  assert (Hfp : forall c, fp_create env props c -> phi c).
  { intros c Hc. invert Hc; try reflexivity.
    - match goal with H : fp_wait _ _ |- _ => invert H end; reflexivity.
    - match goal with H : fp_reuse _ _ _ _ |- _ => invert H end; try reflexivity.
      + match goal with H : fp_target _ _ _ _ |- _ => invert H end; try reflexivity.
        match goal with H : fp_retry _ _ _ _ |- _ => invert H end; reflexivity.
      + match goal with H : fp_finish _ _ _ _ |- _ => invert H end; try reflexivity.
        match goal with H : fp_ssm _ _ _ _ |- _ => invert H end; reflexivity. }
  assert (Hwp : wp (create_gateway env event props) (fun _ s1 => grows phi s s1)
                  (fun _ s1 => grows phi s s1) s).
  { apply wp_create_gateway with (phi := phi) (s0 := s); auto using grows_refl. }
  pose proof (wp_run _ _ _ _ _ _ Hwp Hrun) as Hpost.
  assert (Hg : grows phi s s') by (destruct r; exact Hpost).
  destruct Hg as (l & Htrace & Hl & _). eauto.
Qed.

End Store.

Lemma success_outcome_matches_store_witness :
  exists s' body,
    create_gateway (fake_env ∅ (Some "https://gw.example/mcp"))
      (demo_event "Create" "demo" None None) (demo_props "demo") (start fake0)
      = (s', Ok body) /\
    rb_Status body = "SUCCESS" /\
    exists prefix target_id,
      demo_props "demo" !! "SsmPrefix" = Some prefix /\
      rb_Data body !! "TargetId" = Some target_id /\
      ssm s' !! (prefix +:+ "/target_id") = Some target_id.
Proof.
  assert (Hrun : exists s' body,
            create_gateway (fake_env ∅ (Some "https://gw.example/mcp"))
              (demo_event "Create" "demo" None None) (demo_props "demo")
              (start fake0) = (s', Ok body))
    by (eexists _, _; vm_compute; reflexivity).
  destruct Hrun as (s' & body & Hrun).
  destruct (success_outcome_matches_store _ _ _ _ _ _ (or_introl Hrun))
    as (prefix & gateway_id & target_id & d & Hprefix & Hstatus & _ & Htid & _
        & Hstored & _).
  exists s', body. split; [exact Hrun |]. split; [exact Hstatus |].
  exists prefix, target_id. auto.
Defined.

Lemma handler_writes_only_its_parameters_witness :
  let s := {| world := fake0; clock := 0; ssm := {[ "/other/key" := "kept" ]};
              trace := [] |} in
  let run := handler (fake_env ∅ None) (demo_event "Create" "demo" None None) s in
  ssm run.1 !! "/other/key" = Some "kept".
Proof.
  intros s run.
  destruct (handler_writes_only_its_parameters (fake_env ∅ None)
              (demo_event "Create" "demo" None None) s run.1 run.2
              (surjective_pairing _)) as [Hframe _].
  rewrite Hframe; [reflexivity |].
  intros props prefix Hprops Hprefix Hin.
  injection Hprops as <-. vm_compute in Hprefix. injection Hprefix as <-.
  vm_compute in Hin. decompose [or] Hin; try discriminate. assumption.
Defined.

Lemma delete_gateway_keeps_parameters_witness :
  let s := {| world := fake1; clock := 0; ssm := {[ "/gasp/gateway_id" := "gw-1" ]};
              trace := [] |} in
  let run := delete_gateway (fake_env ∅ None)
               (demo_event "Delete" "demo" None (Some "gw-1")) s in
  ssm run.1 !! "/gasp/gateway_id" = Some "gw-1" /\
  fk_gateways (world run.1) = [].
Proof.
  intros s run.
  destruct (delete_gateway_keeps_parameters (fake_env ∅ None)
              (demo_event "Delete" "demo" None (Some "gw-1")) s run.1 run.2
              (surjective_pairing _)) as [Hssm _].
  split; [rewrite Hssm; reflexivity | vm_compute; reflexivity].
Defined.

Lemma handler_deletes_only_physical_resource_witness :
  let run := handler (fake_env ∅ None) rename_event (start fake1) in
  Forall (fun c => is_delete c = true -> addressed c = Some "gw-1") (trace run.1) /\
  count is_delete (trace run.1) = 2%nat.
Proof.
  intros run.
  destruct (handler_deletes_only_physical_resource (fake_env ∅ None) rename_event
              (start fake1) run.1 run.2 (surjective_pairing _))
    as (l & Htrace & Hl).
  split; [| vm_compute; reflexivity].
  rewrite Htrace. apply List.Forall_forall. intros c Hin Hdel.
  destruct (Hl c Hin Hdel) as (gateway_id & Hphys & Haddr).
  injection Hphys as <-. exact Haddr.
Defined.

Lemma create_gateway_never_deletes_witness :
  let run := create_gateway (fake_env ∅ None) (demo_event "Create" "demo" None None)
               (demo_props "demo") (start fake1) in
  Forall (fun c => is_delete c = false) (trace run.1).
Proof.
  intros run.
  destruct (create_gateway_never_deletes (fake_env ∅ None)
              (demo_event "Create" "demo" None None) (demo_props "demo")
              (start fake1) run.1 run.2 (surjective_pairing _))
    as (l & Htrace & Hl).
  rewrite Htrace. exact Hl.
Defined.

(** * Writing the parameters *)

Section Parameters.

Context {W Doc : Type} (env : Env W Doc).

Lemma put_parameter_run name value (s : State W Doc) :
  put_parameter env name value s =
    match env_put_parameter env name value (world s) with
    | (w, Ok _) =>
        (after_put name value (after_call env (CPutParameter name value) w s), Ok tt)
    | (w, Raise e) => (after_call env (CPutParameter name value) w s, Raise e)
    end.
Proof.
  unfold put_parameter, api.
  destruct (env_put_parameter env name value (world s)) as [w [[]|e]]; reflexivity.
Qed.

Lemma put_parameters_run (l : list (string * string)) :
  forall (s s' : State W Doc) r,
  foldr (fun p k => put_parameter env p.1 p.2;;; k) (ret tt) l s = (s', r) ->
  exists done,
    trace s' = trace s ++ put_calls done /\
    ((r = Ok tt /\ done = l /\ ssm s' = written l (ssm s)) \/
     (exists e n p, r = Raise e /\ l !! n = Some p /\
        done = take (S n) l /\ ssm s' = written (take n l) (ssm s))).
Proof.
  induction l as [|p l IH]; intros s s' r; simpl.
  - intros [= <- <-]. exists []. simpl. rewrite app_nil_r.
    split; [reflexivity |]. left. auto.
  - unfold bind at 1. rewrite put_parameter_run.
    destruct (env_put_parameter env p.1 p.2 (world s)) as [w [[]|e]] eqn:Hput.
    + intros Hrun. destruct (IH _ _ _ Hrun) as (done & Htr & Hres).
      simpl in Htr.
      exists (p :: done). split.
      { rewrite Htr. simpl. rewrite <- app_assoc. reflexivity. }
      destruct Hres as [(Hr & -> & Hs) | (e & n & q & Hr & Hq & -> & Hs)].
      * left. repeat split; auto.
      * right. exists e, (S n), q. repeat split; auto.
    + intros [= <- <-]. exists [p]. simpl. split; [reflexivity |].
      right. exists e, 0%nat, p. repeat split; auto.
Qed.

Lemma update_ssm_parameters_puts prefix d target_id props (s : State W Doc) :
  props !! "SsmPrefix" = Some prefix ->
  update_ssm_parameters env d target_id props s =
    foldr (fun p k => put_parameter env p.1 p.2;;; k) (ret tt)
      (ssm_writes prefix d target_id) s.
Proof.
  intros Hp. unfold update_ssm_parameters, bind at 1, getitem. rewrite Hp. simpl.
  unfold ssm_writes. destruct (truthy (gatewayUrl d)); simpl.
  - unfold bind. destruct (put_parameter env _ _ s) as [s1 [[]|e]]; [| reflexivity].
    destruct (put_parameter env _ _ s1) as [s2 [[]|e]]; [| reflexivity].
    destruct (put_parameter env _ _ s2) as [s3 [[]|e]]; reflexivity.
  - unfold bind, ret.
    destruct (put_parameter env _ _ s) as [s2 [[]|e]]; [| reflexivity].
    destruct (put_parameter env _ _ s2) as [s3 [[]|e]]; reflexivity.
Qed.

(** X11: the parameters are written one by one, in the order
    [gateway_url] (only when the record carries a non-empty URL),
    [target_id], [gateway_id].  A run that returns has written them all; a
    run that raises stopped at the first write that failed, and the writes
    before it stay in the store. *)
Theorem update_ssm_parameters_in_order prefix d target_id props
    (s s' : State W Doc) r :
  props !! "SsmPrefix" = Some prefix ->
  update_ssm_parameters env d target_id props s = (s', r) ->
  let writes := ssm_writes prefix d target_id in
  (r = Ok tt /\ trace s' = trace s ++ put_calls writes /\
   ssm s' = written writes (ssm s)) \/
  (exists e n p, r = Raise e /\ writes !! n = Some p /\
     trace s' = trace s ++ put_calls (take (S n) writes) /\
     ssm s' = written (take n writes) (ssm s)).
Proof.
  intros Hp Hrun writes.
  rewrite (update_ssm_parameters_puts prefix d target_id props s Hp) in Hrun.
  destruct (put_parameters_run writes s s' r Hrun) as (done & Htr & Hres).
  destruct Hres as [(Hr & -> & Hs) | (e & n & p & Hr & Hq & -> & Hs)].
  - left. auto.
  - right. exists e, n, p. auto.
Qed.

(** Without [SsmPrefix] nothing is written. *)
Lemma update_ssm_parameters_no_prefix d target_id props (s : State W Doc) :
  props !! "SsmPrefix" = None ->
  update_ssm_parameters env d target_id props s = (s, Raise (KeyError "SsmPrefix")).
Proof.
  intros Hp. unfold update_ssm_parameters, bind, getitem. rewrite Hp. reflexivity.
Qed.

End Parameters.

Lemma update_ssm_parameters_in_order_witness :
  let d := {| gatewayId := "gw-1"; status := "READY";
              gatewayUrl := Some "https://gw.example/mcp" |} in
  let run := update_ssm_parameters (fake_env ∅ None) d "tgt-1" (demo_props "demo")
               (start fake0) in
  run.2 = Ok tt /\
  sleeps (trace run.1) = [] /\
  trace run.1 = [CPutParameter "/gasp/gateway_url" "https://gw.example/mcp";
                 CPutParameter "/gasp/target_id" "tgt-1";
                 CPutParameter "/gasp/gateway_id" "gw-1"] /\
  ssm run.1 = written (ssm_writes "/gasp" d "tgt-1") ∅.
Proof.
  intros d run.
  destruct (update_ssm_parameters_in_order (fake_env ∅ None) "/gasp" d "tgt-1"
              (demo_props "demo") (start fake0) run.1 run.2 eq_refl
              (surjective_pairing _))
    as [(Hr & Htrace & Hssm) | (e & n & p & Hr & _)];
    [| vm_compute in Hr; discriminate].
  split; [exact Hr |]. split; [vm_compute; reflexivity |].
  split; [rewrite Htrace; reflexivity | exact Hssm].
Defined.

(** * Reconciling the target *)

Section Targets.

Context {W Doc : Type} (env : Env W Doc).

(** X12: the first listed target is updated in place.  When the gateway
    lists targets and the update of the first one goes through, its id is
    returned after exactly these two calls: no target is created and the
    other targets are not touched. *)
Theorem create_or_update_target_updates_first gateway_id lambda_arn api_spec
    first rest w w' (s : State W Doc) :
  env_list_gateway_targets env gateway_id (world s) = (w, Ok (first :: rest)) ->
  env_update_gateway_target env gateway_id (targetId first) lambda_arn api_spec w
    = (w', Ok tt) ->
  exists s',
    create_or_update_target env gateway_id lambda_arn api_spec s
      = (s', Ok (targetId first)) /\
    world s' = w' /\ ssm s' = ssm s /\
    trace s' = trace s ++ [CListTargets gateway_id;
                           CUpdateTarget gateway_id (targetId first) lambda_arn api_spec].
Proof.
  intros Hlist Hupdate.
  unfold create_or_update_target, bind at 1, try_catch, bind at 1,
    list_gateway_targets, api.
  rewrite Hlist. unfold bind at 1, update_gateway_target, api. simpl.
  rewrite Hupdate. simpl.
  eexists. split; [reflexivity |]. simpl.
  rewrite <- app_assoc. auto.
Qed.

(** X13: otherwise a target is created.  When the listing of the targets
    fails, or lists nothing, or the update of the first target fails, the
    error is swallowed and the result is that of [create_target_with_retry]
    (five attempts), run after the calls made so far. *)
Theorem create_or_update_target_falls_back gateway_id lambda_arn api_spec
    (s : State W Doc) :
  let after_list w := after_call env (CListTargets gateway_id) w s in
  let create := create_target_with_retry env gateway_id lambda_arn api_spec 5 in
  (forall w e,
     env_list_gateway_targets env gateway_id (world s) = (w, Raise e) ->
     create_or_update_target env gateway_id lambda_arn api_spec s
       = create (after_list w)) /\
  (forall w,
     env_list_gateway_targets env gateway_id (world s) = (w, Ok []) ->
     create_or_update_target env gateway_id lambda_arn api_spec s
       = create (after_list w)) /\
  (forall w first rest w' e,
     env_list_gateway_targets env gateway_id (world s) = (w, Ok (first :: rest)) ->
     env_update_gateway_target env gateway_id (targetId first) lambda_arn api_spec w
       = (w', Raise e) ->
     create_or_update_target env gateway_id lambda_arn api_spec s
       = create
           (after_call env
              (CUpdateTarget gateway_id (targetId first) lambda_arn api_spec) w'
              (after_list w))).
Proof.
  intros after_list create. unfold after_list, create. repeat split.
  - intros w e Hlist.
    unfold create_or_update_target, bind at 1, try_catch, bind at 1,
      list_gateway_targets, api.
    rewrite Hlist. reflexivity.
  - intros w Hlist.
    unfold create_or_update_target, bind at 1, try_catch, bind at 1,
      list_gateway_targets, api.
    rewrite Hlist. reflexivity.
  - intros w first rest w' e Hlist Hupdate.
    unfold create_or_update_target, bind at 1, try_catch, bind at 1,
      list_gateway_targets, api.
    rewrite Hlist. unfold bind at 1, update_gateway_target, api. simpl.
    rewrite Hupdate. reflexivity.
Qed.

End Targets.

Lemma create_or_update_target_updates_first_witness :
  exists s',
    create_or_update_target (fake_env ∅ None) "gw-1" "arn:aws:lambda:fn" "[]"
      (start fake1) = (s', Ok "tgt-1") /\
    fk_targets (world s') = [("gw-1", "tgt-1")] /\
    trace s' = [CListTargets "gw-1";
                CUpdateTarget "gw-1" "tgt-1" "arn:aws:lambda:fn" "[]"].
Proof.
  assert (Hlist : env_list_gateway_targets (fake_env ∅ None) "gw-1"
                    (world (start fake1)) = (fake1, Ok [{| targetId := "tgt-1" |}]))
    by (vm_compute; reflexivity).
  assert (Hupdate : env_update_gateway_target (fake_env ∅ None) "gw-1" "tgt-1"
                      "arn:aws:lambda:fn" "[]" fake1 = (fake1, Ok tt))
    by (vm_compute; reflexivity).
  destruct (create_or_update_target_updates_first (fake_env ∅ None) "gw-1"
              "arn:aws:lambda:fn" "[]" {| targetId := "tgt-1" |} [] fake1 fake1
              (start fake1) Hlist Hupdate)
    as (s' & Hrun & Hworld & _ & Htrace).
  exists s'. split; [exact Hrun |]. split; [rewrite Hworld; reflexivity | exact Htrace].
Defined.

Lemma create_or_update_target_falls_back_witness :
  create_or_update_target (fake_env ∅ None) "gw-1" "arn:aws:lambda:fn" "[]"
    (start fake0)
  = create_target_with_retry (fake_env ∅ None) "gw-1" "arn:aws:lambda:fn" "[]" 5
      (after_call (fake_env ∅ None) (CListTargets "gw-1") fake0 (start fake0)).
Proof.
  apply (proj1 (proj2 (create_or_update_target_falls_back (fake_env ∅ None) "gw-1"
                         "arn:aws:lambda:fn" "[]" (start fake0)))).
  vm_compute. reflexivity.
Defined.

(** * The order of a teardown *)

Section Teardown.

Context {W Doc : Type} (env : Env W Doc).

Lemma delete_targets_run gateway_id targets :
  forall (s s' : State W Doc) r,
  delete_targets env gateway_id targets s = (s', r) ->
  ssm s' = ssm s /\
  ((r = Ok tt /\ trace s' = trace s ++ deletions gateway_id targets /\
    clock s + 5 * Z.of_nat (length targets) <= clock s') \/
   (exists e n t, r = Raise e /\ targets !! n = Some t /\
      trace s' = trace s ++ deletions gateway_id (take n targets)
                         ++ [CDeleteTarget gateway_id (targetId t)])).
Proof.
  induction targets as [|t targets IH]; intros s s' r; simpl.
  - intros [= <- <-]. split; [reflexivity |]. left.
    rewrite app_nil_r. repeat split; lia.
  - unfold bind at 1, delete_gateway_target, api.
    destruct (env_delete_gateway_target env gateway_id (targetId t) (world s))
      as [w [[]|e]].
    + unfold bind at 1, time_sleep. intros Hrun.
      destruct (IH _ _ _ Hrun) as (Hssm & Hres). simpl in Hssm, Hres.
      split; [exact Hssm |].
      destruct Hres as [(-> & Htr & Hclock) | (e & n & t' & -> & Hn & Htr)].
      * left. split; [reflexivity |]. split.
        -- rewrite Htr, <- !app_assoc. reflexivity.
        -- lia.
      * right. exists e, (S n), t'. split; [reflexivity |]. split; [exact Hn |].
        rewrite Htr. simpl. rewrite <- !app_assoc. reflexivity.
    + intros [= <- <-]. split; [reflexivity |]. right.
      exists e, 0%nat, t. simpl. auto.
Qed.

(** X14: the gateway is deleted last, and only when every target is gone.
    A teardown always returns and leaves the store alone.  When the listing
    fails it is the only call; otherwise the listed targets are deleted in
    order, each deletion followed by a sleep of five time-units, and either
    all deletions go through and the deletion of the gateway is the last
    call, or the calls stop at the first deletion that fails and the gateway
    is not deleted. *)
Theorem teardown_deletes_gateway_last gateway_id (s : State W Doc) :
  exists s' l,
    teardown env gateway_id s = (s', Ok tt) /\
    ssm s' = ssm s /\
    trace s' = trace s ++ CListTargets gateway_id :: l /\
    forall w r, env_list_gateway_targets env gateway_id (world s) = (w, r) ->
      match r with
      | Raise _ => l = []
      | Ok targets =>
          (l = deletions gateway_id targets ++ [CDeleteGateway gateway_id] /\
           clock s + 5 * Z.of_nat (length targets) <= clock s') \/
          (exists n t, targets !! n = Some t /\
             l = deletions gateway_id (take n targets)
                 ++ [CDeleteTarget gateway_id (targetId t)])
      end.
Proof.
  unfold teardown, try_catch, bind at 1, list_gateway_targets, api.
  destruct (env_list_gateway_targets env gateway_id (world s)) as [w [targets|e]].
  2:{ eexists _, []. split; [reflexivity |]. simpl. repeat split.
      intros w0 r [= <- <-]. reflexivity. }
  unfold bind at 1.
  match goal with |- context [delete_targets env gateway_id targets ?s1] =>
    destruct (delete_targets env gateway_id targets s1) as [s2 r2] eqn:Hdel;
    destruct (delete_targets_run _ _ _ _ _ Hdel) as (Hssm & Hres)
  end.
  simpl in Hssm, Hres.
  destruct Hres as [(-> & Htr & Hclock) | (e & n & t & -> & Hn & Htr)].
  - unfold delete_gateway_call, api.
    destruct (env_delete_gateway env gateway_id (world s2)) as [w2 [[]|e]];
      (eexists _, _; split; [reflexivity |]; simpl;
       split; [exact Hssm |];
       split; [rewrite Htr, <- !app_assoc; simpl; reflexivity |];
       intros w0 r [= <- <-]; left; split; [reflexivity |];
       pose proof (N2Z.is_nonneg (latency env w));
       pose proof (N2Z.is_nonneg (latency env w2)); lia).
  - eexists _, _. split; [reflexivity |]. simpl.
    split; [exact Hssm |].
    split; [rewrite Htr, <- !app_assoc; simpl; reflexivity |].
    intros w0 r [= <- <-]. right. exists n, t. auto.
Qed.

End Teardown.

(** * Creating a gateway that is not listed *)

Section NotListed.

Context {W Doc : Type} (env : Env W Doc).

(** X15: a gateway is created when none of the wanted name is listed, and
    also when the listing fails: in both cases create goes on as
    [create_new_gateway] from the state after the listing. *)
Theorem create_gateway_creates_when_not_listed event props gateway_name lambda_arn
    text api_spec role_arn w r (s : State W Doc) :
  props !! "GatewayName" = Some gateway_name ->
  props !! "LambdaArn" = Some lambda_arn ->
  props !! "ApiSpec" = Some text ->
  json_loads env text = Ok api_spec ->
  props !! "GatewayRoleArn" = Some role_arn ->
  env_list_gateways env (world s) = (w, r) ->
  match r with
  | Ok items => first_named gateway_name items = None
  | Raise _ => True
  end ->
  create_gateway env event props s
    = create_new_gateway env event props gateway_name lambda_arn api_spec role_arn
        (after_call env CListGateways w s).
Proof.
  intros Hname Harn Htext Hspec Hrole Hlist Hr.
  unfold create_gateway, bind at 1, getitem. rewrite Hname. simpl.
  unfold bind at 1. rewrite Harn. simpl.
  unfold bind at 1. rewrite Htext. simpl.
  unfold bind at 1, parse_api_spec. rewrite Hspec. simpl.
  unfold bind at 1. rewrite Hrole. simpl.
  unfold bind at 1, try_catch, bind at 1, list_gateways, api. rewrite Hlist.
  fold (after_call env CListGateways w s).
  destruct r as [items|e]; [| reflexivity].
  rewrite scan_gateways_first, Hr. reflexivity.
Qed.

End NotListed.

Lemma create_gateway_creates_when_not_listed_witness :
  create_gateway (fake_env {[ "list_gateways" := "ThrottlingException" ]} None)
    (demo_event "Create" "demo" None None) (demo_props "demo") (start fake1)
  = create_new_gateway (fake_env {[ "list_gateways" := "ThrottlingException" ]} None)
      (demo_event "Create" "demo" None None) (demo_props "demo")
      "demo" "arn:aws:lambda:fn" "[]" "arn:aws:iam:role"
      (after_call (fake_env {[ "list_gateways" := "ThrottlingException" ]} None)
         CListGateways fake1 (start fake1)).
Proof.
  assert (Hlist : env_list_gateways
                    (fake_env {[ "list_gateways" := "ThrottlingException" ]} None)
                    (world (start fake1))
                  = (fake1, Raise (ClientError "ThrottlingException")))
    by (vm_compute; reflexivity).
  exact (create_gateway_creates_when_not_listed
           (fake_env {[ "list_gateways" := "ThrottlingException" ]} None)
           (demo_event "Create" "demo" None None) (demo_props "demo")
           "demo" "arn:aws:lambda:fn" "[]" "[]" "arn:aws:iam:role" fake1
           (Raise (ClientError "ThrottlingException")) (start fake1)
           eq_refl eq_refl eq_refl eq_refl eq_refl Hlist I).
Defined.

(** * Budgets of the two loops *)

Section Budgets.

Context {W Doc : Type} (env : Env W Doc).

Lemma sleeps_app (l1 l2 : list (call Doc)) : sleeps (l1 ++ l2) = sleeps l1 ++ sleeps l2.
Proof. unfold sleeps. apply omap_app. Qed.

Lemma total_sleep_app (l1 l2 : list (call Doc)) :
  total_sleep (l1 ++ l2) = total_sleep l1 + total_sleep l2.
Proof.
  unfold total_sleep. rewrite sleeps_app.
  induction (sleeps l1) as [|d l IH]; simpl; lia.
Qed.

Lemma pow2_succ (n : nat) : 2 ^ Z.of_nat (S n) = 2 * 2 ^ Z.of_nat n.
Proof. rewrite Nat2Z.inj_succ, Z.pow_succ_r; lia. Qed.

Lemma pow2_pos (n : nat) : 0 < 2 ^ Z.of_nat n.
Proof. apply Z.pow_pos_nonneg; lia. Qed.

Lemma retry_loop_budget gateway_id lambda_arn api_spec max_retries n :
  forall first (s s' : State W Doc) r,
  retry_loop env gateway_id lambda_arn api_spec max_retries (seq first n) s = (s', r) ->
  exists l,
    trace s' = trace s ++ l /\ ssm s' = ssm s /\
    Forall (fun c => c = CCreateTarget gateway_id lambda_arn api_spec \/
                     is_sleep c = true) l /\
    (count is_create_target l <= n)%nat /\
    0 <= total_sleep l <= 2 ^ Z.of_nat (first + n) - 2 ^ Z.of_nat first.
Proof.
  induction n as [|n IH]; intros first s s' r; simpl seq.
  - simpl. intros [= <- <-]. exists []. rewrite app_nil_r, Nat.add_0_r.
    repeat split; auto; unfold total_sleep; simpl; lia.
  - rewrite retry_loop_cons.
    destruct (env_create_gateway_target env gateway_id lambda_arn api_spec (world s))
      as [w [target_id|e]].
    + intros [= <- <-]. eexists [_]. simpl. repeat split; auto.
      * unfold count, is_create_target. lia.
      * unfold total_sleep. simpl. lia.
      * unfold total_sleep. simpl.
        pose proof (Z.pow_le_mono_r 2 (Z.of_nat first) (Z.of_nat (first + S n))).
        lia.
    + destruct (transient e).
      * intros Hrun. destruct (IH _ _ _ _ Hrun) as (l & Htr & Hssm & Hl & Hc & Hs).
        simpl in Htr, Hssm.
        exists (CCreateTarget gateway_id lambda_arn api_spec
                :: CSleep (2 ^ Z.of_nat first) :: l).
        split; [rewrite Htr, <- !app_assoc; reflexivity |].
        split; [exact Hssm |].
        split; [constructor; [left; reflexivity |];
                constructor; [right; reflexivity | exact Hl] |].
        split; [change (S (count is_create_target l) <= S n)%nat; lia |].
        change (total_sleep (CCreateTarget gateway_id lambda_arn api_spec
                             :: CSleep (2 ^ Z.of_nat first) :: l))
          with (2 ^ Z.of_nat first + total_sleep l).
        replace (first + S n)%nat with (S first + n)%nat by lia.
        pose proof (pow2_succ first). pose proof (pow2_pos first). lia.
      * intros [= <- <-]. eexists [_]. simpl. repeat split; auto.
        -- unfold count, is_create_target. lia.
        -- unfold total_sleep. simpl. lia.
        -- unfold total_sleep. simpl.
           pose proof (Z.pow_le_mono_r 2 (Z.of_nat first) (Z.of_nat (first + S n))).
           lia.
Qed.

(** X16: the budget of the target creation.  Whatever the remote answers,
    [create_target_with_retry] issues nothing but create calls for its
    gateway and sleeps, at most [max_retries] create calls, sleeps at most
    [2 ^ max_retries - 1] time-units in all (31 for the default of five
    attempts), and leaves the store alone. *)
Theorem create_target_with_retry_budget gateway_id lambda_arn api_spec max_retries
    (s s' : State W Doc) r :
  create_target_with_retry env gateway_id lambda_arn api_spec max_retries s = (s', r) ->
  exists l,
    trace s' = trace s ++ l /\ ssm s' = ssm s /\
    Forall (fun c => c = CCreateTarget gateway_id lambda_arn api_spec \/
                     is_sleep c = true) l /\
    (count is_create_target l <= max_retries)%nat /\
    0 <= total_sleep l <= 2 ^ Z.of_nat max_retries - 1.
Proof.
  intros Hrun. unfold create_target_with_retry in Hrun.
  destruct (retry_loop_budget _ _ _ _ _ _ _ _ _ Hrun) as (l & Htr & Hssm & Hl & Hc & Hs).
  exists l. simpl in Hs. repeat split; auto; lia.
Qed.

Lemma wait_loop_fuel_budget gateway_id start_time max_wait fuel :
  forall (s s' : State W Doc) r,
  wait_loop_fuel env fuel gateway_id start_time max_wait s = (s', r) ->
  exists l,
    trace s' = trace s ++ l /\ ssm s' = ssm s /\
    Forall (fun c => c = CGetGateway gateway_id \/ c = CSleep 10) l /\
    (count is_get_gateway l
       <= Z.to_nat ((start_time + max_wait - clock s + 9) / 10))%nat /\
    (r = Ok tt ->
     exists w w' d, env_get_gateway env gateway_id w = (w', Ok d) /\ status d = "READY").
Proof.
  induction fuel as [|fuel IH]; intros s s' r; rewrite wait_loop_fuel_run.
  - destruct (clock s - start_time <? max_wait);
      intros [= <- <-]; exists []; rewrite app_nil_r;
      repeat split; auto; simpl; try lia; discriminate.
  - destruct (Z.ltb_spec (clock s - start_time) max_wait) as [Hlt | Hge].
    2:{ intros [= <- <-]; exists []; rewrite app_nil_r;
        repeat split; auto; simpl; try lia; discriminate. }
    rewrite poll_run.
    assert (Hone : (1 <= Z.to_nat ((start_time + max_wait - clock s + 9) / 10))%nat).
    { assert (1 <= (start_time + max_wait - clock s + 9) / 10)
        by (apply Z.div_le_lower_bound; lia).
      lia. }
    destruct (env_get_gateway env gateway_id (world s)) as [w [d|e]] eqn:Hget.
    2:{ intros [= <- <-]. eexists [_]. simpl. repeat split; auto. discriminate. }
    destruct (String.eqb_spec (status d) "READY") as [Hready | _].
    { intros [= <- <-]. eexists [_]. simpl. repeat split; auto.
      intros _. eauto. }
    destruct (String.eqb (status d) "FAILED" || String.eqb (status d) "DELETING").
    { intros [= <- <-]. eexists [_]. simpl. repeat split; auto. discriminate. }
    intros Hrun. destruct (IH _ _ _ Hrun) as (l & Htr & Hssm & Hl & Hc & Hok).
    simpl in Htr, Hssm, Hc.
    exists (CGetGateway gateway_id :: CSleep 10 :: l).
    split; [rewrite Htr, <- !app_assoc; reflexivity |].
    split; [exact Hssm |].
    split; [constructor; [left; reflexivity |];
            constructor; [right; reflexivity | exact Hl] |].
    split; [| exact Hok].
    change (S (count is_get_gateway l)
              <= Z.to_nat ((start_time + max_wait - clock s + 9) / 10))%nat.
    pose proof (N2Z.is_nonneg (latency env w)) as Hlat.
    assert (Hdiv : (start_time + max_wait - (clock s + Z.of_N (latency env w) + 10) + 9) / 10
                   <= (start_time + max_wait - clock s + 9) / 10 - 1).
    { replace ((start_time + max_wait - clock s + 9) / 10 - 1)
        with ((start_time + max_wait - clock s + 9 + (-1) * 10) / 10)
        by (rewrite Z.div_add; lia).
      apply Z.div_le_mono; lia. }
    lia.
Qed.

(** X17: the budget of the readiness wait.  Whatever the remote answers
    and however long its calls take, [wait_for_gateway_ready] issues nothing
    but status reads of its gateway and sleeps of ten time-units, at most
    [max_wait / 10] (rounded up) status reads, none at all when [max_wait]
    is not positive, and it returns normally only when a status read
    reported READY. *)
Theorem wait_for_gateway_ready_budget gateway_id max_wait (s s' : State W Doc) r :
  wait_for_gateway_ready env gateway_id max_wait s = (s', r) ->
  exists l,
    trace s' = trace s ++ l /\ ssm s' = ssm s /\
    Forall (fun c => c = CGetGateway gateway_id \/ c = CSleep 10) l /\
    (count is_get_gateway l <= Z.to_nat ((max_wait + 9) / 10))%nat /\
    (r = Ok tt ->
     exists w w' d, env_get_gateway env gateway_id w = (w', Ok d) /\ status d = "READY").
Proof.
  intros Hrun. rewrite wait_for_gateway_ready_run in Hrun. unfold wait_loop in Hrun.
  destruct (wait_loop_fuel_budget _ _ _ _ _ _ _ Hrun) as (l & Htr & Hssm & Hl & Hc & Hok).
  exists l. repeat split; auto.
  replace (clock s + max_wait - clock s + 9) with (max_wait + 9) in Hc by lia.
  exact Hc.
Qed.

End Budgets.

Lemma create_target_with_retry_budget_witness :
  let run := create_target_with_retry (fake_env ∅ None) "gw-1" "arn:aws:lambda:fn"
               "[]" 5 (start (fake_creating 9)) in
  (count is_create_target (trace run.1) <= 5)%nat /\
  0 <= total_sleep (trace run.1) <= 31.
Proof.
  intros run.
  destruct (create_target_with_retry_budget (fake_env ∅ None) "gw-1"
              "arn:aws:lambda:fn" "[]" 5 (start (fake_creating 9)) run.1 run.2
              (surjective_pairing _))
    as (l & Htrace & _ & _ & Hcount & Hsleep).
  rewrite Htrace. split; [exact Hcount | exact Hsleep].
Defined.

Lemma wait_for_gateway_ready_budget_witness :
  let run := wait_for_gateway_ready (fake_env ∅ None) "gw-1" 120
               (start (fake_polling (repeat "CREATING" 20))) in
  (count is_get_gateway (trace run.1) <= 12)%nat.
Proof.
  intros run.
  destruct (wait_for_gateway_ready_budget (fake_env ∅ None) "gw-1" 120
              (start (fake_polling (repeat "CREATING" 20))) run.1 run.2
              (surjective_pairing _))
    as (l & Htrace & _ & _ & Hcount & _).
  rewrite Htrace. exact Hcount.
Defined.

(** * New gateways *)

Section NewGateway.

Context {W Doc : Type} (env : Env W Doc).

(** X18: nothing is attached to a new gateway before it was seen READY.
    When [create_new_gateway] returns an outcome, or has issued a target
    creation, a parameter write or a callback, then the gateway-create call
    had succeeded and a status read of the new gateway had reported
    READY. *)
Theorem create_new_gateway_waits_for_ready event props gateway_name lambda_arn
    api_spec role_arn (s s' : State W Doc) r :
  create_new_gateway env event props gateway_name lambda_arn api_spec role_arn s
    = (s', r) ->
  (exists body, r = Ok body) \/
  (exists c, In c (trace s') /\ ~ In c (trace s) /\
     (is_create_target c = true \/ is_put_parameter c = true \/
      is_http_put c = true)) ->
  exists gateway_id client_id discovery_url w w' w1 w1' d,
    env_create_gateway env gateway_name role_arn client_id discovery_url w
      = (w', Ok gateway_id) /\
    env_get_gateway env gateway_id w1 = (w1', Ok d) /\ status d = "READY".
Proof.
  unfold create_new_gateway.
  intros Hrun Hdone.
  assert (Hquiet : forall l : list (call Doc),
            Forall (fun c => is_create_target c = false /\ is_put_parameter c = false /\
                             is_http_put c = false) l ->
            trace s' = trace s ++ l -> (forall body, r <> Ok body) -> False).
  { intros l Hl Htr Hr.
    destruct Hdone as [[body ->] | (c & Hin & Hnot & Hc)]; [eapply Hr; eauto |].
    rewrite Htr in Hin. apply in_app_or in Hin. destruct Hin as [Hin | Hin];
      [contradiction |].
    rewrite List.Forall_forall in Hl. destruct (Hl _ Hin) as (H1 & H2 & H3).
    destruct Hc as [Hc | [Hc | Hc]]; congruence. }
  unfold bind at 1, getitem in Hrun.
  destruct (props !! "CognitoClientId") as [client_id|]; simpl in Hrun.
  2:{ injection Hrun as <- <-. exfalso.
      apply (Hquiet []); [constructor | rewrite app_nil_r; reflexivity | discriminate]. }
  unfold bind at 1 in Hrun.
  destruct (props !! "CognitoDiscoveryUrl") as [discovery_url|]; simpl in Hrun.
  2:{ injection Hrun as <- <-. exfalso.
      apply (Hquiet []); [constructor | rewrite app_nil_r; reflexivity | discriminate]. }
  unfold bind at 1, create_gateway_call, api in Hrun.
  destruct (env_create_gateway env gateway_name role_arn client_id discovery_url
              (world s)) as [w [gateway_id|e]] eqn:Hcreate.
  2:{ injection Hrun as <- <-. exfalso.
      apply (Hquiet [CCreateGateway gateway_name role_arn client_id discovery_url]);
        [| reflexivity | discriminate].
      constructor; [repeat split | constructor]. }
  unfold bind at 1 in Hrun.
  match type of Hrun with context [wait_for_gateway_ready env gateway_id 120 ?s1] =>
    destruct (wait_for_gateway_ready env gateway_id 120 s1) as [s2 r2] eqn:Hwait;
    pose proof Hwait as Hloop;
    rewrite wait_for_gateway_ready_run in Hloop; unfold wait_loop in Hloop;
    destruct (wait_loop_fuel_budget env _ _ _ _ _ _ _ Hloop)
      as (l & Htr & _ & Hl & _ & Hready)
  end.
  destruct r2 as [[]|e].
  - destruct (Hready eq_refl) as (w1 & w1' & d & Hget & Hst).
    exists gateway_id, client_id, discovery_url, (world s), w, w1, w1', d. auto.
  - injection Hrun as <- <-. exfalso.
    apply (Hquiet (CCreateGateway gateway_name role_arn client_id discovery_url :: l));
      [| rewrite Htr; simpl; rewrite <- app_assoc; reflexivity | discriminate].
    constructor; [repeat split |].
    eapply Forall_impl; [exact Hl |].
    intros c [-> | ->]; repeat split.
Qed.

End NewGateway.

Lemma create_new_gateway_waits_for_ready_witness :
  exists gateway_id client_id discovery_url w w' w1 w1' d,
    env_create_gateway (fake_env ∅ None) "demo" "arn:aws:iam:role" client_id
      discovery_url w = (w', Ok gateway_id) /\
    env_get_gateway (fake_env ∅ None) gateway_id w1 = (w1', Ok d) /\
    status d = "READY".
Proof.
  eapply (create_new_gateway_waits_for_ready (fake_env ∅ None)
            (demo_event "Create" "demo" None None) (demo_props "demo")
            "demo" "arn:aws:lambda:fn" "[]" "arn:aws:iam:role" (start fake0)).
  - apply surjective_pairing.
  - left. eexists. vm_compute. reflexivity.
Defined.

(** * Updates without old properties *)

Section OldProperties.

Context {W Doc : Type} (env : Env W Doc).

(** X19: an update whose old properties are missing, or carry no
    [GatewayName], is a replacement (delete, then create) as soon as the
    new properties carry a name; it is an update in place only when the new
    properties carry no name either. *)
Theorem update_without_old_name_replaces event props gateway_id lambda_arn text
    api_spec (s : State W Doc) :
  PhysicalResourceId event = Some gateway_id ->
  props !! "LambdaArn" = Some lambda_arn ->
  props !! "ApiSpec" = Some text ->
  json_loads env text = Ok api_spec ->
  (OldResourceProperties event = None \/
   exists old, OldResourceProperties event = Some old /\ old !! "GatewayName" = None) ->
  (is_Some (props !! "GatewayName") ->
   update_gateway env event props s
     = (delete_gateway env event;;; create_gateway env event props) s) /\
  (props !! "GatewayName" = None ->
   update_gateway env event props s
     = update_in_place env event props gateway_id lambda_arn api_spec s).
Proof.
  intros Hp Harn Htext Hspec Hold.
  rewrite (update_gateway_run env event props gateway_id lambda_arn text api_spec s
             Hp Harn Htext Hspec).
  assert (Hnone : default ∅ (OldResourceProperties event) !! "GatewayName" = None).
  { destruct Hold as [-> | (old & -> & Hn)]; [apply lookup_empty | exact Hn]. }
  split.
  - intros [name Hname]. rewrite names_differ_true; [reflexivity |]. congruence.
  - intros Hname. rewrite names_differ_false; [reflexivity |]. congruence.
Qed.

End OldProperties.

Lemma update_without_old_name_replaces_witness :
  let event := demo_event "Update" "demo" None (Some "gw-1") in
  update_gateway (fake_env ∅ None) event (demo_props "demo") (start fake1)
  = (delete_gateway (fake_env ∅ None) event;;;
     create_gateway (fake_env ∅ None) event (demo_props "demo")) (start fake1).
Proof.
  intros event.
  apply (proj1 (update_without_old_name_replaces (fake_env ∅ None) event
                  (demo_props "demo") "gw-1" "arn:aws:lambda:fn" "[]" "[]"
                  (start fake1) eq_refl eq_refl eq_refl eq_refl
                  (or_introl eq_refl))).
  eexists. reflexivity.
Defined.

(** * Failed invocations *)

Section Failure.

Context {W Doc : Type} (env : Env W Doc).

(** X24: what a failed invocation reports.  When the dispatched operation
    raises, the callback (deliverable, with its fields present) is FAILED
    with the message of the exception, or the default reason when the
    message is empty, no data, and the physical id of the event, ["NONE"]
    when the event has none: the id of a gateway created earlier in the
    invocation is not reported.  The callback is the only call made after
    the failure and the store is not touched. *)
Theorem handler_failure_reports_event_id event request_type props stack_id
    request_id logical_id url (s s1 : State W Doc) e :
  RequestType event = Some request_type ->
  ResourceProperties event = Some props ->
  StackId event = Some stack_id ->
  RequestId event = Some request_id ->
  LogicalResourceId event = Some logical_id ->
  ResponseURL event = Some url ->
  (forall body w, (env_http_put env url body w).2 = Ok tt) ->
  dispatch env request_type event props s = (s1, Raise e) ->
  let body :=
    {| rb_Status := "FAILED";
       rb_Reason := if String.eqb (str e) "" then "FAILED: See CloudWatch logs"
                    else str e;
       rb_PhysicalResourceId := default "NONE" (PhysicalResourceId event);
       rb_StackId := stack_id; rb_RequestId := request_id;
       rb_LogicalResourceId := logical_id; rb_Data := ∅ |} in
  exists s',
    handler env event s = (s', Ok body) /\
    trace s' = trace s1 ++ [CHttpPut url body] /\
    ssm s' = ssm s1.
Proof.
  intros Hrt Hprops Hst Hrq Hlg Hurl Hdeliver Hd body.
  rewrite (handler_run env event request_type props s Hrt Hprops).
  unfold try_catch. rewrite Hd.
  destruct (send_response_delivered env event "FAILED" (Some (str e)) None None
              stack_id request_id logical_id url s1 Hst Hrq Hlg Hurl Hdeliver)
    as [w Hrun].
  cbv zeta in Hrun. rewrite Hrun.
  eexists. split; [reflexivity |]. split; reflexivity.
Qed.

End Failure.

Lemma handler_failure_reports_event_id_witness :
  exists s' body,
    handler (fake_env {[ "get_gateway" := "ThrottlingException" ]} None)
      same_name_event (start fake1) = (s', Ok body) /\
    rb_Status body = "FAILED" /\
    rb_Reason body = "ThrottlingException" /\
    rb_PhysicalResourceId body = "gw-1" /\
    rb_Data body = ∅.
Proof.
  assert (Hd : exists s1,
            dispatch (fake_env {[ "get_gateway" := "ThrottlingException" ]} None)
              "Update" same_name_event (demo_props "demo") (start fake1)
            = (s1, Raise (ClientError "ThrottlingException")))
    by (eexists; vm_compute; reflexivity).
  destruct Hd as [s1 Hd].
  assert (Hnone : ({[ "get_gateway" := "ThrottlingException" ]} : gmap string string)
                    !! "http_put" = None)
    by (apply lookup_singleton_ne; discriminate).
  destruct (handler_failure_reports_event_id
              (fake_env {[ "get_gateway" := "ThrottlingException" ]} None)
              same_name_event "Update" (demo_props "demo")
              "stack" "req" "Gateway" "https://cfn/callback" (start fake1) s1
              (ClientError "ThrottlingException")
              eq_refl eq_refl eq_refl eq_refl eq_refl eq_refl
              (fake_http_never_fails _ None Hnone "https://cfn/callback") Hd)
    as (s' & Hrun & _).
  eexists s', _. split; [exact Hrun |]. repeat split.
Defined.

(** * Transient errors *)

(** [contains] is the substring test. *)
Lemma prefix_iff (a b : string) :
  String.prefix a b = true <-> exists post, b = a +:+ post.
Proof.
  revert b. induction a as [|c a IH]; intros b.
  - split; [intros _; exists b; reflexivity | intros _; destruct b; reflexivity].
  - destruct b as [|c' b]; simpl;
      [split; [discriminate | intros [post Hp]; discriminate] |].
    destruct (Ascii.ascii_dec c c') as [-> | Hne].
    + rewrite IH. split; intros [post Hp]; exists post.
      * simpl. rewrite Hp. reflexivity.
      * simpl in Hp. injection Hp as ->. reflexivity.
    + split; [discriminate | intros [post Hp]].
      simpl in Hp. injection Hp as Hc _. congruence.
Qed.

Lemma contains_iff (needle hay : string) :
  contains needle hay = true <-> exists pre post, hay = pre +:+ needle +:+ post.
Proof.
  induction hay as [|c hay IH].
  - change (contains needle "") with (String.prefix needle "" || false).
    rewrite orb_false_r, prefix_iff. split.
    + intros [post Hp]. exists "", post. exact Hp.
    + intros (pre & post & Hp). destruct pre; [exists post; exact Hp |].
      discriminate.
  - change (contains needle (String c hay))
      with (String.prefix needle (String c hay) || contains needle hay).
    rewrite orb_true_iff, prefix_iff, IH. split.
    + intros [[post Hp] | (pre & post & Hp)].
      * exists "", post. exact Hp.
      * exists (String c pre), post. simpl. rewrite Hp. reflexivity.
    + intros (pre & post & Hp). destruct pre as [|c' pre].
      * left. exists post. exact Hp.
      * right. simpl in Hp. injection Hp as _ Hp. eauto.
Qed.

(** X25: which errors are retried.  A failed target creation is taken for
    transient exactly when the text of the error has CREATING or UPDATING
    (in capitals) as a substring, wherever it stands. *)
Theorem transient_iff_substring (e : exn) :
  transient e = true <->
  exists pre post,
    str e = pre +:+ "CREATING" +:+ post \/ str e = pre +:+ "UPDATING" +:+ post.
Proof.
  unfold transient. rewrite orb_true_iff, !contains_iff. split.
  - intros [(pre & post & H) | (pre & post & H)]; exists pre, post; auto.
  - intros (pre & post & [H | H]); [left | right]; eauto.
Qed.

(** * The code-interpreter tools *)

Section InterpreterTools.

Import Interpreter.

Context {W C J : Type} (env : Env W C J).

Abbreviation ToolsT := (Tools W C).

Lemma get_client_cached client (self : ToolsT) :
  code_client self = Some client ->
  get_code_interpreter_client env self = (self, Ok client).
Proof. intros H. unfold get_code_interpreter_client. rewrite H. reflexivity. Qed.

(** What one [execute_python] does to the object. *)
Lemma execute_python_step code description (self : ToolsT) :
  let self' := (execute_python env code description self).1 in
  exists l,
    trace self' = trace self ++ l /\
    region self' = region self /\
    match code_client self with
    | Some client =>
        code_client self' = Some client /\
        l = [Invoke client "executeCode" (annotated code description) "python" false]
    | None =>
        l = [New (region self)] /\ code_client self' = None \/
        exists client,
          code_client self' = Some client /\
          (l = [New (region self); Start client] \/
           l = [New (region self); Start client;
                Invoke client "executeCode" (annotated code description) "python" false])
    end.
Proof.
  cbv zeta. unfold execute_python, get_code_interpreter_client.
  destruct (code_client self) as [client|] eqn:Hc.
  - destruct (client_invoke env client _ _ _ _ (world self)) as [w [resp|e]];
      [destruct (stream resp) as [[|[j|] evs]|] |];
      simpl; eexists; (split; [reflexivity |]); auto.
  - destruct (code_interpreter env (region self) (world self)) as [w [client|e]].
    2:{ simpl. eexists. split; [reflexivity |]. auto. }
    destruct (client_start env client w) as [w' [[]|e]].
    2:{ simpl. eexists. split; [rewrite <- app_assoc; reflexivity |].
        split; [reflexivity |]. right. exists client. auto. }
    simpl.
    destruct (client_invoke env client _ _ _ _ w') as [w2 [resp|e]];
      [destruct (stream resp) as [[|[j|] evs]|] |];
      simpl; (eexists; split; [rewrite <- !app_assoc; reflexivity |]);
      (split; [reflexivity |]); right; exists client; auto.
Qed.

Lemma execute_all_cached client requests :
  forall self : ToolsT,
  code_client self = Some client ->
  exists l,
    trace (execute_all env requests self) = trace self ++ l /\
    code_client (execute_all env requests self) = Some client /\
    Forall (fun c => invoked c = Some client) l.
Proof.
  induction requests as [|[code description] rest IH]; intros self Hc; simpl.
  - exists []. rewrite app_nil_r. auto.
  - destruct (execute_python_step code description self) as (l1 & Ht1 & _ & H1).
    cbv zeta in Ht1, H1. rewrite Hc in H1. destruct H1 as [Hc1 ->].
    destruct (IH _ Hc1) as (l2 & Ht2 & Hc2 & Hl2).
    eexists. split; [rewrite Ht2, Ht1, <- app_assoc; reflexivity |].
    split; [exact Hc2 |]. constructor; [reflexivity | exact Hl2].
Qed.

Lemma count_invoked_start client (l : list (call C)) :
  Forall (fun c => invoked c = Some client) l -> count is_start l = 0%nat.
Proof.
  induction 1 as [|c l Hc _ IH]; simpl; [reflexivity |].
  destruct c; try discriminate. exact IH.
Qed.

(** X20: the tools start the sandbox once.  Over any session, whatever the
    calls return or raise, the tools' own code calls [start] at most once,
    passes every invocation to one and the same client, and, once the
    object holds a client, calls nothing but [invoke] on it.  (A session
    start that the client library makes inside [invoke] is not a call of
    the tools and is not counted.) *)
Theorem execute_all_starts_once requests :
  forall self : ToolsT,
  exists l,
    trace (execute_all env requests self) = trace self ++ l /\
    (count is_start l <= 1)%nat /\
    (forall c1 c2 a b, In c1 l -> In c2 l ->
       invoked c1 = Some a -> invoked c2 = Some b -> a = b) /\
    (forall client, code_client self = Some client ->
       Forall (fun c => invoked c = Some client) l).
Proof.
  assert (Hsame : forall client (l : list (call C)),
            Forall (fun c => invoked c = Some client) l ->
            forall c1 c2 a b, In c1 l -> In c2 l ->
              invoked c1 = Some a -> invoked c2 = Some b -> a = b).
  { intros client l Hl c1 c2 a b H1 H2 Ha Hb.
    rewrite List.Forall_forall in Hl.
    rewrite (Hl _ H1) in Ha. rewrite (Hl _ H2) in Hb. congruence. }
  induction requests as [|[code description] rest IH]; intros self; simpl.
  - exists []. rewrite app_nil_r. simpl. repeat split; auto; contradiction.
  - destruct (code_client self) as [client|] eqn:Hc.
    { destruct (execute_all_cached client ((code, description) :: rest) self Hc)
        as (l & Ht & _ & Hl).
      exists l. split; [exact Ht |].
      split; [rewrite (count_invoked_start client l Hl); lia |].
      split; [exact (Hsame client l Hl) |].
      intros client' [= <-]. exact Hl. }
    destruct (execute_python_step code description self) as (l1 & Ht1 & _ & H1).
    cbv zeta in Ht1, H1. rewrite Hc in H1.
    destruct H1 as [[-> Hnone] | (client & Hc1 & Hl1)].
    + destruct (IH (execute_python env code description self).1)
        as (l2 & Ht2 & Hcount & Hinv & _).
      exists ([New (region self)] ++ l2).
      split; [rewrite Ht2, Ht1, <- app_assoc; reflexivity |].
      split; [exact Hcount |].
      split; [| discriminate].
      intros c1 c2 a b [<- | H1] [<- | H2]; try discriminate; eauto.
    + destruct (execute_all_cached client rest _ Hc1) as (l2 & Ht2 & _ & Hl2).
      assert (Hall : forall c, In c (l1 ++ l2) ->
                forall a, invoked c = Some a -> a = client).
      { intros c Hin a Ha. apply in_app_or in Hin. destruct Hin as [Hin | Hin].
        - destruct Hl1 as [-> | ->]; simpl in Hin;
            repeat (destruct Hin as [<- | Hin]; [simpl in Ha; congruence |]);
            contradiction.
        - rewrite List.Forall_forall in Hl2. rewrite (Hl2 _ Hin) in Ha. congruence. }
      exists (l1 ++ l2).
      split; [rewrite Ht2, Ht1, <- app_assoc; reflexivity |].
      split.
      { rewrite count_app, (count_invoked_start client l2 Hl2).
        destruct Hl1 as [-> | ->]; simpl; lia. }
      split; [| discriminate].
      intros c1 c2 a b H1 H2 Ha Hb.
      rewrite (Hall _ H1 _ Ha), (Hall _ H2 _ Hb). reflexivity.
Qed.

(** X21: a client whose [start] failed is kept.  When the first use
    creates the client and its [start] raises, the error propagates and the
    client stays in [_code_client]; for every later request of the session
    the tools' own code neither creates a client nor calls [start] again:
    it only calls [invoke] on the kept client (which may start a session of
    its own accord, or fail again). *)
Theorem failed_start_keeps_client code description client w w' e (self : ToolsT) :
  code_client self = None ->
  code_interpreter env (region self) (world self) = (w, Ok client) ->
  client_start env client w = (w', Raise e) ->
  let failed := execute_python env code description self in
  failed.2 = Raise e /\
  code_client failed.1 = Some client /\
  trace failed.1 = trace self ++ [New (region self); Start client] /\
  forall requests,
    exists l,
      trace (execute_all env requests failed.1) = trace failed.1 ++ l /\
      Forall (fun c => invoked c = Some client) l.
Proof.
  intros Hc Hnew Hstart failed.
  assert (Hrun : failed = (step (Start client) w' (Some client)
                             (step (New (region self)) w (Some client) self),
                           Raise e)).
  { unfold failed, execute_python, get_code_interpreter_client.
    rewrite Hc, Hnew, Hstart. reflexivity. }
  rewrite Hrun. simpl.
  split; [reflexivity |]. split; [reflexivity |].
  split; [rewrite <- app_assoc; reflexivity |].
  intros requests.
  match goal with |- context [execute_all env requests ?s1] =>
    destruct (execute_all_cached client requests s1 eq_refl) as (l & Ht & _ & Hl)
  end.
  exists l. split; [exact Ht | exact Hl].
Qed.

(** X22: [cleanup] stops the client once.  A cleanup that returns has released
    the client, so that a second cleanup does nothing and the next use
    creates a new sandbox; a cleanup whose [stop] raises keeps the client. *)
Theorem cleanup_releases_client (self self' : ToolsT) r :
  cleanup env self = (self', r) ->
  trace self' = trace self
                ++ match code_client self with
                   | Some client => [Stop client]
                   | None => []
                   end /\
  match r with
  | Ok _ =>
      code_client self' = None /\
      cleanup env self' = (self', Ok tt) /\
      forall code description,
        exists l,
          trace (execute_python env code description self').1
            = trace self' ++ New (region self) :: l
  | Raise _ => code_client self' = code_client self /\ code_client self <> None
  end.
Proof.
  unfold cleanup at 1. destruct (code_client self) as [client|] eqn:Hc.
  - destruct (client_stop env client (world self)) as [w [[]|e]];
      intros [= <- <-]; (split; [reflexivity |]).
    + split; [reflexivity |]. split; [reflexivity |].
      intros code description.
      destruct (execute_python_step code description
                  (step (Stop client) w None self)) as (l & Ht & _ & Hl).
      cbv zeta in Ht, Hl. simpl code_client in Hl. simpl region in Hl.
      destruct Hl as [[-> _] | (c & _ & [-> | ->])]; rewrite Ht; eauto.
    + split; [reflexivity | discriminate].
  - intros [= <- <-]. rewrite app_nil_r. split; [reflexivity |].
    split; [exact Hc |].
    split; [unfold cleanup; rewrite Hc; reflexivity |].
    intros code description.
    destruct (execute_python_step code description self) as (l & Ht & _ & Hl).
    cbv zeta in Ht, Hl. rewrite Hc in Hl.
    destruct Hl as [[-> _] | (c & _ & [-> | ->])]; rewrite Ht; eauto.
Qed.

(** X23: only the first event of the stream is read.  Once the client is
    obtained, one [executeCode] invocation is made for the code, prefixed by
    the description as a comment line when one is given; the result is the
    JSON text of the first event's result, whatever events follow, [None]
    for an empty stream, and a [KeyError] when the response has no stream
    or the first event no result. *)
Theorem execute_python_reads_first_event code description client w response
    (self self1 : ToolsT) :
  get_code_interpreter_client env self = (self1, Ok client) ->
  client_invoke env client "executeCode" (annotated code description) "python" false
    (world self1) = (w, Ok response) ->
  let run := execute_python env code description self in
  trace run.1
    = trace self1
      ++ [Invoke client "executeCode" (annotated code description) "python" false] /\
  (stream response = Some [] -> run.2 = Ok None) /\
  (forall result rest, stream response = Some (Some result :: rest) ->
     run.2 = Ok (Some (json_dumps env result))) /\
  (forall rest, stream response = Some (None :: rest) ->
     run.2 = Raise (KeyError "result")) /\
  (stream response = None -> run.2 = Raise (KeyError "stream")) /\
  (description = "" -> annotated code description = code) /\
  (description <> "" ->
     annotated code description = "# " +:+ description +:+ newline +:+ code).
Proof.
  intros Hget Hinvoke run. unfold run, execute_python. rewrite Hget, Hinvoke.
  split.
  { destruct (stream response) as [[|[j|] evs]|]; reflexivity. }
  split; [intros ->; reflexivity |].
  split; [intros result rest ->; reflexivity |].
  split; [intros rest ->; reflexivity |].
  split; [intros ->; reflexivity |].
  split; [intros ->; reflexivity |].
  intros Hne. unfold annotated.
  destruct (String.eqb_spec description ""); [contradiction | reflexivity].
Qed.

End InterpreterTools.

Lemma failed_start_keeps_client_witness :
  let env := fake_sandbox [0%nat] (Some [Some "2"]) in
  let failed := Interpreter.execute_python env "1 + 1" ""
                  (Interpreter.init "us-east-1" 0%nat) in
  failed.2 = Raise (ClientError "start failed") /\
  Interpreter.code_client failed.1 = Some 0%nat /\
  (Interpreter.execute_python env "2 + 2" "" failed.1).2
    = Raise (ClientError "start failed") /\
  Interpreter.trace
    (Interpreter.execute_all env [("2 + 2", ""); ("3 + 3", "")] failed.1)
    = [Interpreter.New "us-east-1"; Interpreter.Start 0%nat;
       Interpreter.Invoke 0%nat "executeCode" "2 + 2" "python" false;
       Interpreter.Invoke 0%nat "executeCode" "3 + 3" "python" false].
Proof.
  intros env failed.
  destruct (failed_start_keeps_client env "1 + 1" "" 0%nat 1%nat 1%nat
              (ClientError "start failed") (Interpreter.init "us-east-1" 0%nat)
              eq_refl eq_refl eq_refl)
    as (Hraise & Hclient & _ & _).
  split; [exact Hraise |]. split; [exact Hclient |].
  split; vm_compute; reflexivity.
Defined.

Lemma cleanup_releases_client_witness :
  let env := fake_sandbox [] (Some [Some "2"]) in
  let used := (Interpreter.execute_python env "1 + 1" ""
                 (Interpreter.init "us-east-1" 0%nat)).1 in
  let cleaned := (Interpreter.cleanup env used).1 in
  Interpreter.code_client used = Some 0%nat /\
  Interpreter.code_client cleaned = None /\
  Interpreter.cleanup env cleaned = (cleaned, Ok tt).
Proof.
  intros env used cleaned.
  pose proof (cleanup_releases_client env used cleaned (Ok tt) eq_refl)
    as (_ & Hnone & Hagain & _).
  split; [reflexivity |]. split; [exact Hnone | exact Hagain].
Defined.

Lemma execute_python_reads_first_event_witness :
  let env := fake_sandbox [] (Some [Some "2"; Some "ignored"]) in
  (Interpreter.execute_python env "1 + 1" "add"
     (Interpreter.init "us-east-1" 0%nat)).2 = Ok (Some "2").
Proof.
  intros env.
  destruct (execute_python_reads_first_event env "1 + 1" "add" 0%nat 1%nat
              {| Interpreter.stream := Some [Some "2"; Some "ignored"] |}
              (Interpreter.init "us-east-1" 0%nat) _ eq_refl eq_refl)
    as (_ & _ & Hfirst & _).
  exact (Hfirst "2" [Some "ignored"] eq_refl).
Defined.
